(** * Covered-call backtester: pricing, strategy engine, cash-floor monitor
      and day loop, embedded from the Python sources.

    Numbers.  Python [float]s are idealised as real numbers ([R]), so every
    equation below is exact where the program computes up to rounding, no
    float is out of range and an [int] of any size becomes one; [int]s are
    [Z]; a [datetime.date] is its proleptic ordinal ([date.toordinal()]),
    so [(d1 - d2).days] is [d1 - d2] and [d + timedelta(days=n)] is [d + n]
    when that is the ordinal of a date ([date_plus_days]).  A [nan] entry of
    a numpy array is [None] in a [list (option R)].  [norm.cdf] is the
    standard normal distribution function, defined as an integral of its
    density.

    Exceptions are values of [exn], threaded through the [result] monad.
    [ZeroDivisionError] is raised where the program divides a float by an
    [int] that is zero or by a price that is zero ([select_strike],
    [analyze_strike], [should_roll]), and where it prices a strike of 0.0
    for a sale or an analysis: the [S / K] of [black_scholes_call] and
    [call_delta], in [select_strike] and [analyze_strike].  In
    [should_roll] the dividend is a builtin [float] or a [numpy.float64]
    depending on how the premium was priced, and only the former raises:
    the position records the class, and the quotient of the latter is
    followed as [inf] or [nan].  [OverflowError] is raised where
    [sell_call] dates the expiration and the sum is not a date.

    Where the strike of a position already open is priced again
    ([should_roll], the buyback of [roll_position], the mark-to-market of
    the day loop) the formulas are read for a strike that is not 0.0;
    [sell_call] installs no other when it prices the call with time left
    and at a positive volatility, as every sale of a run with positive days
    to expiry does.

    The free-text [details] of a trade and the formatted warning texts are
    left out; a warning is kept as the rule that produced it. *)

From Stdlib Require Import Reals Lra ZArith Lia List Bool Sorted Permutation.
Import ListNotations.

Open Scope R_scope.

(* ================================================================== *)
(** * Exceptions *)

Inductive exn : Type :=
| ValueError          (* "Need at least 30 trading days for backtest" *)
| ZeroDivisionError
| OverflowError
| TypeError.

Inductive result (A : Type) : Type :=
| Ok (a : A)
| Raise (e : exn).

Arguments Ok {A} a.
Arguments Raise {A} e.

Definition bind {A B : Type} (m : result A) (k : A -> result B) : result B :=
  match m with
  | Ok a => k a
  | Raise e => Raise e
  end.

Notation "x <- m ;; k" := (bind m (fun x => k))
  (at level 61, m at next level, right associativity).
Notation "' pat <- m ;; k" := (bind m (fun x => match x with pat => k end))
  (at level 61, pat pattern, m at next level, right associativity).

(* ================================================================== *)
(** * Comparisons on floats, as booleans *)

Definition Rltb (x y : R) : bool := if Rlt_dec x y then true else false.
Definition Rleb (x y : R) : bool := if Rle_dec x y then true else false.
Definition Rgtb (x y : R) : bool := Rltb y x.
Definition Rgeb (x y : R) : bool := Rleb y x.
Definition Reqb (x y : R) : bool := if Req_dec_T x y then true else false.

(* ================================================================== *)
(** * Float objects *)

(** A number the program computes is a builtin [float] or a
    [numpy.float64]: what [np.exp], [np.log] and [norm.cdf] return, and
    what arithmetic on one returns.  The two differ in the division by
    zero. *)
Inductive float_class : Type :=
| builtin_float
| numpy_float64.

(** The value of a float expression that may have left the reals. *)
Inductive double : Type :=
| Fin (x : R)
| PosInf
| NegInf
| NaN.

(** [x / n] for a float [x] of class [c] and an [int] [n].  By zero, a
    builtin [float] raises; a [numpy.float64] gives [nan] for [0.0 / 0] and
    an infinity of the sign of [x] otherwise (and a RuntimeWarning). *)
Definition true_divide (c : float_class) (x : R) (n : Z) : result double :=
  if (n =? 0)%Z then
    match c with
    | builtin_float => Raise ZeroDivisionError
    | numpy_float64 =>
        Ok (if Reqb x 0 then NaN else if Rltb 0 x then PosInf else NegInf)
    end
  else Ok (Fin (x / IZR n)).

(** [a - y] and [a * y] for a finite [y]; [a >= b], false on a [nan]. *)
Definition double_sub (a : double) (y : R) : double :=
  match a with
  | Fin x => Fin (x - y)
  | PosInf => PosInf
  | NegInf => NegInf
  | NaN => NaN
  end.

Definition double_mul (a : double) (y : R) : double :=
  match a with
  | Fin x => Fin (x * y)
  | PosInf => if Reqb y 0 then NaN else if Rltb 0 y then PosInf else NegInf
  | NegInf => if Reqb y 0 then NaN else if Rltb 0 y then NegInf else PosInf
  | NaN => NaN
  end.

Definition double_ge (a b : double) : bool :=
  match a, b with
  | NaN, _ => false
  | _, NaN => false
  | Fin x, Fin y => Rgeb x y
  | PosInf, _ => true
  | _, NegInf => true
  | _, _ => false
  end.

(* ================================================================== *)
(** * scipy.stats.norm *)

(** [norm.pdf]: the density of the standard normal distribution. *)
Definition norm_pdf (t : R) : R := exp (- (t * t) / 2) / sqrt (2 * PI).

Lemma norm_pdf_continuity : continuity norm_pdf.
Proof.
  unfold norm_pdf.
  apply continuity_div.
  - apply (continuity_comp (fun t => - (t * t) / 2) exp).
    + unfold Rdiv. apply continuity_mult.
      * apply continuity_opp. apply continuity_mult; apply derivable_continuous, derivable_id.
      * apply continuity_const. intros x y. reflexivity.
    + apply derivable_continuous, derivable_exp.
  - apply continuity_const. intros x y. reflexivity.
  - intros x H. apply sqrt_eq_0 in H.
    + pose proof PI_RGT_0. lra.
    + pose proof PI_RGT_0. lra.
Qed.

Lemma norm_pdf_integrable (a b : R) : Riemann_integrable norm_pdf a b.
Proof.
  destruct (Rle_dec a b) as [Hab | Hab].
  - apply continuity_implies_RiemannInt; [exact Hab |].
    intros x _. apply norm_pdf_continuity.
  - apply RiemannInt_P1.
    apply continuity_implies_RiemannInt; [lra |].
    intros x _. apply norm_pdf_continuity.
Qed.

(** [norm.cdf]: the standard normal distribution function, one half plus the
    (signed) integral of the density from 0 to [x]. *)
Definition norm_cdf (x : R) : R := 1 / 2 + RiemannInt (norm_pdf_integrable 0 x).

(* ================================================================== *)
(** * pricing.py *)

(** Price of a European call (Black-Scholes): the value the function
    returns.  Its last branch evaluates [S / K], which raises for a strike
    of 0.0 ([black_scholes_call_divides_by_zero]). *)
Definition black_scholes_call (S K T r sigma : R) : R :=
  if Rleb T 0 then Rmax (S - K) 0
  else if Rleb sigma 0 then Rmax (S * exp (- r * T) - K * exp (- r * T)) 0
  else
    let d1 := (ln (S / K) + (r + 0.5 * sigma ^ 2) * T) / (sigma * sqrt T) in
    let d2 := d1 - sigma * sqrt T in
    S * norm_cdf d1 - K * exp (- r * T) * norm_cdf d2.

(** The class of the object [black_scholes_call] returns on [float]
    arguments.  [max(S - K, 0.0)] is a [float].  [max(a, 0.0)] is its first
    argument, here a [numpy.float64], unless [0.0 > a].  The last line is
    numpy arithmetic. *)
Definition black_scholes_call_class (S K T r sigma : R) : float_class :=
  if Rleb T 0 then builtin_float
  else if Rleb sigma 0 then
    if Rltb (S * exp (- r * T) - K * exp (- r * T)) 0 then builtin_float
    else numpy_float64
  else numpy_float64.

(** Delta of a European call: the value the function returns. *)
Definition call_delta (S K T r sigma : R) : R :=
  if Rleb T 0 then (if Rgtb S K then 1 else 0)
  else
    let d1 := (ln (S / K) + (r + 0.5 * sigma ^ 2) * T) / (sigma * sqrt T) in
    norm_cdf d1.

(** [S / K] on two [float]s raises [ZeroDivisionError] when [K] is 0.0.
    [black_scholes_call] gets to it past its two early returns, [call_delta]
    past its one.  (The quotient by [sigma * np.sqrt(T)] is numpy
    arithmetic and raises nothing.) *)
Definition black_scholes_call_divides_by_zero (K T sigma : R) : bool :=
  negb (Rleb T 0) && negb (Rleb sigma 0) && Reqb K 0.

Definition call_delta_divides_by_zero (K T : R) : bool :=
  negb (Rleb T 0) && Reqb K 0.

(** Fill price when selling: the bid, below mid. *)
Definition apply_bid_ask_slippage (theoretical_price spread_pct : R) : R :=
  theoretical_price * (1 - spread_pct / 2).

(** ** numpy helpers used by [implied_volatility_from_history] *)

Definition np_sum (xs : list R) : R := fold_right Rplus 0 xs.

Definition np_mean (xs : list R) : R := np_sum xs / INR (length xs).

(** All entries of an array when none is [nan]. *)
Fixpoint all_finite (xs : list (option R)) : option (list R) :=
  match xs with
  | [] => Some []
  | Some x :: rest => option_map (cons x) (all_finite rest)
  | None :: _ => None
  end.

(** [np.std] (population standard deviation); [nan] on an empty slice and
    on a slice that holds a [nan]. *)
Definition np_std (xs : list (option R)) : option R :=
  match all_finite xs with
  | None => None
  | Some [] => None
  | Some ys =>
      let m := np_mean ys in
      Some (sqrt (np_mean (map (fun y => (y - m) ^ 2) ys)))
  end.

(** One entry of [np.log(prices[1:] / prices[:-1])]: finite exactly when the
    quotient is defined and positive. *)
Definition np_log_ratio (p_next p_prev : R) : option R :=
  if Reqb p_prev 0 then None
  else if Rltb 0 (p_next / p_prev) then Some (ln (p_next / p_prev))
  else None.

(** [np.log(prices[1:] / prices[:-1])] *)
Fixpoint log_returns_of (prices : list R) : list (option R) :=
  match prices with
  | [] => []
  | p_prev :: rest =>
      match rest with
      | [] => []
      | p_next :: _ => np_log_ratio p_next p_prev :: log_returns_of rest
      end
  end.

(** [a[i] = v] on an array (in range wherever the code uses it). *)
Fixpoint array_set {A : Type} (a : list A) (i : nat) (v : A) : list A :=
  match a, i with
  | [], _ => []
  | _ :: rest, O => v :: rest
  | x :: rest, S j => x :: array_set rest j v
  end.

(** [a[lo:hi]] for [0 <= lo <= hi]. *)
Definition slice {A : Type} (a : list A) (lo hi : nat) : list A :=
  firstn (hi - lo) (skipn lo a).

(** [np.maximum(a, c)]: a [nan] stays a [nan]. *)
Definition np_maximum (a : list (option R)) (c : R) : list (option R) :=
  map (option_map (fun v => Rmax v c)) a.

(** Estimated implied volatility from history; [window] is a non-negative
    int.  The body of the [for] loop is [iv_loop_body]. *)
Definition iv_loop_body (log_returns : list (option R)) (window : nat)
    (iv_premium : R) (iv_series : list (option R)) (i : nat) : list (option R) :=
  let hv := option_map (fun s => s * sqrt 252) (np_std (slice log_returns (i - window) i)) in
  array_set iv_series (i + 1) (option_map (fun h => h * iv_premium) hv).

Definition implied_volatility_from_history (prices : list R) (window : nat)
    (iv_premium : R) : list (option R) :=
  let log_returns := log_returns_of prices in
  let iv_series := repeat (@None R) (length prices) in
  let iv_series :=
    fold_left (iv_loop_body log_returns window iv_premium)
      (seq window (length log_returns - window)) iv_series in
  let first_valid := (window + 1)%nat in
  let iv_series :=
    if (first_valid <? length iv_series)%nat
    then repeat (nth first_valid iv_series None) first_valid ++ skipn first_valid iv_series
    else iv_series in
  np_maximum iv_series 0.30.

(* ================================================================== *)
(** * config.py *)

Record CoveredCallConfig : Type := mkConfig {
  shares : Z;
  min_strike : R;
  strike_candidates : list R;
  target_dte : Z;
  min_dte : Z;
  max_dte : Z;
  roll_dte_threshold : Z;
  roll_profit_pct : R;
  commission_per_contract : R;
  bid_ask_spread_pct : R;
  risk_free_rate : R;
  net_cash_per_share : R;
  cash_burn_per_quarter : R;
  max_portfolio_pct : R
}.

(** The dataclass defaults. *)
Definition default_config : CoveredCallConfig := {|
  shares := 1000;
  min_strike := 2.50;
  strike_candidates := [2.00; 2.50; 3.00; 3.50; 4.00; 5.00];
  target_dte := 30;
  min_dte := 14;
  max_dte := 45;
  roll_dte_threshold := 5;
  roll_profit_pct := 0.80;
  commission_per_contract := 0.65;
  bid_ask_spread_pct := 0.15;
  risk_free_rate := 0.045;
  net_cash_per_share := 1.50;
  cash_burn_per_quarter := 0.10;
  max_portfolio_pct := 0.10
|}.

(* ================================================================== *)
(** * strategy.py *)

Definition date : Type := Z.
Bind Scope Z_scope with date.

(** The ordinals a [datetime.date] holds, 0001-01-01 to 9999-12-31. *)
Definition date_in_range (d : date) : Prop := (1 <= d <= 3652059)%Z.

(** [d + timedelta(days=n)]: [timedelta] raises [OverflowError] for more
    than 999999999 days either way, and the sum does when it is not the
    ordinal of a date. *)
Definition date_plus_days (d : date) (n : Z) : result date :=
  if (Z.abs n <=? 999999999)%Z && (1 <=? d + n)%Z && (d + n <=? 3652059)%Z
  then Ok (d + n)%Z
  else Raise OverflowError.

(** The fields of the dataclass, and with [premium_received] the class of
    the object it holds. *)
Record OptionPosition : Type := mkOptionPosition {
  strike : R;
  expiration : date;
  premium_received : R;   (* net of slippage/commissions *)
  premium_class : float_class;   (* the class of the [premium_received] object *)
  contracts : Z;
  entry_date : date;
  entry_stock_price : R
}.

Inductive Action : Type := SELL_CALL | EXPIRE | CALLED_AWAY | ROLL | BUY_STOCK.

Definition Action_eqb (a b : Action) : bool :=
  match a, b with
  | SELL_CALL, SELL_CALL | EXPIRE, EXPIRE | CALLED_AWAY, CALLED_AWAY
  | ROLL, ROLL | BUY_STOCK, BUY_STOCK => true
  | _, _ => false
  end.

(** A trade-log entry; the fields of the dataclass, prefixed with [trade_]
    where the name is also a field of [OptionPosition] or of the config (the
    free-text [details] is left out). *)
Record TradeRecord : Type := mkTradeRecord {
  trade_date : date;
  action : Action;
  trade_strike : option R;
  trade_expiration : option date;
  premium : R;            (* positive = received, negative = paid *)
  trade_stock_price : R;
  trade_shares : Z
}.

(** The attributes of a [CoveredCallStrategy] object. *)
Record CoveredCallStrategy : Type := mkStrategy {
  config : CoveredCallConfig;
  position : option OptionPosition;
  shares_held : Z;
  trades : list TradeRecord;
  total_premium_collected : R;
  total_commissions : R;
  times_called_away : Z
}.

(** [CoveredCallStrategy.__init__] *)
Definition new_strategy (cfg : CoveredCallConfig) : CoveredCallStrategy := {|
  config := cfg;
  position := None;
  shares_held := 0;
  trades := [];
  total_premium_collected := 0;
  total_commissions := 0;
  times_called_away := 0
|}.

Definition is_some {A : Type} (o : option A) : bool :=
  match o with Some _ => true | None => false end.

(** The [for strike in strike_candidates] loop of [select_strike], on the
    candidates still to visit.  Pricing a candidate of 0.0 raises
    [ZeroDivisionError], in [black_scholes_call] or else in [call_delta];
    so do [365.0 / dte] and [net_price / stock_price] on a zero divisor. *)
Fixpoint select_strike_loop (self : CoveredCallStrategy) (stock_price iv : R)
    (dte : Z) (T : R) (candidates : list R) (best_strike best_score : R)
    : result (R * R) :=
  match candidates with
  | [] => Ok (best_strike, best_score)
  | strike :: rest =>
      if Rltb strike (min_strike (config self)) then
        select_strike_loop self stock_price iv dte T rest best_strike best_score
      else if Rleb strike (stock_price * 1.02) then
        select_strike_loop self stock_price iv dte T rest best_strike best_score
      else if black_scholes_call_divides_by_zero strike T iv
              || call_delta_divides_by_zero strike T then Raise ZeroDivisionError
      else
        let price :=
          black_scholes_call stock_price strike T (risk_free_rate (config self)) iv in
        let delta :=
          call_delta stock_price strike T (risk_free_rate (config self)) iv in
        let net_price :=
          apply_bid_ask_slippage price (bid_ask_spread_pct (config self)) in
        if Rltb net_price 0.01 then
          select_strike_loop self stock_price iv dte T rest best_strike best_score
        else if Reqb stock_price 0 || (dte =? 0)%Z then Raise ZeroDivisionError
        else
          let annualized_return := (net_price / stock_price) * (365 / IZR dte) in
          let assignment_penalty := 1 - 0.5 * delta in
          let score := annualized_return * assignment_penalty in
          if Rgtb score best_score then
            select_strike_loop self stock_price iv dte T rest strike score
          else
            select_strike_loop self stock_price iv dte T rest best_strike best_score
  end.

(** Returns [(strike, theoretical_premium)].  Pricing the strike chosen
    raises [ZeroDivisionError] when it is 0.0. *)
Definition select_strike (self : CoveredCallStrategy) (stock_price iv : R)
    (dte : Z) : result (R * R) :=
  let T := IZR dte / 365 in
  '(best_strike, _) <-
    select_strike_loop self stock_price iv dte T
      (strike_candidates (config self)) (min_strike (config self)) (- 1) ;;
  if black_scholes_call_divides_by_zero best_strike T iv then Raise ZeroDivisionError
  else
    let premium :=
      black_scholes_call stock_price best_strike T (risk_free_rate (config self)) iv in
    Ok (best_strike, premium).

(** Buy the initial stock position. *)
Definition open_stock_position (self : CoveredCallStrategy)
    (current_date : date) (stock_price : R)
    : TradeRecord * CoveredCallStrategy :=
  let trade := {|
    trade_date := current_date;
    action := BUY_STOCK;
    trade_strike := None;
    trade_expiration := None;
    premium := - stock_price * IZR (shares (config self));
    trade_stock_price := stock_price;
    trade_shares := shares (config self)
  |} in
  (trade,
   {| config := config self;
      position := position self;
      shares_held := shares (config self);
      trades := trades self ++ [trade];
      total_premium_collected := total_premium_collected self;
      total_commissions := total_commissions self;
      times_called_away := times_called_away self |}).

(** Sell a covered call against the stock position.  [total_premium] is
    arithmetic on [theoretical_premium] and has its class.  The expiration
    date is [current_date + timedelta(days=dte)]. *)
Definition sell_call (self : CoveredCallStrategy) (current_date : date)
    (stock_price iv : R) (dte : option Z)
    : result (TradeRecord * CoveredCallStrategy) :=
  let dte := match dte with Some d => d | None => target_dte (config self) end in
  '(strike, theoretical_premium) <- select_strike self stock_price iv dte ;;
  let net_premium :=
    apply_bid_ask_slippage theoretical_premium (bid_ask_spread_pct (config self)) in
  let contracts := (shares_held self / 100)%Z in
  let commission := IZR contracts * commission_per_contract (config self) in
  let total_premium := net_premium * IZR contracts * 100 - commission in
  expiration <- date_plus_days current_date dte ;;
  let trade := {|
    trade_date := current_date;
    action := SELL_CALL;
    trade_strike := Some strike;
    trade_expiration := Some expiration;
    premium := total_premium;
    trade_stock_price := stock_price;
    trade_shares := shares_held self
  |} in
  Ok (trade,
      {| config := config self;
         position := Some {|
           strike := strike;
           expiration := expiration;
           premium_received := total_premium;
           premium_class :=
             black_scholes_call_class stock_price strike (IZR dte / 365)
               (risk_free_rate (config self)) iv;
           contracts := contracts;
           entry_date := current_date;
           entry_stock_price := stock_price |};
         shares_held := shares_held self;
         trades := trades self ++ [trade];
         total_premium_collected := total_premium_collected self + total_premium;
         total_commissions := total_commissions self + commission;
         times_called_away := times_called_away self |}).

(** Check if the current option position has expired. *)
Definition check_expiration (self : CoveredCallStrategy) (current_date : date)
    (stock_price : R) : option TradeRecord * CoveredCallStrategy :=
  match position self with
  | None => (None, self)
  | Some pos =>
      if (current_date <? expiration pos)%Z then (None, self)
      else if Rgeb stock_price (strike pos) then
        (* Called away -- shares sold at strike *)
        let trade := {|
          trade_date := current_date;
          action := CALLED_AWAY;
          trade_strike := Some (strike pos);
          trade_expiration := Some (expiration pos);
          premium := 0;
          trade_stock_price := stock_price;
          trade_shares := shares_held self
        |} in
        (Some trade,
         {| config := config self;
            position := None;
            shares_held := 0;
            trades := trades self ++ [trade];
            total_premium_collected := total_premium_collected self;
            total_commissions := total_commissions self;
            times_called_away := times_called_away self + 1 |})
      else
        (* Expired worthless -- keep shares *)
        let trade := {|
          trade_date := current_date;
          action := EXPIRE;
          trade_strike := Some (strike pos);
          trade_expiration := Some (expiration pos);
          premium := 0;
          trade_stock_price := stock_price;
          trade_shares := shares_held self
        |} in
        (Some trade,
         {| config := config self;
            position := None;
            shares_held := shares_held self;
            trades := trades self ++ [trade];
            total_premium_collected := total_premium_collected self;
            total_commissions := total_commissions self;
            times_called_away := times_called_away self |})
  end.

(** Determine if we should roll the current position early.  The division
    by [contracts * 100] is [true_divide]: on a zero divisor it raises for
    a [float] premium and gives [nan] or an infinity for a [numpy.float64]
    one, which the subtraction, the product and the comparison then
    follow. *)
Definition should_roll (self : CoveredCallStrategy) (current_date : date)
    (stock_price iv : R) : result bool :=
  match position self with
  | None => Ok false
  | Some pos =>
      let days_remaining := (expiration pos - current_date)%Z in
      if (days_remaining <=? roll_dte_threshold (config self))%Z then Ok true
      else
        let T := IZR days_remaining / 365 in
        let current_value :=
          black_scholes_call stock_price (strike pos) T
            (risk_free_rate (config self)) iv in
        original_premium_per_share <-
          true_divide (premium_class pos) (premium_received pos)
            (contracts pos * 100) ;;
        let profit_captured := double_sub original_premium_per_share current_value in
        if double_ge profit_captured
             (double_mul original_premium_per_share (roll_profit_pct (config self)))
        then Ok true
        else Ok false
  end.

(** The buyback half of [roll_position], run when a position is open. *)
Definition buy_back (self : CoveredCallStrategy) (pos : OptionPosition)
    (current_date : date) (stock_price iv : R)
    : TradeRecord * CoveredCallStrategy :=
  let days_remaining := (expiration pos - current_date)%Z in
  let T := Rmax (IZR days_remaining / 365) 0.001 in
  let buyback_price :=
    black_scholes_call stock_price (strike pos) T (risk_free_rate (config self)) iv in
  (* When buying, we pay the ask (above mid) *)
  let buyback_cost := buyback_price * (1 + bid_ask_spread_pct (config self) / 2) in
  let contracts := contracts pos in
  let commission := IZR contracts * commission_per_contract (config self) in
  let total_cost := buyback_cost * IZR contracts * 100 + commission in
  let trade := {|
    trade_date := current_date;
    action := ROLL;
    trade_strike := Some (strike pos);
    trade_expiration := Some (expiration pos);
    premium := - total_cost;
    trade_stock_price := stock_price;
    trade_shares := shares_held self
  |} in
  (trade,
   {| config := config self;
      position := None;
      shares_held := shares_held self;
      trades := trades self ++ [trade];
      total_premium_collected := total_premium_collected self;
      total_commissions := total_commissions self + commission;
      times_called_away := times_called_away self |}).

(** Roll: buy back current call, sell new one. *)
Definition roll_position (self : CoveredCallStrategy) (current_date : date)
    (stock_price iv : R) : result (list TradeRecord * CoveredCallStrategy) :=
  let '(trades, self) :=
    match position self with
    | Some pos =>
        let '(trade, self) := buy_back self pos current_date stock_price iv in
        ([trade], self)
    | None => ([], self)
    end in
  (* Sell new call *)
  '(sell_trade, self) <- sell_call self current_date stock_price iv None ;;
  Ok (trades ++ [sell_trade], self).

(* ================================================================== *)
(** * cash_floor.py *)

(** The warning texts, by the rule that produced them (with the numbers the
    text is formatted from). *)
Inductive Warning : Type :=
| Critical                                   (* "CRITICAL: ... fully burned" *)
| Weakened (stock_price : R) (ratio : option R) (est_cash : R)
                                             (* "... thesis weakened." *)
| BelowCash (stock_price est_cash : R)       (* "... trading BELOW estimated cash ..." *)
| BurnAlert (est_cash initial : R).          (* "Cash burn alert: ..." *)

Record CashFloorSnapshot : Type := mkSnapshot {
  snapshot_date : date;
  snapshot_stock_price : R;
  estimated_net_cash_per_share : R;
  market_cap_to_cash_ratio : option R;   (* [None] is [float("inf")] *)
  thesis_intact : bool;
  warning : option Warning
}.

Record CashFloorMonitor : Type := mkMonitor {
  initial_net_cash : R;
  quarterly_burn : R;
  warning_ratio : R;
  danger_ratio : R;
  snapshots : list CashFloorSnapshot
}.

(** [CashFloorMonitor.__init__], with its defaults for the two ratios when
    the caller passes none. *)
Definition new_monitor (initial_net_cash_per_share quarterly_burn_per_share : R)
    : CashFloorMonitor := {|
  initial_net_cash := initial_net_cash_per_share;
  quarterly_burn := quarterly_burn_per_share;
  warning_ratio := 1.5;
  danger_ratio := 0.8;
  snapshots := []
|}.

(** Estimate net cash per share at a given date, accounting for burn. *)
Definition estimate_cash_at_date (self : CashFloorMonitor)
    (start_date current_date : date) : R :=
  let quarters_elapsed := IZR (current_date - start_date) / 90 in
  Rmax (initial_net_cash self - quarterly_burn self * quarters_elapsed) 0.

(** Check the cash floor thesis on a given date. *)
Definition check (self : CashFloorMonitor) (current_date : date)
    (stock_price : R) (start_date : date)
    : CashFloorSnapshot * CashFloorMonitor :=
  let est_cash := estimate_cash_at_date self start_date current_date in
  let ratio := if Rgtb est_cash 0 then Some (stock_price / est_cash) else None in
  let '(warning, thesis_intact) :=
    if Rleb est_cash 0 then (Some Critical, false)
    else if match ratio with
            | Some ratio => Rgtb ratio (warning_ratio self)
            | None => true
            end
    then (Some (Weakened stock_price ratio est_cash), true)
    else if Rltb stock_price (est_cash * danger_ratio self)
    then (Some (BelowCash stock_price est_cash), true)
    else (None, true) in
  let '(warning, thesis_intact) :=
    if Rltb est_cash (initial_net_cash self * 0.5)
    then (Some (BurnAlert est_cash (initial_net_cash self)), false)
    else (warning, thesis_intact) in
  let snapshot := {|
    snapshot_date := current_date;
    snapshot_stock_price := stock_price;
    estimated_net_cash_per_share := est_cash;
    market_cap_to_cash_ratio := ratio;
    thesis_intact := thesis_intact;
    warning := warning
  |} in
  (snapshot,
   {| initial_net_cash := initial_net_cash self;
      quarterly_burn := quarterly_burn self;
      warning_ratio := warning_ratio self;
      danger_ratio := danger_ratio self;
      snapshots := snapshots self ++ [snapshot] |}).

(* ================================================================== *)
(** * backtest.py *)

Record DailyEquity : Type := mkDailyEquity {
  Date : date;
  Equity : R;
  StockPrice : R;
  Cash : R;
  StockValue : R;
  OptionLiability : R;
  IV : R
}.

Record BacktestResult : Type := mkResult {
  total_return_pct : R;
  annualized_return_pct : R;
  stock_only_return_pct : R;
  excess_return_pct : R;
  result_total_premium_collected : R;
  result_total_commissions : R;
  net_premium : R;
  premium_yield_pct : R;
  max_drawdown_pct : R;
  sharpe_ratio : R;
  num_trades : nat;
  result_times_called_away : Z;
  avg_days_per_cycle : R;
  result_trades : list TradeRecord;
  daily_equity : list DailyEquity;
  cash_floor_warnings : list (date * Warning)
}.

(** The variables the day loop of [CoveredCallBacktest.run] updates. *)
Record LoopState : Type := mkLoopState {
  strategy : CoveredCallStrategy;
  cash_monitor : CashFloorMonitor;
  cash : R;
  equity_curve : list DailyEquity;
  cash_warnings : list (date * Warning)
}.

(** [df.sort_values("Date")]: rows in ascending date order. *)
Fixpoint insert_row (row : date * R) (rows : list (date * R)) : list (date * R) :=
  match rows with
  | [] => [row]
  | r :: rest =>
      if (fst row <? fst r)%Z then row :: r :: rest
      else r :: insert_row row rest
  end.

Fixpoint sort_values (rows : list (date * R)) : list (date * R) :=
  match rows with
  | [] => []
  | r :: rest => insert_row r (sort_values rest)
  end.

(** Day loop, first block: "Day 0: buy stock and sell first call". *)
Definition buy_and_sell_first_call (self_config : CoveredCallConfig) (i : nat)
    (current_date : date) (stock_price iv : R)
    (strategy : CoveredCallStrategy) (cash : R)
    : result (CoveredCallStrategy * R) :=
  if (shares_held strategy =? 0)%Z && negb (is_some (position strategy)) then
    if (i =? 0)%nat || (times_called_away strategy >? 0)%Z then
      (* Buy stock *)
      let '(buy_trade, strategy) :=
        open_stock_position strategy current_date stock_price in
      let cost := stock_price * IZR (shares self_config) in
      let cash := cash - cost in
      (* Sell first call *)
      '(sell_trade, strategy) <- sell_call strategy current_date stock_price iv None ;;
      Ok (strategy, cash + premium sell_trade)
    else Ok (strategy, cash)
  else Ok (strategy, cash).

(** Day loop, second block: "Check for expiration", and the [elif] under
    it, "Check for early roll opportunity".  Both conditions read
    [strategy.position] before either body runs. *)
Definition expire_or_roll (current_date : date) (stock_price iv : R)
    (strategy : CoveredCallStrategy) (cash : R)
    : result (CoveredCallStrategy * R) :=
  if is_some (position strategy) then
    let '(exp_trade, strategy) := check_expiration strategy current_date stock_price in
    match exp_trade with
    | None => Ok (strategy, cash)
    | Some exp_trade =>
        cash <-
          (if Action_eqb (action exp_trade) CALLED_AWAY then
             (* Receive strike price * shares *)
             match trade_strike exp_trade with
             | Some k => Ok (cash + IZR (shares (config strategy)) * k)
             | None => Raise TypeError
             end
           else Ok cash) ;;
        (* If expired worthless, just sell a new call *)
        if Action_eqb (action exp_trade) EXPIRE then
          '(sell_trade, strategy) <- sell_call strategy current_date stock_price iv None ;;
          Ok (strategy, cash + premium sell_trade)
        else Ok (strategy, cash)
    end
  else if is_some (position strategy) then
    b <- should_roll strategy current_date stock_price iv ;;
    if b then
      '(roll_trades, strategy) <- roll_position strategy current_date stock_price iv ;;
      Ok (strategy, fold_left (fun cash t => cash + premium t) roll_trades cash)
    else Ok (strategy, cash)
  else Ok (strategy, cash).

(** Day loop, "Mark-to-market the short call". *)
Definition mark_to_market (self_config : CoveredCallConfig)
    (strategy : CoveredCallStrategy) (current_date : date) (stock_price iv : R) : R :=
  match position strategy with
  | None => 0
  | Some pos =>
      let days_remaining := (expiration pos - current_date)%Z in
      if (days_remaining >? 0)%Z then
        let T := IZR days_remaining / 365 in
        black_scholes_call stock_price (strike pos) T (risk_free_rate self_config) iv
        * IZR (contracts pos) * 100
      else 0
  end.

(** The body of [for i, row in df.iterrows()]. *)
Definition day (self_config : CoveredCallConfig) (iv_series : list (option R))
    (backtest_start : date) (i : nat) (row : date * R) (st : LoopState)
    : result LoopState :=
  let current_date := fst row in
  let stock_price := snd row in
  let iv := match nth i iv_series None with Some v => v | None => 0.50 end in
  '(strategy, cash) <-
    buy_and_sell_first_call self_config i current_date stock_price iv
      (strategy st) (cash st) ;;
  '(strategy, cash) <- expire_or_roll current_date stock_price iv strategy cash ;;
  (* Cash floor check (weekly) *)
  let '(cash_monitor, cash_warnings) :=
    if (i mod 5 =? 0)%nat then
      let '(snapshot, cash_monitor) :=
        check (cash_monitor st) current_date stock_price backtest_start in
      match warning snapshot with
      | Some w => (cash_monitor, cash_warnings st ++ [(current_date, w)])
      | None => (cash_monitor, cash_warnings st)
      end
    else (cash_monitor st, cash_warnings st) in
  (* Calculate daily equity *)
  let stock_value := IZR (shares_held strategy) * stock_price in
  let option_liability :=
    mark_to_market self_config strategy current_date stock_price iv in
  let total_equity := cash + stock_value - option_liability in
  Ok {| strategy := strategy;
        cash_monitor := cash_monitor;
        cash := cash;
        equity_curve := equity_curve st ++ [{|
          Date := current_date;
          Equity := total_equity;
          StockPrice := stock_price;
          Cash := cash;
          StockValue := stock_value;
          OptionLiability := option_liability;
          IV := iv |}];
        cash_warnings := cash_warnings |}.

(** [for i, row in df.iterrows()], from row number [i] on. *)
Fixpoint day_loop (self_config : CoveredCallConfig) (iv_series : list (option R))
    (backtest_start : date) (rows : list (date * R)) (i : nat) (st : LoopState)
    : result LoopState :=
  match rows with
  | [] => Ok st
  | row :: rest =>
      st <- day self_config iv_series backtest_start i row st ;;
      day_loop self_config iv_series backtest_start rest (S i) st
  end.

(** ** Metrics computed after the loop *)

(** [np.maximum.accumulate] *)
Fixpoint maximum_accumulate_from (m : R) (xs : list R) : list R :=
  match xs with
  | [] => []
  | x :: rest => Rmax m x :: maximum_accumulate_from (Rmax m x) rest
  end.

Definition maximum_accumulate (xs : list R) : list R :=
  match xs with
  | [] => []
  | x :: rest => x :: maximum_accumulate_from x rest
  end.

(** [a.min()] of a non-empty array. *)
Definition np_min (xs : list R) : R :=
  match xs with
  | [] => 0
  | x :: rest => fold_left Rmin rest x
  end.

(** [np.diff(a) / a[:-1]] *)
Fixpoint simple_returns (xs : list R) : list R :=
  match xs with
  | [] => []
  | x :: rest =>
      match rest with
      | [] => []
      | y :: _ => (y - x) / x :: simple_returns rest
      end
  end.

(** [np.std] of an array without [nan]. *)
Definition std (xs : list R) : R :=
  let m := np_mean xs in sqrt (np_mean (map (fun x => (x - m) ^ 2) xs)).

(** [(sell_dates[i + 1] - sell_dates[i]).days] for every [i]. *)
Fixpoint cycle_days_of (sell_dates : list date) : list R :=
  match sell_dates with
  | [] => []
  | d :: rest =>
      match rest with
      | [] => []
      | d' :: _ => IZR (d' - d) :: cycle_days_of rest
      end
  end.

(** The frame [df] of [run] once sorted and restricted to the date window;
    [prices] holds the [(Date, Close)] rows of the normalised frame. *)
Definition window_rows (prices : list (date * R))
    (start_date end_date : option date) : list (date * R) :=
  let df := sort_values prices in
  let df :=
    match start_date with
    | Some start_date => filter (fun row => (fst row >=? start_date)%Z) df
    | None => df
    end in
  match end_date with
  | Some end_date => filter (fun row => (fst row <=? end_date)%Z) df
  | None => df
  end.

(** [initial_investment = first_price * self.config.shares] *)
Definition initial_investment_of (self_config : CoveredCallConfig)
    (df : list (date * R)) : R :=
  hd 0 (map snd df) * IZR (shares self_config).

(** From "Calculate implied volatility estimates" to the end of the day
    loop. *)
Definition simulate (self_config : CoveredCallConfig) (df : list (date * R))
    : result LoopState :=
  let close_prices := map snd df in
  let iv_series := implied_volatility_from_history close_prices 20 1.3 in
  let backtest_start := hd 0%Z (map fst df) in
  day_loop self_config iv_series backtest_start df 0
    {| strategy := new_strategy self_config;
       cash_monitor :=
         new_monitor (net_cash_per_share self_config)
                     (cash_burn_per_quarter self_config);
       cash := initial_investment_of self_config df;
       equity_curve := [];
       cash_warnings := [] |}.

(** "Calculate metrics", to the returned [BacktestResult]. *)
Definition metrics (self_config : CoveredCallConfig) (df : list (date * R))
    (st : LoopState) : BacktestResult :=
  let close_prices := map snd df in
  let first_price := hd 0 close_prices in
  let initial_investment := initial_investment_of self_config df in
  let equity_df := equity_curve st in
  let equity_values := map Equity equity_df in
  let final_equity := last equity_values 0 in
  let total_return_pct := (final_equity / initial_investment - 1) * 100 in
  let trading_days := length equity_df in
  let annualized_return :=
    (Rpower (final_equity / initial_investment) (252 / INR trading_days) - 1) * 100 in
  let last_price := last close_prices 0 in
  let stock_only_return := (last_price / first_price - 1) * 100 in
  (* Max drawdown *)
  let running_max := maximum_accumulate equity_values in
  let drawdowns :=
    map (fun em => (fst em - snd em) / snd em) (combine equity_values running_max) in
  let max_drawdown := np_min drawdowns * 100 in
  (* Sharpe ratio (annualized) *)
  let daily_returns := simple_returns equity_values in
  let sharpe :=
    if (1 <? length daily_returns)%nat && Rgtb (std daily_returns) 0
    then np_mean daily_returns / std daily_returns * sqrt 252
    else 0 in
  (* Average cycle length *)
  let sell_dates :=
    map trade_date
      (filter (fun t => Action_eqb (action t) SELL_CALL) (trades (strategy st))) in
  let avg_cycle :=
    if (1 <? length sell_dates)%nat then np_mean (cycle_days_of sell_dates) else 0 in
  {| total_return_pct := total_return_pct;
     annualized_return_pct := annualized_return;
     stock_only_return_pct := stock_only_return;
     excess_return_pct := total_return_pct - stock_only_return;
     result_total_premium_collected := total_premium_collected (strategy st);
     result_total_commissions := total_commissions (strategy st);
     net_premium :=
       total_premium_collected (strategy st) - total_commissions (strategy st);
     premium_yield_pct :=
       (total_premium_collected (strategy st) / initial_investment) * 100;
     max_drawdown_pct := max_drawdown;
     sharpe_ratio := sharpe;
     num_trades := length (trades (strategy st));
     result_times_called_away := times_called_away (strategy st);
     avg_days_per_cycle := avg_cycle;
     result_trades := trades (strategy st);
     daily_equity := equity_df;
     cash_floor_warnings := cash_warnings st |}.

(** [CoveredCallBacktest.run] *)
Definition run (self_config : CoveredCallConfig) (prices : list (date * R))
    (start_date end_date : option date) : result BacktestResult :=
  let df := window_rows prices start_date end_date in
  if (length df <? 30)%nat then Raise ValueError
  else
    st <- simulate self_config df ;;
    Ok (metrics self_config df st).

(** ** Strategy states visited by the day loop

    The states of the strategy object after each Strategy Engine operation
    the loop invokes, in the order of the invocations; an exception ends
    the list. *)

Definition buy_and_sell_first_call_states (i : nat) (current_date : date)
    (stock_price iv : R) (strategy : CoveredCallStrategy)
    : list CoveredCallStrategy :=
  if (shares_held strategy =? 0)%Z && negb (is_some (position strategy)) then
    if (i =? 0)%nat || (times_called_away strategy >? 0)%Z then
      let '(_, bought) := open_stock_position strategy current_date stock_price in
      match sell_call bought current_date stock_price iv None with
      | Ok (_, sold) => [bought; sold]
      | Raise _ => [bought]
      end
    else []
  else [].

Definition expire_or_roll_states (current_date : date) (stock_price iv : R)
    (strategy : CoveredCallStrategy) : list CoveredCallStrategy :=
  if is_some (position strategy) then
    let '(exp_trade, checked) := check_expiration strategy current_date stock_price in
    match exp_trade with
    | None => [checked]
    | Some exp_trade =>
        if Action_eqb (action exp_trade) EXPIRE then
          match sell_call checked current_date stock_price iv None with
          | Ok (_, sold) => [checked; sold]
          | Raise _ => [checked]
          end
        else [checked]
    end
  else if is_some (position strategy) then
    match should_roll strategy current_date stock_price iv with
    | Ok true =>
        match position strategy with
        | Some pos =>
            let '(_, bought_back) :=
              buy_back strategy pos current_date stock_price iv in
            match sell_call bought_back current_date stock_price iv None with
            | Ok (_, sold) => [bought_back; sold]
            | Raise _ => [bought_back]
            end
        | None =>
            match sell_call strategy current_date stock_price iv None with
            | Ok (_, sold) => [sold]
            | Raise _ => []
            end
        end
    | _ => []
    end
  else [].

Definition day_states (self_config : CoveredCallConfig)
    (iv_series : list (option R)) (i : nat) (row : date * R) (st : LoopState)
    : list CoveredCallStrategy :=
  let current_date := fst row in
  let stock_price := snd row in
  let iv := match nth i iv_series None with Some v => v | None => 0.50 end in
  buy_and_sell_first_call_states i current_date stock_price iv (strategy st)
  ++ match buy_and_sell_first_call self_config i current_date stock_price iv
             (strategy st) (cash st) with
     | Ok (entered, _) => expire_or_roll_states current_date stock_price iv entered
     | Raise _ => []
     end.

Fixpoint day_loop_states (self_config : CoveredCallConfig)
    (iv_series : list (option R)) (backtest_start : date)
    (rows : list (date * R)) (i : nat) (st : LoopState)
    : list CoveredCallStrategy :=
  match rows with
  | [] => []
  | row :: rest =>
      day_states self_config iv_series i row st
      ++ match day self_config iv_series backtest_start i row st with
         | Ok st => day_loop_states self_config iv_series backtest_start rest (S i) st
         | Raise _ => []
         end
  end.

(** Every strategy state of a run, from the freshly built object on. *)
Definition run_states (self_config : CoveredCallConfig) (prices : list (date * R))
    (start_date end_date : option date) : list CoveredCallStrategy :=
  let df := window_rows prices start_date end_date in
  if (length df <? 30)%nat then []
  else
    new_strategy self_config
    :: day_loop_states self_config
         (implied_volatility_from_history (map snd df) 20 1.3)
         (hd 0%Z (map fst df)) df 0
         {| strategy := new_strategy self_config;
            cash_monitor :=
              new_monitor (net_cash_per_share self_config)
                          (cash_burn_per_quarter self_config);
            cash := initial_investment_of self_config df;
            equity_curve := [];
            cash_warnings := [] |}.

(** ** Quantities the properties are stated with *)

(** Sum of the cash-flow amounts of a trade log. *)
Definition sum_premium (log : list TradeRecord) : R :=
  fold_right (fun t acc => premium t + acc) 0 log.

(** Strike times lot size, summed over the CALLED_AWAY entries of a log:
    what the day loop credits to cash on assignments. *)
Definition assignment_proceeds (self_config : CoveredCallConfig)
    (log : list TradeRecord) : R :=
  fold_right
    (fun t acc =>
       (if Action_eqb (action t) CALLED_AWAY
        then IZR (shares self_config)
             * match trade_strike t with Some k => k | None => 0 end
        else 0) + acc)
    0 log.

(** Shares are none or one lot, and a call is open only over one lot. *)
Definition one_lot_or_none (self_config : CoveredCallConfig)
    (s : CoveredCallStrategy) : Prop :=
  (shares_held s = 0%Z \/ shares_held s = shares self_config)
  /\ (position s <> None -> shares_held s = shares self_config).

(* ================================================================== *)
(** * Properties *)

(** ** Comparisons *)

Lemma Rltb_true_iff (x y : R) : Rltb x y = true <-> x < y.
Proof. unfold Rltb. destruct (Rlt_dec x y); split; intros; try discriminate; tauto. Qed.

Lemma Rltb_false_iff (x y : R) : Rltb x y = false <-> y <= x.
Proof.
  unfold Rltb. destruct (Rlt_dec x y); split; intros; try discriminate; try reflexivity; lra.
Qed.

Lemma Rleb_true_iff (x y : R) : Rleb x y = true <-> x <= y.
Proof. unfold Rleb. destruct (Rle_dec x y); split; intros; try discriminate; tauto. Qed.

Lemma Rleb_false_iff (x y : R) : Rleb x y = false <-> y < x.
Proof.
  unfold Rleb. destruct (Rle_dec x y); split; intros; try discriminate; try reflexivity; lra.
Qed.

Lemma Reqb_true_iff (x y : R) : Reqb x y = true <-> x = y.
Proof. unfold Reqb. destruct (Req_dec_T x y); split; intros; try discriminate; tauto. Qed.

Lemma Reqb_false_iff (x y : R) : Reqb x y = false <-> x <> y.
Proof.
  unfold Reqb. destruct (Req_dec_T x y); split; intros; try discriminate; try reflexivity; tauto.
Qed.

(** Decide a comparison of two float literals. *)
Ltac Rcompare :=
  repeat match goal with
  | |- context [Rltb ?x ?y] =>
      first [ rewrite (proj2 (Rltb_true_iff x y)) by lra
            | rewrite (proj2 (Rltb_false_iff x y)) by lra ]
  | |- context [Rleb ?x ?y] =>
      first [ rewrite (proj2 (Rleb_true_iff x y)) by lra
            | rewrite (proj2 (Rleb_false_iff x y)) by lra ]
  | |- context [Reqb ?x ?y] =>
      first [ rewrite (proj2 (Reqb_true_iff x y)) by lra
            | rewrite (proj2 (Reqb_false_iff x y)) by lra ]
  end.

(** ** The normal distribution function and a bound on the price of a call *)

Lemma norm_pdf_pos (t : R) : 0 < norm_pdf t.
Proof.
  unfold norm_pdf. apply Rdiv_lt_0_compat; [apply exp_pos |].
  apply sqrt_lt_R0. pose proof PI_RGT_0. lra.
Qed.

Lemma norm_cdf_0 : norm_cdf 0 = 1 / 2.
Proof. unfold norm_cdf. rewrite RiemannInt_P9. lra. Qed.

(** The distribution function does not decrease. *)
Lemma norm_cdf_increasing (x y : R) : x <= y -> norm_cdf x <= norm_cdf y.
Proof.
  intros Hxy. unfold norm_cdf.
  rewrite <- (RiemannInt_P26 (norm_pdf_integrable 0 x) (norm_pdf_integrable x y)
                (norm_pdf_integrable 0 y)).
  assert (H0 : 0 <= RiemannInt (norm_pdf_integrable x y)).
  { rewrite <- (Rmult_0_l (y - x)).
    rewrite <- (RiemannInt_P15 (RiemannInt_P14 x y 0)).
    apply RiemannInt_P19; [exact Hxy |].
    intros t _. unfold fct_cte. left. apply norm_pdf_pos. }
  lra.
Qed.

(** With the first Black-Scholes argument not negative and the stock at or
    above the discounted strike, a call is worth at least half the
    difference of the two. *)
Lemma black_scholes_call_lower_bound (S K T r sigma : R) :
  0 < T -> 0 < sigma -> 0 <= K -> K * exp (- r * T) <= S ->
  0 <= ln (S / K) + (r + 0.5 * sigma ^ 2) * T ->
  (S - K * exp (- r * T)) / 2 <= black_scholes_call S K T r sigma.
Proof.
  intros HT Hsigma HK HS Hnum. unfold black_scholes_call.
  rewrite (proj2 (Rleb_false_iff T 0) HT), (proj2 (Rleb_false_iff sigma 0) Hsigma).
  cbv zeta.
  assert (Hden : 0 < sigma * sqrt T)
    by (apply Rmult_lt_0_compat; [exact Hsigma | apply sqrt_lt_R0; exact HT]).
  set (d1 := (ln (S / K) + (r + 0.5 * sigma ^ 2) * T) / (sigma * sqrt T)).
  assert (Hd1 : 0 <= d1)
    by (apply Rmult_le_pos; [exact Hnum | left; apply Rinv_0_lt_compat; exact Hden]).
  pose proof (exp_pos (- r * T)) as Hexp.
  assert (HK' : 0 <= K * exp (- r * T)) by nra.
  assert (H1 : 1 / 2 <= norm_cdf d1)
    by (rewrite <- norm_cdf_0; apply norm_cdf_increasing; exact Hd1).
  destruct (Rle_dec (d1 - sigma * sqrt T) 0) as [Hd2 | Hd2].
  - assert (H2 : norm_cdf (d1 - sigma * sqrt T) <= 1 / 2)
      by (rewrite <- norm_cdf_0; apply norm_cdf_increasing; exact Hd2).
    nra.
  - assert (H2 : 1 / 2 <= norm_cdf (d1 - sigma * sqrt T))
      by (rewrite <- norm_cdf_0; apply norm_cdf_increasing; lra).
    assert (H12 : norm_cdf (d1 - sigma * sqrt T) <= norm_cdf d1)
      by (apply norm_cdf_increasing; lra).
    nra.
Qed.

(** A quotient of at least 1 has a logarithm of at least 0. *)
Lemma ln_quotient_nonneg (S K : R) : 0 < K -> K <= S -> 0 <= ln (S / K).
Proof.
  intros HK HKS. rewrite <- ln_1.
  assert (Hq : 1 <= S / K).
  { apply Rmult_le_reg_r with K; [exact HK |].
    unfold Rdiv. rewrite Rmult_assoc, Rinv_l by lra. lra. }
  destruct Hq as [Hlt | Heq]; [| rewrite <- Heq; lra].
  left. apply ln_increasing; [lra | exact Hlt].
Qed.

(** With time left, a positive volatility and a non-negative rate, a call
    at or in the money is worth at least half the stock price less the
    strike. *)
Lemma black_scholes_call_in_the_money (S K T r sigma : R) :
  0 < T -> 0 < sigma -> 0 <= r -> 0 < K -> K <= S ->
  (S - K) / 2 <= black_scholes_call S K T r sigma.
Proof.
  intros HT Hsigma Hr HK HKS.
  assert (Hexp : exp (- r * T) <= 1).
  { rewrite <- exp_0. destruct (Req_dec (- r * T) 0) as [-> | Hne]; [lra |].
    left. apply exp_increasing. nra. }
  pose proof (exp_pos (- r * T)) as Hpos.
  pose proof (ln_quotient_nonneg S K HK HKS) as Hln.
  assert (Hnum : 0 <= (r + 0.5 * sigma ^ 2) * T) by (apply Rmult_le_pos; nra).
  pose proof (black_scholes_call_lower_bound S K T r sigma HT Hsigma) as H.
  assert (K * exp (- r * T) <= K) by nra.
  specialize (H ltac:(lra) ltac:(lra) ltac:(lra)). lra.
Qed.

(** The density is at most 1, so the distribution function is at most one
    half plus its argument. *)
Lemma norm_pdf_at_most_1 (t : R) : norm_pdf t <= 1.
Proof.
  unfold norm_pdf.
  assert (Hs : 1 <= sqrt (2 * PI)).
  { rewrite <- sqrt_1. apply sqrt_le_1_alt. pose proof PI2_1. lra. }
  assert (He : exp (- (t * t) / 2) <= 1).
  { replace (- (t * t) / 2) with (- (t * t / 2)) by lra. rewrite exp_Ropp.
    pose proof (exp_ineq1_le (t * t / 2)) as H.
    assert (1 <= exp (t * t / 2)) by nra.
    rewrite <- Rinv_1. apply Rinv_le_contravar; lra. }
  pose proof (exp_pos (- (t * t) / 2)) as Hp.
  apply Rmult_le_reg_r with (sqrt (2 * PI)); [lra |].
  unfold Rdiv. rewrite Rmult_assoc, Rinv_l by lra. nra.
Qed.

Lemma norm_cdf_at_most (x : R) : 0 <= x -> norm_cdf x <= 1 / 2 + x.
Proof.
  intros Hx. unfold norm_cdf.
  assert (H : RiemannInt (norm_pdf_integrable 0 x) <= 1 * (x - 0)).
  { rewrite <- (RiemannInt_P15 (RiemannInt_P14 0 x 1)).
    apply RiemannInt_P19; [exact Hx |].
    intros t _. unfold fct_cte. apply norm_pdf_at_most_1. }
  lra.
Qed.

Lemma ln_lower_bound (x : R) : 0 < x -> 1 - / x <= ln x.
Proof.
  intros Hx.
  pose proof (exp_ineq1_le (/ x - 1)) as H1.
  assert (Hinv : 0 < / x) by (apply Rinv_0_lt_compat; exact Hx).
  assert (H2 : ln (/ x) <= / x - 1).
  { destruct (Rle_lt_dec (ln (/ x)) (/ x - 1)) as [Hle | Hgt]; [exact Hle |].
    apply exp_increasing in Hgt. rewrite exp_ln in Hgt by exact Hinv. lra. }
  rewrite ln_Rinv in H2 by exact Hx. lra.
Qed.

Lemma exp_upper_bound (x : R) : 0 <= x -> exp (- x) <= / (1 + x).
Proof.
  intros Hx. rewrite exp_Ropp. pose proof (exp_ineq1_le x).
  apply Rinv_le_contravar; lra.
Qed.

(** The 2.50 call two years out, at a price of 2.40, a rate of 4.5% and a
    volatility of 0.30: worth at least five cents, at a delta of at most
    1.2. *)
Lemma two_year_call :
  let T := IZR 730 / 365 in
  0.05 <= black_scholes_call 2.4 2.5 T 0.045 0.30
  /\ call_delta 2.4 2.5 T 0.045 0.30 <= 1.2.
Proof.
  cbv zeta.
  replace (IZR 730 / 365) with 2 by lra.
  assert (Hln : - (0.05) <= ln (2.4 / 2.5) <= 0).
  { split.
    - pose proof (ln_lower_bound (2.4 / 2.5) ltac:(lra)) as H.
      replace (/ (2.4 / 2.5)) with (2.5 / 2.4) in H by (field; lra).
      lra.
    - rewrite <- ln_1. left. apply ln_increasing; lra. }
  assert (Hexp : exp (- (0.045) * 2) <= 0.92).
  { replace (- (0.045) * 2) with (- (0.09)) by lra.
    pose proof (exp_upper_bound 0.09 ltac:(lra)) as H.
    assert (/ (1 + 0.09) <= 0.92).
    { apply Rmult_le_reg_r with (1 + 0.09); [lra |]. rewrite Rinv_l by lra. lra. }
    lra. }
  pose proof (exp_pos (- (0.045) * 2)) as Hpos.
  split.
  - pose proof (black_scholes_call_lower_bound 2.4 2.5 2 0.045 0.30) as H.
    specialize (H ltac:(lra) ltac:(lra) ltac:(lra) ltac:(lra) ltac:(lra)). lra.
  - unfold call_delta. rewrite (proj2 (Rleb_false_iff 2 0)) by lra. cbv zeta.
    assert (Hs : 1 <= sqrt 2).
    { rewrite <- sqrt_1. apply sqrt_le_1_alt. lra. }
    set (num := ln (2.4 / 2.5) + (0.045 + 0.5 * 0.30 ^ 2) * 2).
    assert (Hnum : 0 <= num <= 0.18) by (unfold num; lra).
    assert (Hden : 0.3 <= 0.30 * sqrt 2) by lra.
    assert (Hd1 : 0 <= num / (0.30 * sqrt 2) <= 0.6).
    { split.
      - apply Rmult_le_pos; [lra | left; apply Rinv_0_lt_compat; lra].
      - apply Rmult_le_reg_r with (0.30 * sqrt 2); [lra |].
        unfold Rdiv. rewrite Rmult_assoc, Rinv_l by lra. nra. }
    pose proof (norm_cdf_at_most _ (proj1 Hd1)). lra.
Qed.

(** ** Cash-floor monitor *)

(** The estimate in the words of the specification: linear depletion,
    floored at 0. *)
Definition linear_depletion (initial_cash burn_rate_per_quarter : R)
    (elapsed_days : Z) : R :=
  let depleted := initial_cash - burn_rate_per_quarter * (IZR elapsed_days / 90) in
  if Rltb depleted 0 then 0 else depleted.

Lemma estimate_cash_is_linear_depletion (m : CashFloorMonitor) (start current : date) :
  estimate_cash_at_date m start current
  = linear_depletion (initial_net_cash m) (quarterly_burn m) (current - start).
Proof.
  unfold estimate_cash_at_date, linear_depletion, Rmax.
  destruct (Rle_dec _ 0) as [Hle | Hgt].
  - destruct (Rltb _ 0) eqn:E; [reflexivity |].
    apply Rltb_false_iff in E. lra.
  - destruct (Rltb _ 0) eqn:E; [| reflexivity].
    apply Rltb_true_iff in E. lra.
Qed.

Lemma estimate_cash_450_days (start current : date) :
  (current - start = 450)%Z ->
  estimate_cash_at_date (new_monitor 1.50 0.10) start current = 1.
Proof.
  intros H. unfold estimate_cash_at_date. cbn [initial_net_cash quarterly_burn new_monitor].
  rewrite H. unfold Rmax. destruct (Rle_dec _ 0); lra.
Qed.

Definition is_weakened (w : option Warning) : bool :=
  match w with Some (Weakened _ _ _) => true | _ => false end.

(** C9.  The estimated per-share cash is the initial cash minus the
    quarterly burn times elapsed days over 90, floored at 0, for every pair
    of dates; with initial cash 1.50 and burn 0.10 it is exactly 1 after 450
    days, and the check on that day carries the weakened-thesis warning
    exactly when price over estimated cash exceeds 1.5. *)
Theorem cash_floor_estimate_and_warning :
  (forall (m : CashFloorMonitor) (start current : date),
      estimate_cash_at_date m start current
      = linear_depletion (initial_net_cash m) (quarterly_burn m) (current - start))
  /\ (forall start : date,
         estimate_cash_at_date (new_monitor 1.50 0.10) start (start + 450) = 1)
  /\ (forall (start : date) (price : R),
         let snapshot := fst (check (new_monitor 1.50 0.10) (start + 450) price start) in
         estimated_net_cash_per_share snapshot = 1
         /\ (is_weakened (warning snapshot) = true
             <-> price / estimated_net_cash_per_share snapshot > 1.5)).
Proof.
  split; [exact estimate_cash_is_linear_depletion |].
  split; [intros start; apply estimate_cash_450_days; lia |].
  intros start price snapshot. subst snapshot.
  assert (Hest : estimate_cash_at_date (new_monitor 1.50 0.10) start (start + 450) = 1)
    by (apply estimate_cash_450_days; lia).
  unfold check. rewrite Hest.
  cbn [initial_net_cash quarterly_burn warning_ratio danger_ratio new_monitor].
  unfold Rgtb. Rcompare.
  destruct (Rltb 1.5 (price / 1)) eqn:E; cbn.
  - apply Rltb_true_iff in E. split; [reflexivity |]. split; intros _; [lra | reflexivity].
  - apply Rltb_false_iff in E.
    destruct (Rltb price (1 * 0.8)); cbn; (split; [reflexivity |]);
      split; intros H; try discriminate; lra.
Qed.

(** ** Strategy engine: single operations *)

Lemma select_strike_Ok (self : CoveredCallStrategy) (stock_price iv : R) (dte : Z)
    (k prem : R) :
  select_strike self stock_price iv dte = Ok (k, prem) ->
  exists score,
    select_strike_loop self stock_price iv dte (IZR dte / 365)
      (strike_candidates (config self)) (min_strike (config self)) (- 1)
    = Ok (k, score)
    /\ prem = black_scholes_call stock_price k (IZR dte / 365)
                (risk_free_rate (config self)) iv.
Proof.
  unfold select_strike.
  destruct (select_strike_loop _ _ _ _ _ _ _ _) as [[k' score] | e]; cbn; intros H.
  - destruct (black_scholes_call_divides_by_zero _ _ _); [discriminate |].
    inversion H; subst. exists score. split; reflexivity.
  - discriminate.
Qed.

(** What a successful [sell_call] returns and leaves behind. *)
Lemma sell_call_Ok (self : CoveredCallStrategy) (current_date : date)
    (stock_price iv : R) (dte : option Z) (t : TradeRecord)
    (self' : CoveredCallStrategy) :
  sell_call self current_date stock_price iv dte = Ok (t, self') ->
  let dte' := match dte with Some d => d | None => target_dte (config self) end in
  exists k prem,
    select_strike self stock_price iv dte' = Ok (k, prem)
    /\ let total :=
         apply_bid_ask_slippage prem (bid_ask_spread_pct (config self))
         * IZR (shares_held self / 100) * 100
         - IZR (shares_held self / 100) * commission_per_contract (config self) in
       t = {| trade_date := current_date; action := SELL_CALL;
              trade_strike := Some k;
              trade_expiration := Some (current_date + dte')%Z;
              premium := total; trade_stock_price := stock_price;
              trade_shares := shares_held self |}
       /\ position self'
          = Some {| strike := k; expiration := (current_date + dte')%Z;
                    premium_received := total;
                    premium_class :=
                      black_scholes_call_class stock_price k (IZR dte' / 365)
                        (risk_free_rate (config self)) iv;
                    contracts := (shares_held self / 100)%Z;
                    entry_date := current_date;
                    entry_stock_price := stock_price |}
       /\ config self' = config self
       /\ shares_held self' = shares_held self
       /\ trades self' = trades self ++ [t]
       /\ times_called_away self' = times_called_away self.
Proof.
  intros H dte'. subst dte'. unfold sell_call, date_plus_days in H.
  destruct (select_strike _ _ _ _) as [[k prem] | e]; cbn [bind] in H; [| discriminate].
  destruct (_ && _); cbn [bind] in H; [| discriminate].
  inversion H; subst; clear H. exists k, prem. cbn. repeat split; reflexivity.
Qed.

(** C6.  With a position open, [check_expiration] does nothing before the
    expiration date; from that date on it assigns when the spot is at or
    above the strike (shares to 0, position cleared, assignment counter up
    by one, a CALLED_AWAY trade appended) and otherwise lets the call expire
    (position cleared, shares kept, an EXPIRE trade appended). *)
Theorem check_expiration_cases (self : CoveredCallStrategy) (pos : OptionPosition)
    (current_date : date) (stock_price : R) :
  position self = Some pos ->
  let r := fst (check_expiration self current_date stock_price) in
  let self' := snd (check_expiration self current_date stock_price) in
  ((current_date < expiration pos)%Z -> r = None /\ self' = self)
  /\ ((current_date >= expiration pos)%Z -> stock_price >= strike pos ->
      shares_held self' = 0%Z
      /\ position self' = None
      /\ times_called_away self' = (times_called_away self + 1)%Z
      /\ exists t, r = Some t /\ action t = CALLED_AWAY
                   /\ trades self' = trades self ++ [t])
  /\ ((current_date >= expiration pos)%Z -> stock_price < strike pos ->
      position self' = None
      /\ shares_held self' = shares_held self
      /\ times_called_away self' = times_called_away self
      /\ exists t, r = Some t /\ action t = EXPIRE
                   /\ trades self' = trades self ++ [t]).
Proof.
  intros Hpos r self'. subst r self'. unfold check_expiration. rewrite Hpos.
  destruct (current_date <? expiration pos)%Z eqn:Hd.
  - apply Z.ltb_lt in Hd. cbn. repeat split; intros; try lia; reflexivity.
  - apply Z.ltb_ge in Hd. unfold Rgeb.
    destruct (Rleb (strike pos) stock_price) eqn:Hs; cbn.
    + apply Rleb_true_iff in Hs.
      split; [intros; lia |]. split.
      * intros _ _. repeat split. eexists. repeat split.
      * intros _ Hlt. lra.
    + apply Rleb_false_iff in Hs.
      split; [intros; lia |]. split.
      * intros _ Hge. lra.
      * intros _ _. repeat split. eexists. repeat split.
Qed.

(** A strategy object with a call open: strike 2.50, expiring on day 30,
    ten contracts over the default lot. *)
Definition example_position : OptionPosition := {|
  strike := 2.50;
  expiration := 30;
  premium_received := 100;
  premium_class := numpy_float64;
  contracts := 10;
  entry_date := 0;
  entry_stock_price := 2
|}.

Definition example_holding : CoveredCallStrategy := {|
  config := default_config;
  position := Some example_position;
  shares_held := 1000;
  trades := [];
  total_premium_collected := 100;
  total_commissions := 6.5;
  times_called_away := 0
|}.

(** The default lot bought at 2.00 on day 0, no call sold yet. *)
Definition lot_bought : CoveredCallStrategy :=
  snd (open_stock_position (new_strategy default_config) 0 2).

Lemma check_expiration_cases_witness :
  position example_holding = Some example_position
  /\ shares_held (snd (check_expiration example_holding 30 3)) = 0%Z.
Proof.
  split; [reflexivity |].
  apply (check_expiration_cases example_holding example_position 30 3 eq_refl).
  - cbn. lia.
  - cbn. lra.
Defined.

(** No strike is priced at 0.0 when it is positive. *)
Lemma positive_strike_divides (K T sigma : R) :
  0 < K ->
  black_scholes_call_divides_by_zero K T sigma = false
  /\ call_delta_divides_by_zero K T = false.
Proof.
  intros HK. unfold black_scholes_call_divides_by_zero, call_delta_divides_by_zero.
  rewrite (proj2 (Reqb_false_iff K 0)) by lra.
  rewrite !andb_false_r. split; reflexivity.
Qed.

(** The expiration of a call of [dte] days sold on [current_date] is a
    date: [timedelta(days=dte)] exists and the sum is in range. *)
Definition expiration_defined (current_date : date) (dte : Z) : Prop :=
  (Z.abs dte <= 999999999)%Z /\ date_in_range (current_date + dte).

Lemma date_plus_days_Ok (d : date) (n : Z) :
  expiration_defined d n -> date_plus_days d n = Ok (d + n)%Z.
Proof.
  intros [Hn [Hlo Hhi]]. unfold date_plus_days.
  rewrite (proj2 (Z.leb_le _ _) Hn), (proj2 (Z.leb_le _ _) Hlo),
    (proj2 (Z.leb_le _ _) Hhi). reflexivity.
Qed.

Lemma date_plus_days_inv (d : date) (n : Z) (e : date) :
  date_plus_days d n = Ok e -> e = (d + n)%Z /\ expiration_defined d n.
Proof.
  unfold date_plus_days, expiration_defined, date_in_range.
  destruct (Z.abs n <=? 999999999)%Z eqn:E1; [| discriminate].
  destruct (1 <=? d + n)%Z eqn:E2; [| discriminate].
  destruct (d + n <=? 3652059)%Z eqn:E3; [| discriminate].
  cbn. intros H. inversion H; subst.
  apply Z.leb_le in E1, E2, E3. repeat split; assumption.
Qed.

Lemma select_strike_loop_total (self : CoveredCallStrategy) (stock_price iv : R)
    (dte : Z) (T : R) (candidates : list R) :
  stock_price <> 0 -> dte <> 0%Z -> 0 < min_strike (config self) ->
  forall best_strike best_score,
  exists k score,
    select_strike_loop self stock_price iv dte T candidates best_strike best_score
    = Ok (k, score).
Proof.
  intros Hp Hd Hmin. induction candidates as [| c rest IH]; intros bk bs; cbn.
  - exists bk, bs. reflexivity.
  - destruct (Rltb c _) eqn:E1; [apply IH |].
    destruct (Rleb c _); [apply IH |].
    apply Rltb_false_iff in E1.
    destruct (positive_strike_divides c T iv) as [-> ->]; [lra |]. cbn [orb].
    destruct (Rltb _ 0.01); [apply IH |].
    rewrite (proj2 (Reqb_false_iff stock_price 0) Hp).
    rewrite (proj2 (Z.eqb_neq dte 0) Hd). cbn.
    destruct (Rgtb _ bs); apply IH.
Qed.

(** The strike the loop returns is not below the one it starts from when
    that is at least the minimum strike. *)
Lemma select_strike_loop_above_minimum (self : CoveredCallStrategy)
    (stock_price iv : R) (dte : Z) (T : R) (candidates : list R) :
  forall best_strike best_score k score,
    min_strike (config self) <= best_strike ->
    select_strike_loop self stock_price iv dte T candidates best_strike best_score
    = Ok (k, score) ->
    min_strike (config self) <= k.
Proof.
  induction candidates as [| c rest IH]; cbn; intros bk bs k score Hbk H.
  - inversion H; subst. exact Hbk.
  - destruct (Rltb c _) eqn:E1; [eauto |].
    destruct (Rleb c _); [eauto |].
    destruct (_ || _); [discriminate |].
    destruct (Rltb _ 0.01); [eauto |].
    destruct (Reqb stock_price 0 || (dte =? 0)%Z); [discriminate |].
    apply Rltb_false_iff in E1.
    destruct (Rgtb _ bs); eauto.
Qed.

(** [sell_call] returns a trade whenever the price and the days to expiry
    are not zero, the minimum strike is positive and the expiration is a
    date. *)
Lemma sell_call_total (self : CoveredCallStrategy) (current_date : date)
    (stock_price iv : R) (dte : option Z) :
  let dte' := match dte with Some d => d | None => target_dte (config self) end in
  stock_price <> 0 -> dte' <> 0%Z ->
  0 < min_strike (config self) -> expiration_defined current_date dte' ->
  exists t self', sell_call self current_date stock_price iv dte = Ok (t, self').
Proof.
  intros dte' Hp Hd Hmin Hexp. unfold sell_call, select_strike. fold dte'.
  destruct (select_strike_loop_total self stock_price iv dte' (IZR dte' / 365)
              (strike_candidates (config self)) Hp Hd Hmin
              (min_strike (config self)) (- 1)) as (k & score & Hloop).
  rewrite Hloop. cbn [bind].
  apply select_strike_loop_above_minimum in Hloop; [| lra].
  destruct (positive_strike_divides k (IZR dte' / 365) iv) as [-> _]; [lra |].
  cbn [bind]. rewrite (date_plus_days_Ok _ _ Hexp). cbn [bind].
  eexists. eexists. reflexivity.
Qed.

(** ** Strike selection *)

(** The local [net_premium] of [sell_call]: the per-share premium of the
    call it sells, after slippage. *)
Definition net_premium_per_share (self : CoveredCallStrategy) (stock_price iv : R)
    (dte : option Z) : result R :=
  let dte := match dte with Some d => d | None => target_dte (config self) end in
  '(_, theoretical_premium) <- select_strike self stock_price iv dte ;;
  Ok (apply_bid_ask_slippage theoretical_premium (bid_ask_spread_pct (config self))).

(** A candidate the loop passes over: below the minimum strike, within 2%
    of the price, or worth less than a cent after slippage. *)
Definition rejected (self : CoveredCallStrategy) (stock_price iv T : R)
    (candidate : R) : Prop :=
  candidate < min_strike (config self)
  \/ candidate <= stock_price * 1.02
  \/ apply_bid_ask_slippage
       (black_scholes_call stock_price candidate T (risk_free_rate (config self)) iv)
       (bid_ask_spread_pct (config self)) < 0.01.

Lemma select_strike_loop_all_rejected (self : CoveredCallStrategy)
    (stock_price iv : R) (dte : Z) (T : R) (candidates : list R)
    (best_strike best_score : R) :
  0 < min_strike (config self) ->
  Forall (rejected self stock_price iv T) candidates ->
  select_strike_loop self stock_price iv dte T candidates best_strike best_score
  = Ok (best_strike, best_score).
Proof.
  intros Hmin. induction 1 as [| c rest Hc _ IH]; cbn; [reflexivity |].
  destruct (Rltb c _) eqn:E1; [exact IH |].
  destruct (Rleb c _) eqn:E2; [exact IH |].
  apply Rltb_false_iff in E1. apply Rleb_false_iff in E2.
  destruct (positive_strike_divides c T iv) as [-> ->]; [lra |]. cbn [orb].
  destruct (Rltb _ 0.01) eqn:E3; [exact IH |].
  apply Rltb_false_iff in E3.
  destruct Hc as [H | [H | H]]; lra.
Qed.

(** The strike returned is the starting one or one of the candidates. *)
Lemma select_strike_loop_in (self : CoveredCallStrategy) (stock_price iv : R)
    (dte : Z) (T : R) (candidates : list R) :
  forall best_strike best_score k score,
    select_strike_loop self stock_price iv dte T candidates best_strike best_score
    = Ok (k, score) ->
    k = best_strike \/ In k candidates.
Proof.
  induction candidates as [| c rest IH]; cbn; intros bk bs k score H.
  - inversion H. left. reflexivity.
  - assert (Hrest : forall bs', select_strike_loop self stock_price iv dte T rest bk bs'
                                = Ok (k, score) -> k = bk \/ (c = k \/ In k rest))
      by (intros bs' H'; destruct (IH _ _ _ _ H'); tauto).
    destruct (Rltb c _); [eauto |].
    destruct (Rleb c _); [eauto |].
    destruct (_ || _); [discriminate |].
    destruct (Rltb _ 0.01); [eauto |].
    destruct (Reqb stock_price 0 || (dte =? 0)%Z); [discriminate |].
    destruct (Rgtb _ bs); [| eauto].
    destruct (IH _ _ _ _ H) as [-> | Hin]; tauto.
Qed.

(** Either no candidate was taken (the strike is still the starting one and
    the score is still -1), or the strike held is worth at least a cent
    after slippage and its score is above -1. *)
Definition fallback_or_a_cent (self : CoveredCallStrategy) (stock_price iv T : R)
    (best_strike best_score : R) : Prop :=
  (best_strike = min_strike (config self) /\ best_score = - 1)
  \/ (apply_bid_ask_slippage
        (black_scholes_call stock_price best_strike T (risk_free_rate (config self)) iv)
        (bid_ask_spread_pct (config self)) >= 0.01
      /\ best_score > - 1).

Lemma select_strike_loop_a_cent (self : CoveredCallStrategy) (stock_price iv : R)
    (dte : Z) (T : R) (candidates : list R) :
  forall best_strike best_score k score,
    fallback_or_a_cent self stock_price iv T best_strike best_score ->
    select_strike_loop self stock_price iv dte T candidates best_strike best_score
    = Ok (k, score) ->
    fallback_or_a_cent self stock_price iv T k score.
Proof.
  induction candidates as [| c rest IH]; cbn; intros bk bs k score Hinv H.
  - inversion H; subst. exact Hinv.
  - destruct (Rltb c _); [eauto |].
    destruct (Rleb c _); [eauto |].
    destruct (_ || _); [discriminate |].
    destruct (Rltb _ 0.01) eqn:Ecent; [eauto |].
    destruct (Reqb stock_price 0 || (dte =? 0)%Z); [discriminate |].
    destruct (Rgtb _ bs) eqn:Escore; [| eauto].
    apply (IH _ _ _ _) in H; [exact H |].
    right. apply Rltb_false_iff in Ecent. apply Rltb_true_iff in Escore.
    split; [lra |].
    destruct Hinv as [[_ ->] | [_ Hbs]]; lra.
Qed.

(** The loop path keeps the rule of its comment, "not worth selling for
    less than a penny": when [sell_call] sells a strike the scoring loop
    chose (the best score moved off its starting value -1), the per-share
    premium after slippage is at least one cent; otherwise the strike sold
    is the configured minimum strike, the fallback. *)
Lemma sold_for_a_cent_unless_fallback (self : CoveredCallStrategy)
    (current_date : date) (stock_price iv : R) (dte : option Z)
    (t : TradeRecord) (self' : CoveredCallStrategy) :
  sell_call self current_date stock_price iv dte = Ok (t, self') ->
  let dte' := match dte with Some d => d | None => target_dte (config self) end in
  exists k score net_premium,
    select_strike_loop self stock_price iv dte' (IZR dte' / 365)
      (strike_candidates (config self)) (min_strike (config self)) (- 1)
    = Ok (k, score)
    /\ net_premium_per_share self stock_price iv dte = Ok net_premium
    /\ trade_strike t = Some k
    /\ premium t
       = net_premium * IZR (shares_held self / 100) * 100
         - IZR (shares_held self / 100) * commission_per_contract (config self)
    /\ (score <> - 1 -> net_premium >= 0.01)
    /\ (score = - 1 -> k = min_strike (config self)).
Proof.
  intros Hsell dte'. subst dte'.
  destruct (sell_call_Ok _ _ _ _ _ _ _ Hsell) as (k & prem & Hsel & Ht & _).
  destruct (select_strike_Ok _ _ _ _ _ _ Hsel) as (score & Hloop & Hprem).
  exists k, score, (apply_bid_ask_slippage prem (bid_ask_spread_pct (config self))).
  split; [exact Hloop |].
  split; [unfold net_premium_per_share; rewrite Hsel; reflexivity |].
  subst t. cbn [trade_strike premium].
  split; [reflexivity |]. split; [reflexivity |].
  pose proof (select_strike_loop_a_cent _ _ _ _ _ _ _ _ _ _
                (or_introl (conj eq_refl eq_refl)) Hloop) as Hinv.
  unfold fallback_or_a_cent in Hinv. rewrite <- Hprem in Hinv.
  destruct Hinv as [[Hk Hs] | [Hnet Hs]].
  - split; [intros Hne; contradiction | intros _; exact Hk].
  - split; [intros _; exact Hnet | intros Heq; lra].
Qed.

Lemma black_scholes_call_at_expiry (S K T r sigma : R) :
  T <= 0 -> black_scholes_call S K T r sigma = Rmax (S - K) 0.
Proof.
  intros HT. unfold black_scholes_call.
  rewrite (proj2 (Rleb_true_iff T 0) HT). reflexivity.
Qed.

Lemma Rmax_negative_0 (x : R) : x <= 0 -> Rmax x 0 = 0.
Proof. intros H. unfold Rmax. destruct (Rle_dec x 0); lra. Qed.

(** With no time left, a price of 2.00 and the default configuration, the
    loop passes over every candidate. *)
Lemma default_candidates_rejected_at_expiry (self : CoveredCallStrategy) :
  config self = default_config ->
  Forall (rejected self 2 0.30 (IZR 0 / 365)) (strike_candidates (config self)).
Proof.
  intros Hcfg. unfold rejected. rewrite Hcfg.
  cbn [strike_candidates min_strike risk_free_rate bid_ask_spread_pct default_config].
  repeat (apply Forall_cons;
          [ unfold apply_bid_ask_slippage;
            first [ left; lra
                  | right; right; rewrite black_scholes_call_at_expiry by lra;
                    rewrite Rmax_negative_0 by lra; lra ] | ]).
  apply Forall_nil.
Qed.

(** The selection then falls back to the minimum strike, at a theoretical
    premium of 0. *)
Lemma select_strike_at_expiry (self : CoveredCallStrategy) :
  config self = default_config ->
  select_strike self 2 0.30 0 = Ok (2.50, 0).
Proof.
  intros Hcfg. unfold select_strike.
  assert (Hmin : 0 < min_strike (config self)) by (rewrite Hcfg; cbn; lra).
  rewrite (select_strike_loop_all_rejected _ _ _ _ _ _ _ _ Hmin
             (default_candidates_rejected_at_expiry self Hcfg)).
  cbn [bind].
  destruct (positive_strike_divides (min_strike (config self)) (IZR 0 / 365) 0.30 Hmin)
    as [-> _].
  rewrite Hcfg. cbn [min_strike risk_free_rate default_config].
  rewrite black_scholes_call_at_expiry by lra.
  rewrite Rmax_negative_0 by lra. reflexivity.
Qed.

(** C2 (code defect).  The fallback of [select_strike] has no cent test.
    When the loop passes over every candidate (below the minimum strike,
    within 2% of the price, or worth less than a cent after slippage),
    [sell_call] still sells: for a positive minimum strike and an
    expiration that is a date, it returns a SELL_CALL trade at the minimum
    strike and appends it to the log, at a per-share premium after slippage
    of whatever the model gives that strike, with no lower bound. *)
Theorem fallback_sells_whatever_the_premium (self : CoveredCallStrategy)
    (current_date : date) (stock_price iv : R) (dte : option Z) :
  let dte' := match dte with Some d => d | None => target_dte (config self) end in
  0 < min_strike (config self) ->
  expiration_defined current_date dte' ->
  Forall (rejected self stock_price iv (IZR dte' / 365))
    (strike_candidates (config self)) ->
  exists t self' pos,
    sell_call self current_date stock_price iv dte = Ok (t, self')
    /\ action t = SELL_CALL
    /\ trade_strike t = Some (min_strike (config self))
    /\ trades self' = trades self ++ [t]
    /\ position self' = Some pos
    /\ strike pos = min_strike (config self)
    /\ net_premium_per_share self stock_price iv dte
       = Ok (apply_bid_ask_slippage
               (black_scholes_call stock_price (min_strike (config self))
                  (IZR dte' / 365) (risk_free_rate (config self)) iv)
               (bid_ask_spread_pct (config self))).
Proof.
  intros dte' Hmin Hexp Hrejected.
  assert (Hsel : select_strike self stock_price iv dte'
                 = Ok (min_strike (config self),
                       black_scholes_call stock_price (min_strike (config self))
                         (IZR dte' / 365) (risk_free_rate (config self)) iv)).
  { unfold select_strike.
    rewrite (select_strike_loop_all_rejected _ _ _ _ _ _ _ _ Hmin Hrejected).
    cbn [bind].
    destruct (positive_strike_divides (min_strike (config self)) (IZR dte' / 365) iv Hmin)
      as [-> _].
    reflexivity. }
  unfold sell_call, net_premium_per_share. fold dte'. rewrite Hsel. cbn [bind].
  rewrite (date_plus_days_Ok _ _ Hexp). cbn [bind].
  eexists. eexists. eexists. split; [reflexivity |]. cbn. repeat split.
Qed.

Lemma fallback_sells_whatever_the_premium_witness :
  exists t self',
    sell_call lot_bought 30 2 0.30 (Some 0%Z) = Ok (t, self')
    /\ action t = SELL_CALL
    /\ trades self' = trades lot_bought ++ [t]
    /\ net_premium_per_share lot_bought 2 0.30 (Some 0%Z) = Ok 0
    /\ ~ 0 >= 0.01.
Proof.
  destruct (fallback_sells_whatever_the_premium lot_bought 30 2 0.30 (Some 0%Z))
    as (t & self' & pos & Hsell & Hact & _ & Hlog & _ & _ & Hnet).
  - cbn. lra.
  - unfold expiration_defined, date_in_range. cbn. lia.
  - apply default_candidates_rejected_at_expiry. reflexivity.
  - exists t, self'. split; [exact Hsell |]. split; [exact Hact |].
    split; [exact Hlog |]. split; [| lra].
    rewrite Hnet. f_equal. cbn [lot_bought open_stock_position snd config min_strike
                                 risk_free_rate bid_ask_spread_pct new_strategy
                                 default_config].
    unfold apply_bid_ask_slippage.
    rewrite black_scholes_call_at_expiry by lra.
    rewrite Rmax_negative_0 by lra. lra.
Defined.

(** ** Signs of the cash-flow amounts *)

(** C4 (code defect).  The amount of a SELL_CALL record is the number of
    contracts times (100 times the net premium per share minus the
    commission per contract).  At a strike the scoring loop chose, the cent
    test makes it non-negative as long as the commission per contract is at
    most 1.00 (0.65 by default).  At the fallback strike nothing does: with
    at least one contract and 100 times the net premium below the
    commission, the amount logged is negative. *)
Theorem sell_call_amount_sign (self : CoveredCallStrategy) (current_date : date)
    (stock_price iv : R) (dte : option Z) (t : TradeRecord)
    (self' : CoveredCallStrategy) :
  sell_call self current_date stock_price iv dte = Ok (t, self') ->
  (100 <= shares_held self)%Z ->
  let dte' := match dte with Some d => d | None => target_dte (config self) end in
  exists k score net_premium,
    select_strike_loop self stock_price iv dte' (IZR dte' / 365)
      (strike_candidates (config self)) (min_strike (config self)) (- 1)
    = Ok (k, score)
    /\ net_premium_per_share self stock_price iv dte = Ok net_premium
    /\ In t (trades self')
    /\ action t = SELL_CALL
    /\ trade_strike t = Some k
    /\ premium t
       = IZR (shares_held self / 100)
         * (net_premium * 100 - commission_per_contract (config self))
    /\ (score <> - 1 -> commission_per_contract (config self) <= 1 -> 0 <= premium t)
    /\ (score = - 1 ->
        k = min_strike (config self)
        /\ (net_premium * 100 < commission_per_contract (config self) ->
            premium t < 0)).
Proof.
  intros Hsell Hshares dte'.
  destruct (sold_for_a_cent_unless_fallback _ _ _ _ _ _ _ Hsell)
    as (k & score & net & Hloop & Hnet & Hk & Hprem & Hcent & Hfall).
  destruct (sell_call_Ok _ _ _ _ _ _ _ Hsell)
    as (k0 & prem0 & _ & Ht & _ & _ & _ & Hlog & _).
  assert (Hc : (1 <= shares_held self / 100)%Z) by (apply Z.div_le_lower_bound; lia).
  apply IZR_le in Hc.
  exists k, score, net. split; [exact Hloop |]. split; [exact Hnet |].
  split; [rewrite Hlog; apply in_or_app; right; left; reflexivity |].
  split; [rewrite Ht; reflexivity |]. split; [exact Hk |].
  split; [rewrite Hprem; ring |].
  split.
  - intros Hscore Hcom. specialize (Hcent Hscore). rewrite Hprem. nra.
  - intros Hscore. split; [exact (Hfall Hscore) |].
    intros Hlow. rewrite Hprem. nra.
Qed.

Lemma sell_call_amount_sign_witness :
  exists t self',
    sell_call lot_bought 30 2 0.30 (Some 0%Z) = Ok (t, self')
    /\ (100 <= shares_held lot_bought)%Z
    /\ In t (trades self')
    /\ action t = SELL_CALL
    /\ trade_stock_price t > 0
    /\ premium t = - 6.5.
Proof.
  assert (Hsel : select_strike lot_bought 2 0.30 0 = Ok (2.50, 0))
    by (apply select_strike_at_expiry; reflexivity).
  assert (Hsell : exists t self',
             sell_call lot_bought 30 2 0.30 (Some 0%Z) = Ok (t, self')
             /\ trade_stock_price t = 2).
  { unfold sell_call. rewrite Hsel. cbn [bind]. eexists. eexists.
    split; reflexivity. }
  destruct Hsell as (t & self' & Hsell & Hprice).
  assert (Hshares : (100 <= shares_held lot_bought)%Z) by (cbn; lia).
  destruct (sell_call_amount_sign lot_bought 30 2 0.30 (Some 0%Z) t self' Hsell Hshares)
    as (k & score & net & _ & Hnet & Hin & Hact & _ & Hprem & _).
  exists t, self'. split; [exact Hsell |]. split; [exact Hshares |].
  split; [exact Hin |]. split; [exact Hact |]. split; [rewrite Hprice; lra |].
  unfold net_premium_per_share in Hnet. rewrite Hsel in Hnet. cbn in Hnet.
  inversion Hnet as [Hn]. rewrite Hprem, <- Hn.
  unfold apply_bid_ask_slippage.
  replace (shares_held lot_bought / 100)%Z with 10%Z by reflexivity.
  cbn [lot_bought open_stock_position snd config new_strategy
       commission_per_contract default_config]. lra.
Defined.

(** The records of the other kinds: a BUY_STOCK record carries a negative
    amount at a positive price and lot size; CALLED_AWAY and EXPIRE records
    carry 0; the ROLL record of a roll carries a negative amount when there
    is at least one contract, the commission per contract is positive, the
    spread is not negative and the call is not valued below 0. *)
Lemma other_amount_signs (self : CoveredCallStrategy) (current_date : date)
    (stock_price iv : R) :
  (0 < stock_price -> (0 < shares (config self))%Z ->
   let t := fst (open_stock_position self current_date stock_price) in
   action t = BUY_STOCK /\ premium t < 0)
  /\ (forall t, fst (check_expiration self current_date stock_price) = Some t ->
      (action t = CALLED_AWAY \/ action t = EXPIRE) /\ premium t = 0)
  /\ (forall pos roll_trades self',
      position self = Some pos ->
      roll_position self current_date stock_price iv = Ok (roll_trades, self') ->
      (1 <= contracts pos)%Z ->
      0 < commission_per_contract (config self) ->
      0 <= bid_ask_spread_pct (config self) ->
      0 <= black_scholes_call stock_price (strike pos)
             (Rmax (IZR (expiration pos - current_date) / 365) 0.001)
             (risk_free_rate (config self)) iv ->
      exists t sell_trade,
        roll_trades = [t; sell_trade]
        /\ action t = ROLL /\ premium t < 0 /\ action sell_trade = SELL_CALL).
Proof.
  split; [| split].
  - intros Hp Hlot t. subst t. cbn. split; [reflexivity |].
    apply IZR_lt in Hlot. nra.
  - intros t. unfold check_expiration.
    destruct (position self) as [pos |]; [| discriminate].
    destruct (_ <? _)%Z; [discriminate |].
    destruct (Rgeb _ _); intros H; inversion H; subst; cbn; tauto.
  - intros pos roll_trades self' Hpos Hroll Hc Hcom Hspread Hbs.
    unfold roll_position in Hroll. rewrite Hpos in Hroll.
    cbn [buy_back] in Hroll.
    destruct (sell_call _ _ _ _ _) as [[sell_trade sold] | e] eqn:Hsell;
      cbn in Hroll; [| discriminate].
    inversion Hroll; subst; clear Hroll.
    destruct (sell_call_Ok _ _ _ _ _ _ _ Hsell) as (k & prem & _ & Ht & _).
    eexists. exists sell_trade. split; [reflexivity |]. cbn.
    split; [reflexivity |]. split; [| subst sell_trade; reflexivity].
    apply IZR_le in Hc.
    assert (0 <= black_scholes_call stock_price (strike pos)
                   (Rmax (IZR (expiration pos - current_date) / 365) 0.001)
                   (risk_free_rate (config self)) iv
                 * (1 + bid_ask_spread_pct (config self) / 2)) by nra.
    nra.
Qed.

(** ** The divisor of [should_roll] *)




(** ** The day loop *)

(** C1.  On a day on which a position is open and not yet at its
    expiration date, the loop leaves the strategy object as it found it,
    trade log included, whatever [should_roll] answers: the roll check sits
    in an [elif] whose condition the [if] above it has already taken, so no
    ROLL and no SELL_CALL trade is appended even when [should_roll] is
    true. *)
Theorem roll_never_executed (self_config : CoveredCallConfig)
    (iv_series : list (option R)) (backtest_start : date) (i : nat)
    (row : date * R) (st : LoopState) (pos : OptionPosition) :
  position (strategy st) = Some pos ->
  (fst row < expiration pos)%Z ->
  exists st',
    day self_config iv_series backtest_start i row st = Ok st'
    /\ strategy st' = strategy st
    /\ cash st' = cash st.
Proof.
  intros Hpos Hdate. unfold day, buy_and_sell_first_call, expire_or_roll.
  rewrite Hpos. cbn [is_some negb andb bind].
  rewrite andb_false_r. cbn [bind].
  unfold check_expiration. rewrite Hpos.
  rewrite (proj2 (Z.ltb_lt _ _) Hdate). cbn [bind].
  destruct (i mod 5 =? 0)%nat.
  - destruct (check _ _ _ _) as [snapshot monitor].
    destruct (warning snapshot); eexists; repeat split.
  - eexists; repeat split.
Qed.

Lemma roll_never_executed_witness :
  position example_holding = Some example_position
  /\ (26 < expiration example_position)%Z
  /\ should_roll example_holding 26 2 0.50 = Ok true
  /\ exists st',
       day default_config [] 0 26 (26%Z, 2)
         {| strategy := example_holding;
            cash_monitor := new_monitor 1.50 0.10;
            cash := 100; equity_curve := []; cash_warnings := [] |} = Ok st'
       /\ trades (strategy st') = trades example_holding.
Proof.
  split; [reflexivity |]. split; [reflexivity |]. split; [reflexivity |].
  destruct (roll_never_executed default_config [] 0 26 (26%Z, 2)
              {| strategy := example_holding;
                 cash_monitor := new_monitor 1.50 0.10;
                 cash := 100; equity_curve := []; cash_warnings := [] |}
              example_position eq_refl eq_refl) as (st' & Hday & Hs & _).
  exists st'. split; [exact Hday |]. rewrite Hs. reflexivity.
Defined.

(** *** Exceptions of a run *)

Definition no_value_error {A : Type} (r : result A) : Prop :=
  match r with Raise ValueError => False | _ => True end.

Lemma no_value_error_bind {A B : Type} (m : result A) (k : A -> result B) :
  no_value_error m -> (forall a, no_value_error (k a)) -> no_value_error (bind m k).
Proof. destruct m as [a | e]; cbn; intros Hm Hk; [apply Hk | exact Hm]. Qed.

Lemma select_strike_loop_no_value_error (self : CoveredCallStrategy)
    (stock_price iv : R) (dte : Z) (T : R) (candidates : list R) :
  forall best_strike best_score,
    no_value_error
      (select_strike_loop self stock_price iv dte T candidates best_strike best_score).
Proof.
  induction candidates as [| c rest IH]; intros bk bs; cbn; [exact I |].
  destruct (Rltb c _); [apply IH |].
  destruct (Rleb c _); [apply IH |].
  destruct (_ || _); [exact I |].
  destruct (Rltb _ 0.01); [apply IH |].
  destruct (Reqb stock_price 0 || (dte =? 0)%Z); [exact I |].
  destruct (Rgtb _ bs); apply IH.
Qed.

Lemma sell_call_no_value_error (self : CoveredCallStrategy) (current_date : date)
    (stock_price iv : R) (dte : option Z) :
  no_value_error (sell_call self current_date stock_price iv dte).
Proof.
  unfold sell_call, select_strike, date_plus_days.
  apply no_value_error_bind.
  - apply no_value_error_bind; [apply select_strike_loop_no_value_error |].
    intros [k score]. destruct (black_scholes_call_divides_by_zero _ _ _); exact I.
  - intros [k prem]. destruct (_ && _); exact I.
Qed.

Lemma should_roll_no_value_error (self : CoveredCallStrategy) (current_date : date)
    (stock_price iv : R) :
  no_value_error (should_roll self current_date stock_price iv).
Proof.
  unfold should_roll. destruct (position self) as [pos |]; [| exact I].
  destruct (_ <=? _)%Z; [exact I |].
  unfold true_divide.
  destruct (_ =? 0)%Z; [destruct (premium_class pos); [exact I |] |]; cbn [bind];
    destruct (double_ge _ _); exact I.
Qed.

Lemma roll_position_no_value_error (self : CoveredCallStrategy)
    (current_date : date) (stock_price iv : R) :
  no_value_error (roll_position self current_date stock_price iv).
Proof.
  unfold roll_position.
  destruct (position self) as [pos |]; cbn [buy_back];
    (apply no_value_error_bind; [apply sell_call_no_value_error | intros [? ?]; exact I]).
Qed.

Lemma day_no_value_error (self_config : CoveredCallConfig)
    (iv_series : list (option R)) (backtest_start : date) (i : nat)
    (row : date * R) (st : LoopState) :
  no_value_error (day self_config iv_series backtest_start i row st).
Proof.
  unfold day. apply no_value_error_bind.
  - unfold buy_and_sell_first_call.
    destruct (_ && _); [| exact I].
    destruct (_ || _); [| exact I].
    cbn [open_stock_position].
    apply no_value_error_bind; [apply sell_call_no_value_error | intros [? ?]; exact I].
  - intros [entered cash1]. apply no_value_error_bind.
    + unfold expire_or_roll. destruct (is_some (position entered)).
      * destruct (check_expiration _ _ _) as [[exp_trade |] checked]; [| exact I].
        apply no_value_error_bind.
        -- destruct (Action_eqb _ CALLED_AWAY); [| exact I].
           destruct (trade_strike exp_trade); exact I.
        -- intros cash2. destruct (Action_eqb _ EXPIRE); [| exact I].
           apply no_value_error_bind;
             [apply sell_call_no_value_error | intros [? ?]; exact I].
      * exact I.
    + intros [s c]. destruct (i mod 5 =? 0)%nat.
      * destruct (check _ _ _ _) as [snapshot monitor].
        destruct (warning snapshot); exact I.
      * exact I.
Qed.

Lemma day_loop_no_value_error (self_config : CoveredCallConfig)
    (iv_series : list (option R)) (backtest_start : date) (rows : list (date * R)) :
  forall i st,
    no_value_error (day_loop self_config iv_series backtest_start rows i st).
Proof.
  induction rows as [| row rest IH]; intros i st; cbn; [exact I |].
  apply no_value_error_bind; [apply day_no_value_error | intros st'; apply IH].
Qed.

(** *** The date window *)

(** A row is inside the requested window. *)
Definition in_window (start_date end_date : option date) (row : date * R) : bool :=
  match start_date with Some s => (s <=? fst row)%Z | None => true end
  && match end_date with Some e => (fst row <=? e)%Z | None => true end.

Lemma filter_insert_row_length (f : date * R -> bool) (r : date * R)
    (rows : list (date * R)) :
  length (filter f (insert_row r rows)) = length (filter f (r :: rows)).
Proof.
  induction rows as [| r' rest IH]; [reflexivity |].
  cbn [insert_row]. destruct (fst r <? fst r')%Z; [reflexivity |].
  cbn [filter] in *. destruct (f r'), (f r); cbn [length] in *; lia.
Qed.

Lemma filter_sort_values_length (f : date * R -> bool) (rows : list (date * R)) :
  length (filter f (sort_values rows)) = length (filter f rows).
Proof.
  induction rows as [| r rest IH]; [reflexivity |].
  cbn [sort_values]. rewrite filter_insert_row_length.
  cbn [filter]. destruct (f r); cbn [length]; lia.
Qed.

Lemma filter_filter {A : Type} (f g : A -> bool) (l : list A) :
  filter g (filter f l) = filter (fun a => f a && g a) l.
Proof.
  induction l as [| a l IH]; [reflexivity |].
  cbn. destruct (f a); cbn; [destruct (g a) |]; rewrite IH; reflexivity.
Qed.

(** The rows the run works on are the rows of the input inside the
    window, as many as there are. *)
Lemma window_rows_length (prices : list (date * R)) (start_date end_date : option date) :
  length (window_rows prices start_date end_date)
  = length (filter (in_window start_date end_date) prices).
Proof.
  unfold window_rows, in_window.
  destruct start_date as [s |], end_date as [e |].
  - rewrite filter_filter, filter_sort_values_length.
    f_equal. apply filter_ext. intros row.
    rewrite Z.geb_leb. reflexivity.
  - rewrite filter_sort_values_length. f_equal. apply filter_ext. intros row.
    rewrite Z.geb_leb, andb_true_r. reflexivity.
  - rewrite filter_sort_values_length. reflexivity.
  - rewrite <- (filter_sort_values_length (fun _ => true)).
    f_equal. clear. induction (sort_values prices) as [| r l IH]; cbn; congruence.
Qed.

(** C8.  A run fails with the insufficient-data error exactly when fewer
    than 30 of the observations lie inside the start/end window; with 30 or
    more it goes on into the simulation and never raises that error. *)
Theorem insufficient_data_iff (self_config : CoveredCallConfig)
    (prices : list (date * R)) (start_date end_date : option date) :
  run self_config prices start_date end_date = Raise ValueError
  <-> (length (filter (in_window start_date end_date) prices) < 30)%nat.
Proof.
  rewrite <- window_rows_length. unfold run.
  destruct (length _ <? 30)%nat eqn:Hlen.
  - apply Nat.ltb_lt in Hlen. tauto.
  - apply Nat.ltb_ge in Hlen. split; [| lia].
    intros Hrun.
    pose proof (day_loop_no_value_error self_config
                  (implied_volatility_from_history
                     (map snd (window_rows prices start_date end_date)) 20 1.3)
                  (hd 0%Z (map fst (window_rows prices start_date end_date)))
                  (window_rows prices start_date end_date) 0
                  {| strategy := new_strategy self_config;
                     cash_monitor :=
                       new_monitor (net_cash_per_share self_config)
                                   (cash_burn_per_quarter self_config);
                     cash := initial_investment_of self_config
                               (window_rows prices start_date end_date);
                     equity_curve := [];
                     cash_warnings := [] |}) as Hloop.
    unfold simulate in Hrun.
    destruct (day_loop _ _ _ _ _ _) as [st | e]; cbn in Hrun; [discriminate |].
    inversion Hrun; subst. destruct Hloop.
Qed.

(** ** Shares and position: the invariant of the engine *)

(** The invariant carried through the loop: the strategy object keeps the
    configuration of the run, and satisfies [one_lot_or_none]. *)
Definition engine_invariant (self_config : CoveredCallConfig)
    (s : CoveredCallStrategy) : Prop :=
  config s = self_config /\ one_lot_or_none self_config s.

Lemma new_strategy_invariant (cfg : CoveredCallConfig) :
  engine_invariant cfg (new_strategy cfg).
Proof.
  split; [reflexivity |]. split; cbn; [left; reflexivity | intros H; contradiction].
Qed.

Lemma open_stock_position_invariant (cfg : CoveredCallConfig)
    (s : CoveredCallStrategy) (d : date) (p : R) :
  config s = cfg ->
  engine_invariant cfg (snd (open_stock_position s d p))
  /\ shares_held (snd (open_stock_position s d p)) = shares cfg.
Proof.
  intros Hcfg. subst cfg. cbn. repeat split; auto.
Qed.

Lemma sell_call_invariant (cfg : CoveredCallConfig) (s : CoveredCallStrategy)
    (d : date) (p iv : R) (dte : option Z) (t : TradeRecord)
    (s' : CoveredCallStrategy) :
  config s = cfg -> shares_held s = shares cfg ->
  sell_call s d p iv dte = Ok (t, s') ->
  engine_invariant cfg s'.
Proof.
  intros Hcfg Hlot Hsell.
  destruct (sell_call_Ok _ _ _ _ _ _ _ Hsell)
    as (k & prem & _ & _ & _ & Hcfg' & Hshares & _).
  split; [congruence |]. split; [right; congruence | intros _; congruence].
Qed.

Lemma check_expiration_invariant (cfg : CoveredCallConfig)
    (s : CoveredCallStrategy) (d : date) (p : R) :
  engine_invariant cfg s ->
  engine_invariant cfg (snd (check_expiration s d p))
  /\ (forall t, fst (check_expiration s d p) = Some t -> action t = EXPIRE ->
      position (snd (check_expiration s d p)) = None
      /\ shares_held (snd (check_expiration s d p)) = shares cfg).
Proof.
  intros [Hcfg [Hshares Hpos]]. unfold check_expiration.
  destruct (position s) as [pos |] eqn:Epos.
  - assert (Hlot : shares_held s = shares cfg) by (apply Hpos; discriminate).
    destruct (_ <? _)%Z.
    + cbn. split; [| discriminate].
      split; [exact Hcfg |]. split; [exact Hshares | rewrite Epos; exact Hpos].
    + destruct (Rgeb _ _); cbn.
      * split.
        -- split; [exact Hcfg |]. split; cbn; [left; reflexivity | intros H; contradiction].
        -- intros t Ht Hact. inversion Ht; subst. discriminate.
      * split.
        -- split; [exact Hcfg |]. split; cbn; [right; exact Hlot | intros _; exact Hlot].
        -- intros t _ _. split; [reflexivity | exact Hlot].
  - cbn. split; [| discriminate].
    split; [exact Hcfg |]. split; [exact Hshares | rewrite Epos; exact Hpos].
Qed.

(** Close a [Forall] over an explicit list of visited states. *)
Ltac all_visited :=
  repeat (apply Forall_cons; [assumption |]); apply Forall_nil.

Lemma buy_and_sell_first_call_invariant (cfg : CoveredCallConfig) (i : nat)
    (d : date) (p iv : R) (s : CoveredCallStrategy) (c : R) :
  engine_invariant cfg s ->
  Forall (engine_invariant cfg) (buy_and_sell_first_call_states i d p iv s)
  /\ (forall s' c', buy_and_sell_first_call cfg i d p iv s c = Ok (s', c') ->
      engine_invariant cfg s'
      /\ last (buy_and_sell_first_call_states i d p iv s) s = s').
Proof.
  intros Hinv. unfold buy_and_sell_first_call_states, buy_and_sell_first_call.
  destruct (_ && _).
  2: { split; [constructor |]. intros s' c' H. inversion H; subst. split; [exact Hinv | reflexivity]. }
  destruct (_ || _).
  2: { split; [constructor |]. intros s' c' H. inversion H; subst. split; [exact Hinv | reflexivity]. }
  destruct Hinv as [Hcfg _].
  destruct (open_stock_position_invariant cfg s d p Hcfg) as [Hbought Hlot].
  destruct (open_stock_position s d p) as [buy_trade bought] eqn:Eopen.
  cbn [snd] in Hbought, Hlot.
  destruct (sell_call bought d p iv None) as [[sell_trade sold] | e] eqn:Esell; cbn.
  - assert (Hsold : engine_invariant cfg sold)
      by (eapply sell_call_invariant; [apply Hbought | exact Hlot | exact Esell]).
    split; [all_visited |].
    intros s' c' H. inversion H; subst. split; [exact Hsold | reflexivity].
  - split; [all_visited | discriminate].
Qed.

Lemma expire_or_roll_invariant (cfg : CoveredCallConfig) (d : date) (p iv : R)
    (s : CoveredCallStrategy) (c : R) :
  engine_invariant cfg s ->
  Forall (engine_invariant cfg) (expire_or_roll_states d p iv s)
  /\ (forall s' c', expire_or_roll d p iv s c = Ok (s', c') ->
      engine_invariant cfg s'
      /\ last (expire_or_roll_states d p iv s) s = s').
Proof.
  intros Hinv. unfold expire_or_roll_states, expire_or_roll.
  destruct (is_some (position s)).
  2: { split; [constructor |]. intros s' c' H. inversion H; subst. split; [exact Hinv | reflexivity]. }
  destruct (check_expiration_invariant cfg s d p Hinv) as [Hchecked Hexpire].
  destruct (check_expiration s d p) as [[exp_trade |] checked]; cbn [fst snd] in *.
  2: { split; [all_visited |].
       intros s' c' H. inversion H; subst. split; [exact Hchecked | reflexivity]. }
  destruct (Action_eqb (action exp_trade) EXPIRE) eqn:Eexp.
  - assert (Hact : action exp_trade = EXPIRE)
      by (destruct (action exp_trade); try discriminate; reflexivity).
    destruct (Hexpire exp_trade eq_refl Hact) as [_ Hlot].
    rewrite Hact. cbn [Action_eqb bind].
    destruct (sell_call checked d p iv None) as [[sell_trade sold] | e] eqn:Esell; cbn.
    + assert (Hsold : engine_invariant cfg sold)
        by (eapply sell_call_invariant; [apply Hchecked | exact Hlot | exact Esell]).
      split; [all_visited |].
      intros s' c' H. inversion H; subst. split; [exact Hsold | reflexivity].
    + split; [all_visited | discriminate].
  - split; [all_visited |].
    intros s' c' H.
    destruct (Action_eqb (action exp_trade) CALLED_AWAY);
      [destruct (trade_strike exp_trade); [| discriminate] |];
      cbn in H; inversion H; subst; split; [exact Hchecked | reflexivity | exact Hchecked | reflexivity].
Qed.

Lemma last_app_default {A : Type} (l1 l2 : list A) (d : A) :
  last (l1 ++ l2) d = last l2 (last l1 d).
Proof.
  revert d. induction l2 as [| x l2 IH] using rev_ind; intros d.
  - rewrite app_nil_r. reflexivity.
  - rewrite app_assoc, !last_last. reflexivity.
Qed.

Lemma day_invariant (cfg : CoveredCallConfig) (iv_series : list (option R))
    (backtest_start : date) (i : nat) (row : date * R) (st : LoopState) :
  engine_invariant cfg (strategy st) ->
  Forall (engine_invariant cfg) (day_states cfg iv_series i row st)
  /\ (forall st', day cfg iv_series backtest_start i row st = Ok st' ->
      engine_invariant cfg (strategy st')
      /\ last (day_states cfg iv_series i row st) (strategy st) = strategy st').
Proof.
  intros Hinv. unfold day_states, day.
  set (iv := match nth i iv_series None with Some v => v | None => 0.50 end).
  destruct (buy_and_sell_first_call_invariant cfg i (fst row) (snd row) iv
              (strategy st) (cash st) Hinv) as [Hstates1 Hres1].
  destruct (buy_and_sell_first_call cfg i (fst row) (snd row) iv (strategy st) (cash st))
    as [[entered cash1] | e]; cbn [bind].
  2: { rewrite app_nil_r. split; [exact Hstates1 | discriminate]. }
  destruct (Hres1 entered cash1 eq_refl) as [Hentered Hlast1].
  destruct (expire_or_roll_invariant cfg (fst row) (snd row) iv entered cash1 Hentered)
    as [Hstates2 Hres2].
  split; [apply Forall_app; split; assumption |].
  destruct (expire_or_roll (fst row) (snd row) iv entered cash1)
    as [[s2 cash2] | e]; cbn [bind]; [| discriminate].
  destruct (Hres2 s2 cash2 eq_refl) as [Hs2 Hlast2].
  intros st' Hday.
  assert (Hst' : strategy st' = s2).
  { destruct (i mod 5 =? 0)%nat.
    - destruct (check _ _ _ _) as [snapshot monitor].
      destruct (warning snapshot); inversion Hday; reflexivity.
    - inversion Hday; reflexivity. }
  rewrite Hst'. split; [exact Hs2 |].
  rewrite last_app_default, Hlast1. exact Hlast2.
Qed.

Lemma day_loop_invariant (cfg : CoveredCallConfig) (iv_series : list (option R))
    (backtest_start : date) (rows : list (date * R)) :
  forall i st,
    engine_invariant cfg (strategy st) ->
    Forall (engine_invariant cfg)
      (day_loop_states cfg iv_series backtest_start rows i st)
    /\ (forall st', day_loop cfg iv_series backtest_start rows i st = Ok st' ->
        engine_invariant cfg (strategy st')
        /\ last (day_loop_states cfg iv_series backtest_start rows i st) (strategy st)
           = strategy st').
Proof.
  induction rows as [| row rest IH]; intros i st Hinv; cbn.
  - split; [constructor |]. intros st' H. inversion H; subst. split; [exact Hinv | reflexivity].
  - destruct (day_invariant cfg iv_series backtest_start i row st Hinv) as [Hday Hres].
    destruct (day cfg iv_series backtest_start i row st) as [st1 | e]; cbn [bind].
    + destruct (Hres st1 eq_refl) as [Hst1 Hlast1].
      destruct (IH (S i) st1 Hst1) as [Hrest Hres'].
      split; [apply Forall_app; split; assumption |].
      intros st' Hloop. destruct (Hres' st' Hloop) as [Hst' Hlast'].
      split; [exact Hst' |]. rewrite last_app_default, Hlast1. exact Hlast'.
    + rewrite app_nil_r. split; [exact Hday | discriminate].
Qed.

(** C3.  Every state the strategy object passes through in a run, from
    the freshly built object through each Strategy Engine operation of each
    day in the loop's order, holds either no shares or exactly the
    configured lot, and has a position open only while it holds the lot;
    the position is one optional value, so there is never more than one. *)
Theorem shares_zero_or_lot (self_config : CoveredCallConfig)
    (prices : list (date * R)) (start_date end_date : option date) :
  Forall (one_lot_or_none self_config)
    (run_states self_config prices start_date end_date).
Proof.
  unfold run_states.
  set (df := window_rows prices start_date end_date).
  set (st0 := {| strategy := new_strategy self_config;
                 cash_monitor := _; cash := _; equity_curve := [];
                 cash_warnings := [] |}).
  destruct (day_loop_invariant self_config
              (implied_volatility_from_history (map snd df) 20 1.3)
              (hd 0%Z (map fst df)) df 0 st0
              (new_strategy_invariant self_config)) as [Hstates _].
  destruct (length df <? 30)%nat; [constructor |].
  constructor; [apply new_strategy_invariant |].
  eapply Forall_impl; [| exact Hstates]. intros s Hs. apply Hs.
Qed.

(** The states listed for a run that completes start with the freshly built
    object and end in the strategy the metrics are computed from. *)
Lemma run_states_ends (self_config : CoveredCallConfig)
    (prices : list (date * R)) (start_date end_date : option date)
    (st : LoopState) :
  (30 <= length (window_rows prices start_date end_date))%nat ->
  simulate self_config (window_rows prices start_date end_date) = Ok st ->
  exists visited,
    run_states self_config prices start_date end_date
    = new_strategy self_config :: visited
    /\ last visited (new_strategy self_config) = strategy st.
Proof.
  intros Hlen Hsim. unfold run_states, simulate in *.
  apply Nat.ltb_ge in Hlen. rewrite Hlen.
  eexists. split; [reflexivity |].
  eapply day_loop_invariant; [apply new_strategy_invariant | exact Hsim].
Qed.

(** *** The trade log of a run holds no ROLL entry *)

Definition never_rolled (s : CoveredCallStrategy) : Prop :=
  Forall (fun t => action t <> ROLL) (trades s).

Lemma sell_call_never_rolled (s : CoveredCallStrategy) (d : date) (p iv : R)
    (dte : option Z) (t : TradeRecord) (s' : CoveredCallStrategy) :
  never_rolled s -> sell_call s d p iv dte = Ok (t, s') -> never_rolled s'.
Proof.
  intros Hs Hsell.
  destruct (sell_call_Ok _ _ _ _ _ _ _ Hsell) as (k & prem & _ & Ht & _ & _ & _ & Hlog & _).
  unfold never_rolled. rewrite Hlog. apply Forall_app. split; [exact Hs |].
  subst t. constructor; [discriminate | constructor].
Qed.

Lemma day_never_rolled (cfg : CoveredCallConfig) (iv_series : list (option R))
    (backtest_start : date) (i : nat) (row : date * R) (st st' : LoopState) :
  never_rolled (strategy st) ->
  day cfg iv_series backtest_start i row st = Ok st' ->
  never_rolled (strategy st').
Proof.
  intros Hst. unfold day.
  set (iv := match nth i iv_series None with Some v => v | None => 0.50 end).
  assert (H1 : forall s c,
             buy_and_sell_first_call cfg i (fst row) (snd row) iv (strategy st) (cash st)
             = Ok (s, c) -> never_rolled s).
  { intros s c. unfold buy_and_sell_first_call.
    destruct (_ && _); [| intros H; inversion H; subst; exact Hst].
    destruct (_ || _); [| intros H; inversion H; subst; exact Hst].
    cbn [open_stock_position].
    match goal with
    | |- context [sell_call ?s0 _ _ _ None] =>
        assert (Hbought : never_rolled s0)
          by (apply Forall_app; split; [exact Hst | constructor; [discriminate | constructor]]);
        destruct (sell_call s0 (fst row) (snd row) iv None) as [[t sold] | e] eqn:Esell
    end; cbn; [| discriminate].
    intros H. inversion H; subst. eapply sell_call_never_rolled; eassumption. }
  destruct (buy_and_sell_first_call cfg i (fst row) (snd row) iv (strategy st) (cash st))
    as [[s1 c1] | e]; cbn [bind]; [| discriminate].
  specialize (H1 s1 c1 eq_refl).
  assert (H2 : forall s c,
             expire_or_roll (fst row) (snd row) iv s1 c1 = Ok (s, c) -> never_rolled s).
  { intros s c. unfold expire_or_roll.
    destruct (is_some (position s1)); [| intros H; inversion H; subst; exact H1].
    unfold check_expiration.
    destruct (position s1) as [pos |]; [| intros H; inversion H; subst; exact H1].
    destruct (_ <? _)%Z; [intros H; inversion H; subst; exact H1 |].
    destruct (Rgeb _ _); cbn.
    - intros H. inversion H; subst.
      apply Forall_app. split; [exact H1 | constructor; [discriminate | constructor]].
    - match goal with
      | |- context [sell_call ?s0 _ _ _ None] =>
          assert (Hexpired : never_rolled s0)
            by (apply Forall_app; split; [exact H1 | constructor; [discriminate | constructor]]);
          destruct (sell_call s0 (fst row) (snd row) iv None) as [[t sold] | e] eqn:Esell
      end; cbn; [| discriminate].
      intros H. inversion H; subst. eapply sell_call_never_rolled; eassumption. }
  destruct (expire_or_roll (fst row) (snd row) iv s1 c1) as [[s2 c2] | e];
    cbn [bind]; [| discriminate].
  specialize (H2 s2 c2 eq_refl).
  destruct (i mod 5 =? 0)%nat.
  - destruct (check _ _ _ _) as [snapshot monitor].
    destruct (warning snapshot); intros H; inversion H; subst; exact H2.
  - intros H; inversion H; subst; exact H2.
Qed.

Lemma day_loop_never_rolled (cfg : CoveredCallConfig)
    (iv_series : list (option R)) (backtest_start : date)
    (rows : list (date * R)) :
  forall i st st',
    never_rolled (strategy st) ->
    day_loop cfg iv_series backtest_start rows i st = Ok st' ->
    never_rolled (strategy st').
Proof.
  induction rows as [| row rest IH]; intros i st st' Hst Hloop; cbn in Hloop.
  - inversion Hloop; subst. exact Hst.
  - destruct (day cfg iv_series backtest_start i row st) as [st1 | e] eqn:Eday;
      cbn in Hloop; [| discriminate].
    eapply IH; [| exact Hloop].
    eapply day_never_rolled; eassumption.
Qed.

(** No run ever logs a ROLL trade. *)
Lemma run_never_rolls (cfg : CoveredCallConfig) (prices : list (date * R))
    (start_date end_date : option date) (res : BacktestResult) :
  run cfg prices start_date end_date = Ok res ->
  Forall (fun t => action t <> ROLL) (result_trades res).
Proof.
  unfold run. destruct (_ <? 30)%nat; [discriminate |].
  destruct (simulate cfg _) as [st | e] eqn:Hsim; cbn; [| discriminate].
  intros H. inversion H; subst. cbn [result_trades metrics].
  unfold simulate in Hsim.
  eapply day_loop_never_rolled; [| exact Hsim].
  apply Forall_nil.
Qed.

(** ** Volatility estimator *)

Lemma array_set_length {A : Type} (a : list A) (i : nat) (v : A) :
  length (array_set a i v) = length a.
Proof.
  revert i. induction a as [| x a IH]; intros [| i]; cbn; auto.
Qed.

Lemma nth_array_set_eq {A : Type} (a : list A) (i : nat) (v d : A) :
  (i < length a)%nat -> nth i (array_set a i v) d = v.
Proof.
  revert i. induction a as [| x a IH]; intros [| i]; cbn; intros H; try lia; auto.
  apply IH. lia.
Qed.

Lemma nth_array_set_neq {A : Type} (a : list A) (i k : nat) (v d : A) :
  k <> i -> nth k (array_set a i v) d = nth k a d.
Proof.
  revert i k. induction a as [| x a IH]; intros [| i] [| k]; cbn; intros H;
    try reflexivity; try lia.
  apply IH. lia.
Qed.

Lemma iv_loop_length (log_returns : list (option R)) (window : nat) (iv_premium : R)
    (idxs : list nat) :
  forall iv_series,
    length (fold_left (iv_loop_body log_returns window iv_premium) idxs iv_series)
    = length iv_series.
Proof.
  induction idxs as [| i rest IH]; intros acc; cbn; [reflexivity |].
  rewrite IH. apply array_set_length.
Qed.

Lemma log_returns_of_length (prices : list R) :
  length (log_returns_of prices) = (length prices - 1)%nat.
Proof.
  induction prices as [| p rest IH]; [reflexivity |].
  destruct rest as [| p' rest']; [reflexivity |].
  change (log_returns_of (p :: p' :: rest'))
    with (np_log_ratio p' p :: log_returns_of (p' :: rest')).
  cbn [length] in *. lia.
Qed.

(** The output has the length of the input. *)
Lemma implied_volatility_length (prices : list R) (window : nat) (iv_premium : R) :
  length (implied_volatility_from_history prices window iv_premium) = length prices.
Proof.
  unfold implied_volatility_from_history, np_maximum.
  rewrite length_map.
  set (looped := fold_left _ _ _).
  assert (Hlooped : length looped = length prices)
    by (unfold looped; rewrite iv_loop_length; apply repeat_length).
  destruct (window + 1 <? length looped)%nat eqn:E; [| exact Hlooped].
  apply Nat.ltb_lt in E.
  rewrite length_app, repeat_length, length_skipn. lia.
Qed.

(** An entry that is a number is at least the floor. *)
Definition floored (o : option R) : Prop :=
  match o with Some v => 0.30 <= v | None => True end.

Lemma implied_volatility_floored (prices : list R) (window : nat) (iv_premium : R) :
  Forall floored (implied_volatility_from_history prices window iv_premium).
Proof.
  unfold implied_volatility_from_history, np_maximum.
  apply Forall_map. apply Forall_forall. intros [v |] _; cbn; [apply Rmax_r | exact I].
Qed.

(** A series no longer than the window plus one comes back all [nan]. *)
Lemma implied_volatility_short_series (prices : list R) (window : nat) (iv_premium : R) :
  (length prices <= window + 1)%nat ->
  implied_volatility_from_history prices window iv_premium
  = repeat None (length prices).
Proof.
  intros Hshort. unfold implied_volatility_from_history.
  rewrite log_returns_of_length.
  replace (length prices - 1 - window)%nat with 0%nat by lia.
  cbn [seq fold_left]. rewrite repeat_length.
  rewrite (proj2 (Nat.ltb_ge _ _) Hshort).
  unfold np_maximum. rewrite map_repeat. reflexivity.
Qed.

Lemma log_returns_of_finite (prices : list R) :
  Forall (fun p => 0 < p) prices ->
  Forall (fun o => is_some o = true) (log_returns_of prices).
Proof.
  induction prices as [| p rest IH]; intros Hpos; [constructor |].
  destruct rest as [| p' rest']; [constructor |].
  change (log_returns_of (p :: p' :: rest'))
    with (np_log_ratio p' p :: log_returns_of (p' :: rest')).
  inversion Hpos as [| ? ? Hp Hrest]; subst.
  constructor; [| apply IH; exact Hrest].
  inversion Hrest as [| ? ? Hp' _]; subst.
  unfold np_log_ratio.
  rewrite (proj2 (Reqb_false_iff p 0)) by lra.
  rewrite (proj2 (Rltb_true_iff 0 (p' / p))) by (apply Rdiv_lt_0_compat; assumption).
  reflexivity.
Qed.

Lemma all_finite_some (xs : list (option R)) :
  Forall (fun o => is_some o = true) xs ->
  exists ys, all_finite xs = Some ys /\ length ys = length xs.
Proof.
  induction 1 as [| o xs Ho _ IH]; [exists []; split; reflexivity |].
  destruct IH as (ys & Hys & Hlen).
  destruct o as [x |]; [| discriminate].
  exists (x :: ys). cbn. rewrite Hys, Hlen. split; reflexivity.
Qed.

Lemma slice_finite (xs : list (option R)) (lo hi : nat) :
  Forall (fun o => is_some o = true) xs ->
  Forall (fun o => is_some o = true) (slice xs lo hi).
Proof.
  intros H. unfold slice.
  rewrite <- (firstn_skipn lo xs) in H. apply Forall_app in H. destruct H as [_ H].
  rewrite <- (firstn_skipn (hi - lo) (skipn lo xs)) in H.
  apply Forall_app in H. apply H.
Qed.

(** A full window of finite returns has a standard deviation. *)
Lemma np_std_window (log_returns : list (option R)) (window i : nat) :
  Forall (fun o => is_some o = true) log_returns ->
  (1 <= window <= i)%nat -> (i <= length log_returns)%nat ->
  is_some (np_std (slice log_returns (i - window) i)) = true.
Proof.
  intros Hfin Hw Hi.
  destruct (all_finite_some _ (slice_finite log_returns (i - window) i Hfin))
    as (ys & Hys & Hlen).
  unfold np_std. rewrite Hys.
  unfold slice in Hlen. rewrite length_firstn, length_skipn in Hlen.
  destruct ys as [| y ys]; [cbn in Hlen; lia | reflexivity].
Qed.

(** After the loop, an entry is a number if it was one before or if the
    loop has written it. *)
Lemma iv_loop_sets (log_returns : list (option R)) (window : nat) (iv_premium : R)
    (k : nat) (idxs : list nat) :
  (forall i, In i idxs ->
     is_some (np_std (slice log_returns (i - window) i)) = true) ->
  forall iv_series,
    (k < length iv_series)%nat ->
    is_some (nth k iv_series None) = true \/ (exists i, In i idxs /\ k = (i + 1)%nat) ->
    is_some (nth k (fold_left (iv_loop_body log_returns window iv_premium)
                      idxs iv_series) None) = true.
Proof.
  induction idxs as [| i rest IH]; intros Hstd acc Hk Hcase; cbn.
  - destruct Hcase as [H | (i & [] & _)]. exact H.
  - apply IH.
    + intros j Hj. apply Hstd. right. exact Hj.
    + unfold iv_loop_body. rewrite array_set_length. exact Hk.
    + assert (Hv : is_some (np_std (slice log_returns (i - window) i)) = true)
        by (apply Hstd; left; reflexivity).
      destruct (Nat.eq_dec k (i + 1)) as [-> | Hne].
      * left. unfold iv_loop_body. rewrite nth_array_set_eq by exact Hk.
        destruct (np_std _); [reflexivity | discriminate].
      * destruct Hcase as [H | (j & [<- | Hj] & Hkj)].
        -- left. unfold iv_loop_body. rewrite nth_array_set_neq by exact Hne. exact H.
        -- contradiction.
        -- right. exists j. split; assumption.
Qed.

(** A series of positive prices longer than the window plus one comes back
    without a [nan]. *)
Lemma implied_volatility_long_series (prices : list R) (window : nat) (iv_premium : R) :
  (1 <= window)%nat -> (window + 2 <= length prices)%nat ->
  Forall (fun p => 0 < p) prices ->
  Forall (fun o => is_some o = true)
    (implied_volatility_from_history prices window iv_premium).
Proof.
  intros Hw Hlong Hpos. unfold implied_volatility_from_history.
  pose proof (log_returns_of_finite prices Hpos) as Hfin.
  pose proof (log_returns_of_length prices) as Hlr.
  set (log_returns := log_returns_of prices) in *.
  set (looped := fold_left _ _ _).
  assert (Hlen : length looped = length prices)
    by (unfold looped; rewrite iv_loop_length; apply repeat_length).
  assert (Hset : forall k, (window + 1 <= k < length prices)%nat ->
                           is_some (nth k looped None) = true).
  { intros k Hk. unfold looped. apply iv_loop_sets.
    - intros i Hi. apply in_seq in Hi. apply np_std_window; [exact Hfin | lia | lia].
    - rewrite repeat_length. lia.
    - right. exists (k - 1)%nat. split; [apply in_seq; lia | lia]. }
  rewrite (proj2 (Nat.ltb_lt _ _)) by lia.
  unfold np_maximum. apply Forall_map. apply Forall_app. split.
  - apply Forall_forall. intros o Ho. apply repeat_spec in Ho. subst o.
    destruct (nth (window + 1) looped None) eqn:E; [reflexivity |].
    specialize (Hset (window + 1)%nat). rewrite E in Hset. apply Hset. lia.
  - apply Forall_nth. intros j d Hj. rewrite length_skipn in Hj.
    rewrite nth_skipn.
    rewrite (nth_indep looped d None) by lia.
    destruct (nth (window + 1 + j) looped None) eqn:E; [reflexivity |].
    specialize (Hset (window + 1 + j)%nat). rewrite E in Hset. apply Hset. lia.
Qed.

(** C7, as stated, fails: with the window of 20 days the run uses, a series
    of 21 prices at 2.00 comes back with 21 entries, every one [nan]. *)
Lemma short_series_all_nan :
  implied_volatility_from_history (repeat 2 21) 20 1.3 = repeat None 21
  /\ ~ Forall (fun o => exists v, o = Some v /\ 0.30 <= v)
         (implied_volatility_from_history (repeat 2 21) 20 1.3).
Proof.
  assert (H : implied_volatility_from_history (repeat 2 21) 20 1.3 = repeat None 21).
  { rewrite implied_volatility_short_series.
    - rewrite repeat_length. reflexivity.
    - rewrite repeat_length. lia. }
  split; [exact H |].
  rewrite H. intros HF. apply Forall_inv in HF.
  destruct HF as (v & Hv & _). discriminate.
Qed.

(** C7 (amended).  The estimator returns a series of the length of its
    input in which every value that is a number is at least 0.30.  For a
    window of at least one day and positive prices, a series longer than the
    window plus one has no missing value after the backfill, so every value
    is a number at least 0.30; a series no longer than the window plus one
    is returned all [nan], no backfill being applied. *)
Theorem implied_volatility_floor_and_backfill (prices : list R) (window : nat)
    (iv_premium : R) :
  length (implied_volatility_from_history prices window iv_premium) = length prices
  /\ Forall floored (implied_volatility_from_history prices window iv_premium)
  /\ ((1 <= window)%nat -> (window + 2 <= length prices)%nat ->
      Forall (fun p => 0 < p) prices ->
      Forall (fun o => exists v, o = Some v /\ 0.30 <= v)
        (implied_volatility_from_history prices window iv_premium))
  /\ ((length prices <= window + 1)%nat ->
      Forall (fun o => o = None)
        (implied_volatility_from_history prices window iv_premium)).
Proof.
  split; [apply implied_volatility_length |].
  split; [apply implied_volatility_floored |].
  split.
  - intros Hw Hlong Hpos.
    pose proof (implied_volatility_long_series prices window iv_premium Hw Hlong Hpos)
      as Hnum.
    pose proof (implied_volatility_floored prices window iv_premium) as Hfloor.
    rewrite Forall_forall in *. intros o Ho.
    specialize (Hnum o Ho). specialize (Hfloor o Ho).
    destruct o as [v |]; [| discriminate].
    exists v. split; [reflexivity | exact Hfloor].
  - intros Hshort. rewrite implied_volatility_short_series by exact Hshort.
    apply Forall_forall. intros o Ho. apply repeat_spec in Ho. exact Ho.
Qed.

Lemma implied_volatility_floor_and_backfill_witness :
  (1 <= 1)%nat /\ (1 + 2 <= length [2; 2; 2])%nat
  /\ Forall (fun p => 0 < p) [2; 2; 2]
  /\ Forall (fun o => exists v, o = Some v /\ 0.30 <= v)
       (implied_volatility_from_history [2; 2; 2] 1 1.3).
Proof.
  assert (Hpos : Forall (fun p => 0 < p) [2; 2; 2])
    by (repeat (apply Forall_cons; [lra |]); apply Forall_nil).
  split; [lia |]. split; [cbn; lia |]. split; [exact Hpos |].
  apply (implied_volatility_floor_and_backfill [2; 2; 2] 1 1.3); [lia | cbn; lia | exact Hpos].
Defined.

(** ** Cash, trade log and equity *)

Lemma sum_premium_app (l1 l2 : list TradeRecord) :
  sum_premium (l1 ++ l2) = sum_premium l1 + sum_premium l2.
Proof.
  unfold sum_premium. induction l1 as [| t l1 IH]; cbn; [lra |].
  rewrite IH. lra.
Qed.

Lemma assignment_proceeds_app (cfg : CoveredCallConfig) (l1 l2 : list TradeRecord) :
  assignment_proceeds cfg (l1 ++ l2)
  = assignment_proceeds cfg l1 + assignment_proceeds cfg l2.
Proof.
  unfold assignment_proceeds. induction l1 as [| t l1 IH]; cbn; [lra |].
  rewrite IH. lra.
Qed.

Lemma assignment_proceeds_none (cfg : CoveredCallConfig) (log : list TradeRecord) :
  Forall (fun t => action t <> CALLED_AWAY) log ->
  assignment_proceeds cfg log = 0.
Proof.
  unfold assignment_proceeds. induction 1 as [| t log Ht _ IH]; cbn; [reflexivity |].
  rewrite IH. destruct (action t); try contradiction; cbn; lra.
Qed.

(** The books of the loop: the strategy object keeps the configuration of
    the run, and the cash is the initial capital plus the amounts of the
    trade log plus the assignment proceeds. *)
Definition books_balance (cfg : CoveredCallConfig) (initial : R)
    (s : CoveredCallStrategy) (c : R) : Prop :=
  config s = cfg
  /\ c = initial + sum_premium (trades s) + assignment_proceeds cfg (trades s).

Lemma sell_call_books (cfg : CoveredCallConfig) (initial : R)
    (s : CoveredCallStrategy) (c : R) (d : date) (p iv : R) (dte : option Z)
    (t : TradeRecord) (s' : CoveredCallStrategy) :
  books_balance cfg initial s c ->
  sell_call s d p iv dte = Ok (t, s') ->
  books_balance cfg initial s' (c + premium t).
Proof.
  intros [Hcfg Hc] Hsell.
  destruct (sell_call_Ok _ _ _ _ _ _ _ Hsell)
    as (k & prem & _ & Ht & _ & Hcfg' & _ & Hlog & _).
  split; [congruence |].
  rewrite Hlog, sum_premium_app, assignment_proceeds_app.
  subst t. unfold sum_premium, assignment_proceeds in *. cbn. lra.
Qed.

Lemma buy_and_sell_first_call_books (cfg : CoveredCallConfig) (initial : R)
    (i : nat) (d : date) (p iv : R) (s : CoveredCallStrategy) (c : R)
    (s' : CoveredCallStrategy) (c' : R) :
  books_balance cfg initial s c ->
  buy_and_sell_first_call cfg i d p iv s c = Ok (s', c') ->
  books_balance cfg initial s' c'.
Proof.
  intros Hbooks. unfold buy_and_sell_first_call.
  destruct (_ && _); [| intros H; inversion H; subst; exact Hbooks].
  destruct (_ || _); [| intros H; inversion H; subst; exact Hbooks].
  assert (Hbought : books_balance cfg initial (snd (open_stock_position s d p))
                      (c - p * IZR (shares cfg))).
  { destruct Hbooks as [Hcfg Hc]. split; [exact Hcfg |].
    cbn [open_stock_position snd trades].
    rewrite sum_premium_app, assignment_proceeds_app.
    unfold sum_premium, assignment_proceeds in *. cbn. rewrite Hcfg. lra. }
  destruct (open_stock_position s d p) as [buy_trade bought]. cbn [snd] in Hbought.
  destruct (sell_call bought d p iv None) as [[sell_trade sold] | e] eqn:Esell;
    cbn; [| discriminate].
  intros H. inversion H; subst.
  eapply sell_call_books; [exact Hbought | exact Esell].
Qed.

Lemma expire_or_roll_books (cfg : CoveredCallConfig) (initial : R)
    (d : date) (p iv : R) (s : CoveredCallStrategy) (c : R)
    (s' : CoveredCallStrategy) (c' : R) :
  books_balance cfg initial s c ->
  expire_or_roll d p iv s c = Ok (s', c') ->
  books_balance cfg initial s' c'.
Proof.
  intros Hbooks. unfold expire_or_roll.
  destruct (is_some (position s)); [| intros H; inversion H; subst; exact Hbooks].
  unfold check_expiration.
  destruct (position s) as [pos |]; [| intros H; inversion H; subst; exact Hbooks].
  destruct (_ <? _)%Z; [intros H; inversion H; subst; exact Hbooks |].
  destruct Hbooks as [Hcfg Hc].
  destruct (Rgeb p (strike pos)); cbn.
  - intros H. inversion H; subst. split; [reflexivity |].
    cbn [trades config]. rewrite sum_premium_app, assignment_proceeds_app.
    unfold sum_premium, assignment_proceeds in *. cbn. lra.
  - match goal with
    | |- context [sell_call ?s0 d p iv None] =>
        assert (Hexpired : books_balance cfg initial s0 c);
        [| destruct (sell_call s0 d p iv None) as [[sell_trade sold] | e] eqn:Esell ]
    end.
    + split; [exact Hcfg |].
      cbn [trades config]. rewrite sum_premium_app, assignment_proceeds_app.
      unfold sum_premium, assignment_proceeds in *. cbn. lra.
    + cbn. intros H. inversion H; subst.
      eapply sell_call_books; [exact Hexpired | exact Esell].
    + discriminate.
Qed.

(** One day of the loop keeps the books and appends one snapshot, whose
    equity is cash plus stock value minus the mark-to-market liability. *)
Lemma day_books (cfg : CoveredCallConfig) (initial : R)
    (iv_series : list (option R)) (backtest_start : date) (i : nat)
    (row : date * R) (st st' : LoopState) :
  books_balance cfg initial (strategy st) (cash st) ->
  day cfg iv_series backtest_start i row st = Ok st' ->
  books_balance cfg initial (strategy st') (cash st')
  /\ exists final,
       equity_curve st' = equity_curve st ++ [final]
       /\ Equity final = cash st' + StockValue final - OptionLiability final
       /\ StockValue final = IZR (shares_held (strategy st')) * snd row
       /\ OptionLiability final
          = mark_to_market cfg (strategy st') (fst row) (snd row) (IV final)
       /\ IV final = match nth i iv_series None with Some v => v | None => 0.50 end.
Proof.
  intros Hbooks. unfold day.
  set (iv := match nth i iv_series None with Some v => v | None => 0.50 end).
  destruct (buy_and_sell_first_call cfg i (fst row) (snd row) iv (strategy st) (cash st))
    as [[entered cash1] | e] eqn:E1; cbn [bind]; [| discriminate].
  apply (buy_and_sell_first_call_books cfg initial) in E1; [| exact Hbooks].
  destruct (expire_or_roll (fst row) (snd row) iv entered cash1)
    as [[s2 cash2] | e] eqn:E2; cbn [bind]; [| discriminate].
  apply (expire_or_roll_books cfg initial) in E2; [| exact E1].
  destruct (i mod 5 =? 0)%nat.
  - destruct (check _ _ _ _) as [snapshot monitor].
    destruct (warning snapshot); intros H; inversion H; subst; cbn;
      (split; [exact E2 |]); eexists; (split; [reflexivity |]); cbn;
      repeat split; reflexivity.
  - intros H; inversion H; subst; cbn.
    split; [exact E2 |]. eexists. split; [reflexivity |]. cbn.
    repeat split; reflexivity.
Qed.

(** The conclusion of [day_books], for the last day of a loop: row
    [last_row], row number [i]. *)
Definition closes_on (cfg : CoveredCallConfig) (initial : R)
    (iv_series : list (option R)) (i : nat) (last_row : date * R)
    (st : LoopState) : Prop :=
  books_balance cfg initial (strategy st) (cash st)
  /\ exists earlier final,
       equity_curve st = earlier ++ [final]
       /\ Equity final = cash st + StockValue final - OptionLiability final
       /\ StockValue final = IZR (shares_held (strategy st)) * snd last_row
       /\ OptionLiability final
          = mark_to_market cfg (strategy st) (fst last_row) (snd last_row) (IV final)
       /\ IV final = match nth i iv_series None with Some v => v | None => 0.50 end.

Lemma day_loop_books (cfg : CoveredCallConfig) (initial : R)
    (iv_series : list (option R)) (backtest_start : date)
    (rows : list (date * R)) :
  forall i st st',
    books_balance cfg initial (strategy st) (cash st) ->
    day_loop cfg iv_series backtest_start rows i st = Ok st' ->
    books_balance cfg initial (strategy st') (cash st')
    /\ (rows <> [] ->
        closes_on cfg initial iv_series (i + length rows - 1) (last rows (0%Z, 0)) st').
Proof.
  induction rows as [| row rest IH]; intros i st st' Hbooks Hloop; cbn in Hloop.
  - inversion Hloop; subst. split; [exact Hbooks | intros H; contradiction].
  - destruct (day cfg iv_series backtest_start i row st) as [st1 | e] eqn:Eday;
      cbn in Hloop; [| discriminate].
    destruct (day_books _ _ _ _ _ _ _ _ Hbooks Eday) as (Hb & final & Hcurve & Hrest).
    destruct (IH _ _ _ Hb Hloop) as [Hb' Hcloses].
    split; [exact Hb' |]. intros _.
    destruct rest as [| row' rest'].
    + cbn in Hloop. inversion Hloop; subst.
      replace (i + length [row] - 1)%nat with i by (cbn; lia).
      split; [exact Hb |]. exists (equity_curve st), final.
      split; [exact Hcurve | exact Hrest].
    + change (last (row :: row' :: rest') (0%Z, 0)) with (last (row' :: rest') (0%Z, 0)).
      replace (i + length (row :: row' :: rest') - 1)%nat
        with (S i + length (row' :: rest') - 1)%nat by (cbn; lia).
      apply Hcloses. discriminate.
Qed.

(** The volatility the day loop prices with on row [i] of a run. *)
Definition iv_of_day (df : list (date * R)) (i : nat) : R :=
  match nth i (implied_volatility_from_history (map snd df) 20 1.3) None with
  | Some v => v
  | None => 0.50
  end.

Lemma iv_of_day_floor (df : list (date * R)) (i : nat) : 0.30 <= iv_of_day df i.
Proof.
  unfold iv_of_day.
  pose proof (implied_volatility_floored (map snd df) 20 1.3) as Hfloor.
  destruct (nth_in_or_default i (implied_volatility_from_history (map snd df) 20 1.3) None)
    as [Hin | ->]; [| lra].
  rewrite Forall_forall in Hfloor. specialize (Hfloor _ Hin).
  destruct (nth i _ None); [exact Hfloor | lra].
Qed.

(** The final equity of a run against its trade log: initial capital plus
    the amounts of the log plus the assignment proceeds, plus the ending
    stock value, minus the mark-to-market liability of the open call; the
    stock value is the shares held at the last close, the liability the
    model value of the open call on the last row. *)
Lemma run_reconciles (cfg : CoveredCallConfig) (prices : list (date * R))
    (start_date end_date : option date) (res : BacktestResult) :
  run cfg prices start_date end_date = Ok res ->
  let df := window_rows prices start_date end_date in
  let last_row := last df (0%Z, 0) in
  exists st earlier final,
    simulate cfg df = Ok st
    /\ res = metrics cfg df st
    /\ daily_equity res = earlier ++ [final]
    /\ Equity final
       = initial_investment_of cfg df + sum_premium (result_trades res)
         + assignment_proceeds cfg (result_trades res)
         + StockValue final - OptionLiability final
    /\ StockValue final = IZR (shares_held (strategy st)) * snd last_row
    /\ OptionLiability final
       = mark_to_market cfg (strategy st) (fst last_row) (snd last_row) (IV final)
    /\ IV final = iv_of_day df (length df - 1).
Proof.
  intros Hrun df last_row. unfold run in Hrun. fold df in Hrun.
  destruct (length df <? 30)%nat eqn:Hlen; [discriminate |].
  apply Nat.ltb_ge in Hlen.
  destruct (simulate cfg df) as [st | e] eqn:Hsim; cbn in Hrun; [| discriminate].
  inversion Hrun; subst res; clear Hrun.
  unfold simulate in Hsim.
  apply (day_loop_books cfg (initial_investment_of cfg df)) in Hsim.
  - destruct Hsim as [_ Hcloses].
    destruct Hcloses
      as ([_ Hcash] & earlier & final & Hcurve & Hequity & Hstock & Hliab & Hiv).
    { intros Hnil. rewrite Hnil in Hlen. cbn in Hlen. lia. }
    exists st, earlier, final. split; [reflexivity |]. split; [reflexivity |].
    cbn [daily_equity result_trades metrics].
    split; [exact Hcurve |]. split; [lra |]. split; [exact Hstock |].
    split; [exact Hliab | exact Hiv].
  - split; [reflexivity |]. cbn. unfold sum_premium, assignment_proceeds. cbn. lra.
Qed.

(** C5 (amended).  For every completed run in which no assignment
    occurred, the initial capital plus the sum of the cash-flow amounts of
    the trade log, plus the ending stock value and minus the mark-to-market
    liability of the call open at the end, equals the total equity of the
    final daily snapshot.  The ending stock value is the shares held times
    the last close; the liability is the model value, at the volatility of
    the last row, of the call still open with days left, times its
    contracts times 100, and 0 when no call is open. *)
Theorem equity_reconciles_without_assignment (cfg : CoveredCallConfig)
    (prices : list (date * R)) (start_date end_date : option date)
    (res : BacktestResult) :
  run cfg prices start_date end_date = Ok res ->
  Forall (fun t => action t <> CALLED_AWAY) (result_trades res) ->
  let df := window_rows prices start_date end_date in
  let last_row := last df (0%Z, 0) in
  exists st earlier final,
    simulate cfg df = Ok st
    /\ daily_equity res = earlier ++ [final]
    /\ Equity final
       = initial_investment_of cfg df + sum_premium (result_trades res)
         + StockValue final - OptionLiability final
    /\ StockValue final = IZR (shares_held (strategy st)) * snd last_row
    /\ OptionLiability final
       = mark_to_market cfg (strategy st) (fst last_row) (snd last_row)
           (iv_of_day df (length df - 1))
    /\ (position (strategy st) = None -> OptionLiability final = 0).
Proof.
  intros Hrun Hnone df last_row.
  destruct (run_reconciles _ _ _ _ _ Hrun)
    as (st & earlier & final & Hsim & _ & Hcurve & Hequity & Hstock & Hliab & Hiv).
  fold df in Hsim, Hequity, Hstock, Hliab, Hiv. fold last_row in Hstock, Hliab.
  exists st, earlier, final. split; [exact Hsim |]. split; [exact Hcurve |].
  rewrite (assignment_proceeds_none cfg _ Hnone) in Hequity.
  split; [lra |]. split; [exact Hstock |].
  rewrite Hiv in Hliab. split; [exact Hliab |].
  intros Hpos. rewrite Hliab. unfold mark_to_market. rewrite Hpos. reflexivity.
Qed.

(** *** Tracing a run: entry, idle days, assignment *)

(** The strategy holds the lot and the call sold on [entry_date], and its
    log holds the purchase and that sale. *)
Definition entered (cfg : CoveredCallConfig) (entry_date : date)
    (s : CoveredCallStrategy) : Prop :=
  exists pos buy sell,
    position s = Some pos
    /\ expiration pos = (entry_date + target_dte cfg)%Z
    /\ In (strike pos) (min_strike cfg :: strike_candidates cfg)
    /\ trades s = [buy; sell]
    /\ action buy = BUY_STOCK /\ action sell = SELL_CALL
    /\ config s = cfg /\ shares_held s = shares cfg
    /\ contracts pos = (shares cfg / 100)%Z.

Lemma buy_and_sell_first_call_enters (cfg : CoveredCallConfig) (d : date)
    (p iv c : R) :
  p <> 0 -> target_dte cfg <> 0%Z ->
  0 < min_strike cfg -> expiration_defined d (target_dte cfg) ->
  exists s c',
    buy_and_sell_first_call cfg 0 d p iv (new_strategy cfg) c = Ok (s, c')
    /\ entered cfg d s.
Proof.
  intros Hp Hdte Hmin Hexp. unfold buy_and_sell_first_call.
  cbn [new_strategy shares_held position times_called_away is_some negb
       Z.eqb andb Nat.eqb orb open_stock_position config trades].
  match goal with
  | |- context [sell_call ?s0 d p iv None] =>
      destruct (sell_call_total s0 d p iv None Hp Hdte Hmin Hexp) as (t & s & Hsell)
  end.
  rewrite Hsell. cbn [bind]. exists s. eexists. split; [reflexivity |].
  destruct (sell_call_Ok _ _ _ _ _ _ _ Hsell)
    as (k & prem & Hsel & Ht & Hpos & Hcfg & Hshares & Hlog & _).
  destruct (select_strike_Ok _ _ _ _ _ _ Hsel) as (score & Hloop & _).
  apply select_strike_loop_in in Hloop.
  eexists. eexists. exists t.
  split; [exact Hpos |]. cbn [expiration strike].
  split; [reflexivity |]. split; [destruct Hloop; [left; symmetry | right]; assumption |].
  split; [exact Hlog |]. split; [reflexivity |].
  split; [subst t; reflexivity |]. split; [exact Hcfg |]. split; [exact Hshares |].
  reflexivity.
Qed.

Lemma buy_and_sell_first_call_holding (cfg : CoveredCallConfig) (i : nat)
    (d : date) (p iv c : R) (s : CoveredCallStrategy) (pos : OptionPosition) :
  position s = Some pos ->
  buy_and_sell_first_call cfg i d p iv s c = Ok (s, c).
Proof.
  intros Hpos. unfold buy_and_sell_first_call. rewrite Hpos.
  cbn [is_some negb]. rewrite andb_false_r. reflexivity.
Qed.

Lemma expire_or_roll_idle (d : date) (p iv c : R) (s : CoveredCallStrategy)
    (pos : OptionPosition) :
  position s = Some pos -> (d < expiration pos)%Z ->
  expire_or_roll d p iv s c = Ok (s, c).
Proof.
  intros Hpos Hd. unfold expire_or_roll, check_expiration. rewrite Hpos.
  cbn [is_some]. rewrite (proj2 (Z.ltb_lt _ _) Hd). reflexivity.
Qed.

Lemma expire_or_roll_assigns (d : date) (p iv c : R) (s : CoveredCallStrategy)
    (pos : OptionPosition) :
  position s = Some pos -> (expiration pos <= d)%Z -> strike pos <= p ->
  exists s' c' t,
    expire_or_roll d p iv s c = Ok (s', c')
    /\ position s' = None /\ shares_held s' = 0%Z
    /\ trades s' = trades s ++ [t]
    /\ action t = CALLED_AWAY /\ trade_strike t = Some (strike pos)
    /\ premium t = 0.
Proof.
  intros Hpos Hd Hp. unfold expire_or_roll, check_expiration. rewrite Hpos.
  cbn [is_some]. rewrite (proj2 (Z.ltb_ge _ _) Hd).
  unfold Rgeb. rewrite (proj2 (Rleb_true_iff _ _) Hp).
  cbn. eexists. eexists. eexists. split; [reflexivity |]. cbn. repeat split.
Qed.

(** A day is its two blocks, then the cash-floor check and the snapshot,
    which leave the strategy alone. *)
Lemma day_of_blocks (cfg : CoveredCallConfig) (iv_series : list (option R))
    (backtest_start : date) (i : nat) (row : date * R) (st : LoopState)
    (s1 s2 : CoveredCallStrategy) (c1 c2 : R) :
  let iv := match nth i iv_series None with Some v => v | None => 0.50 end in
  buy_and_sell_first_call cfg i (fst row) (snd row) iv (strategy st) (cash st)
  = Ok (s1, c1) ->
  expire_or_roll (fst row) (snd row) iv s1 c1 = Ok (s2, c2) ->
  exists st',
    day cfg iv_series backtest_start i row st = Ok st' /\ strategy st' = s2.
Proof.
  intros iv H1 H2. unfold day. fold iv. rewrite H1. cbn [bind]. rewrite H2. cbn [bind].
  destruct (i mod 5 =? 0)%nat.
  - destruct (check _ _ _ _) as [snapshot monitor].
    destruct (warning snapshot); eexists; split; reflexivity.
  - eexists; split; reflexivity.
Qed.

Lemma day_idle (cfg : CoveredCallConfig) (iv_series : list (option R))
    (backtest_start : date) (i : nat) (row : date * R) (st : LoopState)
    (pos : OptionPosition) :
  position (strategy st) = Some pos -> (fst row < expiration pos)%Z ->
  exists st',
    day cfg iv_series backtest_start i row st = Ok st'
    /\ strategy st' = strategy st.
Proof.
  intros Hpos Hd. eapply day_of_blocks.
  - eapply buy_and_sell_first_call_holding. exact Hpos.
  - eapply expire_or_roll_idle; [exact Hpos | exact Hd].
Qed.

Lemma day_loop_idle (cfg : CoveredCallConfig) (iv_series : list (option R))
    (backtest_start : date) (pos : OptionPosition) (rows : list (date * R)) :
  Forall (fun row => (fst row < expiration pos)%Z) rows ->
  forall i st,
    position (strategy st) = Some pos ->
    exists st',
      day_loop cfg iv_series backtest_start rows i st = Ok st'
      /\ strategy st' = strategy st.
Proof.
  induction 1 as [| row rest Hrow _ IH]; intros i st Hpos; cbn.
  - exists st. split; reflexivity.
  - destruct (day_idle cfg iv_series backtest_start i row st pos Hpos Hrow)
      as (st1 & Hday & Hs1).
    rewrite Hday. cbn [bind].
    destruct (IH (S i) st1) as (st' & Hloop & Hs'); [congruence |].
    exists st'. split; [exact Hloop | congruence].
Qed.

Lemma day_loop_app (cfg : CoveredCallConfig) (iv_series : list (option R))
    (backtest_start : date) (rows1 rows2 : list (date * R)) :
  forall i st,
    day_loop cfg iv_series backtest_start (rows1 ++ rows2) i st
    = bind (day_loop cfg iv_series backtest_start rows1 i st)
        (fun st1 =>
           day_loop cfg iv_series backtest_start rows2 (i + length rows1) st1).
Proof.
  induction rows1 as [| row rest IH]; intros i st; cbn.
  - rewrite Nat.add_0_r. reflexivity.
  - destruct (day cfg iv_series backtest_start i row st) as [st1 | e]; cbn; [| reflexivity].
    rewrite IH. rewrite Nat.add_succ_comm. reflexivity.
Qed.

(** Entry on the first row, then rows that all come before the expiration
    of the call sold at entry. *)
Lemma day_loop_enters_and_holds (cfg : CoveredCallConfig)
    (iv_series : list (option R)) (backtest_start : date)
    (row : date * R) (rest : list (date * R)) (st : LoopState) :
  strategy st = new_strategy cfg ->
  snd row <> 0 -> (0 < target_dte cfg)%Z ->
  0 < min_strike cfg -> expiration_defined (fst row) (target_dte cfg) ->
  Forall (fun r => (fst r < fst row + target_dte cfg)%Z) rest ->
  exists st',
    day_loop cfg iv_series backtest_start (row :: rest) 0 st = Ok st'
    /\ entered cfg (fst row) (strategy st').
Proof.
  intros Hst Hp Hdte Hmin Hdated Hrest.
  set (iv := match nth 0 iv_series None with Some v => v | None => 0.50 end).
  destruct (buy_and_sell_first_call_enters cfg (fst row) (snd row) iv (cash st) Hp)
    as (s1 & c1 & Hblock1 & Hentered); [lia | exact Hmin | exact Hdated |].
  pose proof Hentered as (pos & buy & sell & Hpos & Hexp & _).
  rewrite <- Hst in Hblock1.
  destruct (day_of_blocks cfg iv_series backtest_start 0 row st s1 s1 c1 c1 Hblock1)
    as (st1 & Hday & Hs1).
  { eapply expire_or_roll_idle; [exact Hpos | lia]. }
  cbn [day_loop]. rewrite Hday. cbn [bind].
  destruct (day_loop_idle cfg iv_series backtest_start pos rest) with (i := 1%nat) (st := st1)
    as (st' & Hloop & Hs').
  - rewrite Hexp. exact Hrest.
  - congruence.
  - exists st'. split; [exact Hloop |]. rewrite Hs', Hs1. exact Hentered.
Qed.

(** *** Two runs of the default configuration *)

(** [count] consecutive days from day [first], all closing at [price]. *)
Definition flat_days (first count : nat) (price : R) : list (date * R) :=
  map (fun d => (Z.of_nat d, price)) (seq first count).

(** Thirty days at 2.00. *)
Definition flat_prices : list (date * R) := flat_days 0 30 2.

(** Thirty days at 2.40 from day 1. *)
Definition steady_prices : list (date * R) := flat_days 1 30 2.4.

(** Twenty-nine days at 2.40 from day 1, then a close at 6.00 on day 30,
    one day before the expiration of the call sold on day 1. *)
Definition rally_prices : list (date * R) := flat_days 1 29 2.4 ++ [(30%Z, 6)].

(** Thirty days at 2.40 from day 1, then a close at 6.00 on day 31, the
    expiration date of the call sold on day 1. *)
Definition assigned_prices : list (date * R) := flat_days 1 30 2.4 ++ [(31%Z, 6)].

(** Rows in strictly ascending date order. *)
Fixpoint ascending (rows : list (date * R)) : bool :=
  match rows with
  | [] => true
  | r :: rest =>
      match rest with
      | [] => true
      | r' :: _ => (fst r <? fst r')%Z && ascending rest
      end
  end.

Lemma sort_values_ascending (rows : list (date * R)) :
  ascending rows = true -> sort_values rows = rows.
Proof.
  induction rows as [| r rest IH]; [reflexivity |].
  intros Hasc. cbn [sort_values].
  destruct rest as [| r' rest']; [reflexivity |].
  change (ascending (r :: r' :: rest'))
    with ((fst r <? fst r')%Z && ascending (r' :: rest')) in Hasc.
  apply andb_true_iff in Hasc. destruct Hasc as [Hlt Hrest].
  rewrite (IH Hrest). cbn [insert_row]. rewrite Hlt. reflexivity.
Qed.

Lemma flat_days_before (first count : nat) (price : R) (d : date) :
  (Z.of_nat (first + count) <= d)%Z ->
  Forall (fun r => (fst r < d)%Z) (flat_days first count price).
Proof.
  intros Hd. unfold flat_days. apply Forall_map. apply Forall_forall.
  intros n Hn. apply in_seq in Hn. cbn. lia.
Qed.

Lemma simulate_enters_and_holds (cfg : CoveredCallConfig) (row : date * R)
    (rest : list (date * R)) :
  snd row <> 0 -> (0 < target_dte cfg)%Z ->
  0 < min_strike cfg -> expiration_defined (fst row) (target_dte cfg) ->
  Forall (fun r => (fst r < fst row + target_dte cfg)%Z) rest ->
  exists st,
    simulate cfg (row :: rest) = Ok st /\ entered cfg (fst row) (strategy st).
Proof.
  intros Hp Hdte Hmin Hexp Hrest. unfold simulate.
  apply day_loop_enters_and_holds;
    [reflexivity | exact Hp | exact Hdte | exact Hmin | exact Hexp | exact Hrest].
Qed.

(** The first run: entry on day 0, and the call still open at the end. *)
Lemma flat_run :
  exists res,
    run default_config flat_prices None None = Ok res
    /\ Forall (fun t => action t <> CALLED_AWAY) (result_trades res).
Proof.
  unfold run, window_rows.
  rewrite (sort_values_ascending flat_prices) by reflexivity.
  replace (length flat_prices <? 30)%nat with false by reflexivity.
  destruct (simulate_enters_and_holds default_config (0%Z, 2) (flat_days 1 29 2))
    as (st & Hsim & Hentered).
  - cbn. lra.
  - reflexivity.
  - cbn. lra.
  - unfold expiration_defined, date_in_range. cbn. lia.
  - apply flat_days_before. cbn. lia.
  - change (simulate default_config flat_prices = Ok st) in Hsim.
    rewrite Hsim. cbn [bind].
    eexists. split; [reflexivity |].
    cbn [result_trades metrics].
    destruct Hentered as (pos & buy & sell & _ & _ & _ & Hlog & Hbuy & Hsell & _).
    rewrite Hlog.
    repeat (apply Forall_cons; [congruence |]). apply Forall_nil.
Qed.

(** A run over rows already in date order, with no window. *)
Lemma run_on_ascending (cfg : CoveredCallConfig) (rows : list (date * R))
    (st : LoopState) :
  ascending rows = true -> (30 <= length rows)%nat ->
  simulate cfg rows = Ok st ->
  window_rows rows None None = rows
  /\ run cfg rows None None = Ok (metrics cfg rows st).
Proof.
  intros Hasc Hlen Hsim.
  assert (Hwindow : window_rows rows None None = rows)
    by (unfold window_rows; apply sort_values_ascending; exact Hasc).
  split; [exact Hwindow |].
  unfold run. rewrite Hwindow, (proj2 (Nat.ltb_ge _ _) Hlen), Hsim. reflexivity.
Qed.

(** The default configuration sells on any of the first thousand days. *)
Lemma default_expiration_defined (d : nat) :
  (1 <= d <= 1000)%nat ->
  expiration_defined (Z.of_nat d) (target_dte default_config).
Proof.
  intros Hd. unfold expiration_defined, date_in_range. cbn. lia.
Qed.

(** The run at 2.40: entry on day 1, and the call still open at the end. *)
Lemma steady_run :
  exists res,
    run default_config steady_prices None None = Ok res
    /\ Forall (fun t => action t <> CALLED_AWAY) (result_trades res).
Proof.
  destruct (simulate_enters_and_holds default_config (1%Z, 2.4) (flat_days 2 29 2.4))
    as (st & Hsim & Hentered).
  - cbn. lra.
  - reflexivity.
  - cbn. lra.
  - apply (default_expiration_defined 1). lia.
  - apply flat_days_before. cbn. lia.
  - change (simulate default_config steady_prices = Ok st) in Hsim.
    destruct (run_on_ascending default_config steady_prices st) as [_ Hrun];
      [reflexivity | cbn; lia | exact Hsim |].
    eexists. split; [exact Hrun |].
    cbn [result_trades metrics].
    destruct Hentered as (pos & buy & sell & _ & _ & _ & Hlog & Hbuy & Hsell & _).
    rewrite Hlog.
    repeat (apply Forall_cons; [congruence |]). apply Forall_nil.
Qed.

Lemma equity_reconciles_without_assignment_witness :
  exists res st earlier final,
    run default_config steady_prices None None = Ok res
    /\ Forall (fun t => action t <> CALLED_AWAY) (result_trades res)
    /\ simulate default_config (window_rows steady_prices None None) = Ok st
    /\ daily_equity res = earlier ++ [final]
    /\ Equity final
       = initial_investment_of default_config (window_rows steady_prices None None)
         + sum_premium (result_trades res)
         + StockValue final - OptionLiability final
    /\ StockValue final
       = IZR (shares_held (strategy st))
         * snd (last (window_rows steady_prices None None) (0%Z, 0)).
Proof.
  destruct steady_run as (res & Hrun & Hnone).
  destruct (equity_reconciles_without_assignment
              default_config steady_prices None None res Hrun Hnone)
    as (st & earlier & final & Hsim & Hcurve & Hequity & Hstock & _).
  exists res, st, earlier, final. repeat split; assumption.
Defined.

(** C5, as stated, fails on a run that ends with a call open.  On
    [rally_prices] the call sold on day 1 is still open on the last day,
    deep in the money; the log holds the purchase and that sale and no
    assignment; the ending stock value is 6000, and the final equity falls
    short of the initial capital plus the amounts of the trade log plus
    that stock value by the mark-to-market liability of the call, which is
    at least 500. *)
Lemma open_call_breaks_reconciliation :
  exists res earlier final buy sale,
    run default_config rally_prices None None = Ok res
    /\ result_trades res = [buy; sale]
    /\ action buy = BUY_STOCK /\ action sale = SELL_CALL
    /\ daily_equity res = earlier ++ [final]
    /\ StockValue final = 6000
    /\ 500 <= OptionLiability final
    /\ Equity final
       <> initial_investment_of default_config (window_rows rally_prices None None)
          + sum_premium (result_trades res)
          + StockValue final.
Proof.
  destruct (simulate_enters_and_holds default_config (1%Z, 2.4)
              (flat_days 2 28 2.4 ++ [(30%Z, 6)]))
    as (st & Hsim & pos & buy & sell & Hpos & Hexp & Hstrike & Hlog & Hbuy & Hsell
        & _ & Hshares & Hcontracts).
  { cbn. lra. }
  { reflexivity. }
  { cbn. lra. }
  { apply (default_expiration_defined 1). lia. }
  { apply Forall_app. split; [apply flat_days_before; cbn; lia |].
    constructor; [cbn; lia | constructor]. }
  change (simulate default_config rally_prices = Ok st) in Hsim.
  destruct (run_on_ascending default_config rally_prices st) as [Hwindow Hres];
    [reflexivity | cbn; lia | exact Hsim |].
  destruct (run_reconciles _ _ _ _ _ Hres)
    as (st' & earlier & final & Hsim' & _ & Hcurve & Hequity & Hstock & Hliab & Hiv).
  rewrite Hwindow in Hsim', Hequity, Hstock, Hliab, Hiv. rewrite Hsim in Hsim'.
  inversion Hsim'; subst st'; clear Hsim'.
  replace (last rally_prices (0%Z, 0)) with (30%Z, 6) in Hstock, Hliab by reflexivity.
  cbn [fst snd] in Hstock, Hliab.
  assert (Hnone : Forall (fun t => action t <> CALLED_AWAY) [buy; sell])
    by (repeat (apply Forall_cons; [congruence |]); apply Forall_nil).
  assert (Hk : 0 < strike pos <= 5).
  { cbn in Hstrike. repeat (destruct Hstrike as [<- | Hstrike]; [lra |]). contradiction. }
  assert (Hvalue : 1 / 2 <= black_scholes_call 6 (strike pos) (IZR 1 / 365) 0.045 (IV final)).
  { pose proof (iv_of_day_floor rally_prices (length rally_prices - 1)) as Hfloor.
    rewrite <- Hiv in Hfloor.
    pose proof (black_scholes_call_in_the_money 6 (strike pos) (IZR 1 / 365) 0.045
                  (IV final)) as H.
    specialize (H ltac:(lra) ltac:(lra) ltac:(lra) ltac:(lra) ltac:(lra)). lra. }
  assert (Hliability : 500 <= OptionLiability final).
  { rewrite Hliab. unfold mark_to_market. rewrite Hpos, Hexp, Hcontracts.
    cbn [fst target_dte shares default_config risk_free_rate].
    replace (1 + 30 - 30)%Z with 1%Z by reflexivity.
    replace (1 >? 0)%Z with true by reflexivity.
    replace (1000 / 100)%Z with 10%Z by reflexivity. lra. }
  exists (metrics default_config rally_prices st), earlier, final, buy, sell.
  split; [exact Hres |]. cbn [result_trades metrics]. rewrite Hlog.
  split; [reflexivity |]. split; [exact Hbuy |]. split; [exact Hsell |].
  split; [exact Hcurve |].
  assert (Hvalue6 : StockValue final = 6000).
  { rewrite Hstock, Hshares. cbn [shares default_config]. lra. }
  split; [exact Hvalue6 |]. split; [exact Hliability |].
  rewrite Hwindow, Hequity. cbn [result_trades metrics]. rewrite Hlog.
  rewrite (assignment_proceeds_none default_config _ Hnone). lra.
Qed.

(** The shares have been called away at the strike sold at entry, and the
    log holds the purchase, the sale and the assignment. *)
Definition assigned (cfg : CoveredCallConfig) (s : CoveredCallStrategy) : Prop :=
  position s = None
  /\ shares_held s = 0%Z
  /\ exists buy sell called k,
       trades s = [buy; sell; called]
       /\ action buy = BUY_STOCK /\ action sell = SELL_CALL
       /\ action called = CALLED_AWAY
       /\ trade_strike called = Some k
       /\ premium called = 0
       /\ In k (min_strike cfg :: strike_candidates cfg).

(** Entry on the first row, rows before the expiration, then a last row on
    or after it that closes at or above every strike of the configuration. *)
Lemma simulate_enters_holds_assigned (cfg : CoveredCallConfig) (row : date * R)
    (rest : list (date * R)) (last_row : date * R) :
  snd row <> 0 -> (0 < target_dte cfg)%Z ->
  0 < min_strike cfg -> expiration_defined (fst row) (target_dte cfg) ->
  Forall (fun r => (fst r < fst row + target_dte cfg)%Z) rest ->
  (fst row + target_dte cfg <= fst last_row)%Z ->
  Forall (fun k => k <= snd last_row) (min_strike cfg :: strike_candidates cfg) ->
  exists st,
    simulate cfg ((row :: rest) ++ [last_row]) = Ok st /\ assigned cfg (strategy st).
Proof.
  intros Hp Hdte Hmin Hdated Hrest Hlast Hstrikes. unfold simulate.
  set (iv_series := implied_volatility_from_history _ _ _).
  set (backtest_start := hd _ _).
  set (st0 := {| strategy := new_strategy cfg; cash_monitor := _; cash := _;
                 equity_curve := []; cash_warnings := [] |}).
  rewrite day_loop_app.
  destruct (day_loop_enters_and_holds cfg iv_series backtest_start row rest st0
              eq_refl Hp Hdte Hmin Hdated Hrest) as (st1 & Hloop & Hentered).
  rewrite Hloop. cbn [bind day_loop].
  destruct Hentered
    as (pos & buy & sell & Hpos & Hexp & Hstrike & Hlog & Hbuy & Hsell & _).
  set (i := (0 + length (row :: rest))%nat).
  set (iv := match nth i iv_series None with Some v => v | None => 0.50 end).
  destruct (expire_or_roll_assigns (fst last_row) (snd last_row) iv (cash st1)
              (strategy st1) pos Hpos)
    as (s' & c' & called & Hblock2 & Hnone & Hzero & Hlog' & Hcalled & Hcstrike & Hamount).
  { rewrite Hexp. exact Hlast. }
  { rewrite Forall_forall in Hstrikes. apply Hstrikes. exact Hstrike. }
  destruct (day_of_blocks cfg iv_series backtest_start i last_row st1
              (strategy st1) s' (cash st1) c') as (st & Hday & Hst).
  { eapply buy_and_sell_first_call_holding. exact Hpos. }
  { exact Hblock2. }
  rewrite Hday. cbn [bind]. exists st. split; [reflexivity |].
  rewrite Hst. split; [exact Hnone |]. split; [exact Hzero |].
  exists buy, sell, called, (strike pos).
  rewrite Hlog', Hlog. repeat split; assumption.
Qed.

(* ================================================================== *)
(** * Further properties of the engine and of the run *)

(** ** The rows of a run *)

Lemma insert_row_permutation (r : date * R) (rows : list (date * R)) :
  Permutation (insert_row r rows) (r :: rows).
Proof.
  induction rows as [| r' rest IH]; cbn; [reflexivity |].
  destruct (fst r <? fst r')%Z; [reflexivity |].
  rewrite IH. apply perm_swap.
Qed.

Lemma sort_values_permutation (rows : list (date * R)) :
  Permutation (sort_values rows) rows.
Proof.
  induction rows as [| r rest IH]; cbn; [reflexivity |].
  rewrite insert_row_permutation. constructor. exact IH.
Qed.

(** Dates do not decrease along the rows. *)
Definition by_date (rows : list (date * R)) : Prop :=
  StronglySorted (fun r r' => (fst r <= fst r')%Z) rows.

Lemma insert_row_by_date (r : date * R) (rows : list (date * R)) :
  by_date rows -> by_date (insert_row r rows).
Proof.
  unfold by_date. induction 1 as [| r' rest Hrest IH Hall]; cbn [insert_row].
  - constructor; constructor.
  - match goal with |- context [if ?b then _ else _] => destruct b eqn:E end.
    + apply Z.ltb_lt in E. constructor.
      * constructor; assumption.
      * constructor; [apply Z.lt_le_incl; exact E |].
        eapply Forall_impl; [| exact Hall]. cbn. intros r'' Hle.
        eapply Z.le_trans; [apply Z.lt_le_incl; exact E | exact Hle].
    + apply Z.ltb_ge in E. constructor; [exact IH |].
      rewrite insert_row_permutation. constructor; assumption.
Qed.

Lemma sort_values_by_date (rows : list (date * R)) : by_date (sort_values rows).
Proof.
  induction rows as [| r rest IH]; cbn; [constructor |].
  apply insert_row_by_date. exact IH.
Qed.

Lemma filter_by_date (f : date * R -> bool) (rows : list (date * R)) :
  by_date rows -> by_date (filter f rows).
Proof.
  unfold by_date. induction 1 as [| r rest Hrest IH Hall]; cbn; [constructor |].
  destruct (f r); [| exact IH].
  constructor; [exact IH |].
  apply Forall_forall. intros r' Hin. apply filter_In in Hin.
  rewrite Forall_forall in Hall. apply Hall. apply Hin.
Qed.

Lemma filter_permutation {A : Type} (f : A -> bool) (l l' : list A) :
  Permutation l l' -> Permutation (filter f l) (filter f l').
Proof.
  induction 1 as [| x l l' _ IH | x y l | l l' l'' _ IH1 _ IH2]; cbn.
  - constructor.
  - destruct (f x); [constructor |]; exact IH.
  - destruct (f x), (f y); try reflexivity. apply perm_swap.
  - etransitivity; eassumption.
Qed.

Lemma window_rows_shape (prices : list (date * R)) (start_date end_date : option date) :
  window_rows prices start_date end_date
  = filter (in_window start_date end_date) (sort_values prices).
Proof.
  unfold window_rows, in_window. destruct start_date as [s |], end_date as [e |].
  - rewrite filter_filter. apply filter_ext. intros row.
    rewrite Z.geb_leb. reflexivity.
  - apply filter_ext. intros row. rewrite Z.geb_leb, andb_true_r. reflexivity.
  - reflexivity.
  - generalize (sort_values prices). intros l.
    induction l as [| r l IH]; cbn; [reflexivity | f_equal; exact IH].
Qed.

(** The rows a run simulates are the rows of the input that lie inside the
    start/end window, each as often as the input has it, in ascending date
    order. *)
Theorem window_rows_sorted_selection (prices : list (date * R))
    (start_date end_date : option date) :
  by_date (window_rows prices start_date end_date)
  /\ Permutation (window_rows prices start_date end_date)
       (filter (in_window start_date end_date) prices).
Proof.
  rewrite window_rows_shape. split.
  - apply filter_by_date, sort_values_by_date.
  - apply filter_permutation, sort_values_permutation.
Qed.

(** ** One snapshot per row *)

Lemma day_snapshot (cfg : CoveredCallConfig) (iv_series : list (option R))
    (backtest_start : date) (i : nat) (row : date * R) (st st' : LoopState) :
  day cfg iv_series backtest_start i row st = Ok st' ->
  exists snapshot,
    equity_curve st' = equity_curve st ++ [snapshot]
    /\ Date snapshot = fst row
    /\ StockPrice snapshot = snd row
    /\ Cash snapshot = cash st'
    /\ IV snapshot = match nth i iv_series None with Some v => v | None => 0.50 end.
Proof.
  unfold day.
  destruct (buy_and_sell_first_call _ _ _ _ _ _ _) as [[s1 c1] | e]; cbn [bind];
    [| discriminate].
  destruct (expire_or_roll _ _ _ _ _) as [[s2 c2] | e]; cbn [bind]; [| discriminate].
  destruct (i mod 5 =? 0)%nat.
  - destruct (check _ _ _ _) as [snapshot monitor].
    destruct (warning snapshot); intros H; inversion H; subst; cbn;
      eexists; repeat split.
  - intros H; inversion H; subst; cbn. eexists; repeat split.
Qed.

Lemma day_loop_snapshots (cfg : CoveredCallConfig) (iv_series : list (option R))
    (backtest_start : date) (rows : list (date * R)) :
  forall i st st',
    day_loop cfg iv_series backtest_start rows i st = Ok st' ->
    map (fun e => (Date e, StockPrice e)) (equity_curve st')
    = map (fun e => (Date e, StockPrice e)) (equity_curve st) ++ rows.
Proof.
  induction rows as [| row rest IH]; intros i st st' Hloop; cbn in Hloop.
  - inversion Hloop; subst. rewrite app_nil_r. reflexivity.
  - destruct (day cfg iv_series backtest_start i row st) as [st1 | e] eqn:Eday;
      cbn in Hloop; [| discriminate].
    destruct (day_snapshot _ _ _ _ _ _ _ Eday) as (snapshot & Hcurve & Hd & Hp & _).
    rewrite (IH _ _ _ Hloop), Hcurve, map_app. cbn [map].
    rewrite Hd, Hp, <- app_assoc. destruct row; reflexivity.
Qed.

(** The equity series of a completed run has exactly one snapshot per row
    of the window, in the order of the rows, each carrying the date and the
    close of its row. *)
Theorem one_snapshot_per_row (cfg : CoveredCallConfig) (prices : list (date * R))
    (start_date end_date : option date) (res : BacktestResult) :
  run cfg prices start_date end_date = Ok res ->
  map (fun e => (Date e, StockPrice e)) (daily_equity res)
  = window_rows prices start_date end_date.
Proof.
  unfold run. destruct (_ <? 30)%nat; [discriminate |].
  destruct (simulate cfg _) as [st | e] eqn:Hsim; cbn [bind]; [| discriminate].
  intros H. inversion H; subst. cbn [daily_equity metrics].
  unfold simulate in Hsim. apply day_loop_snapshots in Hsim. exact Hsim.
Qed.

Lemma one_snapshot_per_row_witness :
  exists res,
    run default_config flat_prices None None = Ok res
    /\ length (daily_equity res) = 30%nat.
Proof.
  destruct flat_run as (res & Hrun & _).
  exists res. split; [exact Hrun |].
  pose proof (one_snapshot_per_row _ _ _ _ _ Hrun) as H.
  apply (f_equal (@length _)) in H. rewrite length_map in H. rewrite H.
  unfold window_rows. rewrite sort_values_ascending by reflexivity. reflexivity.
Defined.

(** ** Properties every engine operation keeps *)

Section EngineOperations.

Variable P : CoveredCallStrategy -> Prop.

Hypothesis P_open :
  forall s d p, P s -> P (snd (open_stock_position s d p)).
Hypothesis P_sell :
  forall s d p iv dte t s', P s -> sell_call s d p iv dte = Ok (t, s') -> P s'.
Hypothesis P_check :
  forall s d p, P s -> P (snd (check_expiration s d p)).
Hypothesis P_buy_back :
  forall s pos d p iv, P s -> P (snd (buy_back s pos d p iv)).

Lemma roll_position_keeps (s : CoveredCallStrategy) (d : date) (p iv : R)
    (ts : list TradeRecord) (s' : CoveredCallStrategy) :
  P s -> roll_position s d p iv = Ok (ts, s') -> P s'.
Proof.
  intros Hs. unfold roll_position.
  destruct (position s) as [pos |].
  - pose proof (P_buy_back s pos d p iv Hs) as Hb.
    destruct (buy_back s pos d p iv) as [t bought_back]. cbn [snd] in Hb.
    destruct (sell_call bought_back d p iv None) as [[sell sold] | e] eqn:E;
      cbn; [| discriminate].
    intros H. inversion H; subst. eapply P_sell; eassumption.
  - destruct (sell_call s d p iv None) as [[sell sold] | e] eqn:E;
      cbn; [| discriminate].
    intros H. inversion H; subst. eapply P_sell; eassumption.
Qed.

Lemma buy_and_sell_first_call_keeps (cfg : CoveredCallConfig) (i : nat) (d : date)
    (p iv : R) (s : CoveredCallStrategy) (c : R) (s' : CoveredCallStrategy) (c' : R) :
  P s -> buy_and_sell_first_call cfg i d p iv s c = Ok (s', c') -> P s'.
Proof.
  intros Hs. unfold buy_and_sell_first_call.
  destruct (_ && _); [| intros H; inversion H; subst; exact Hs].
  destruct (_ || _); [| intros H; inversion H; subst; exact Hs].
  pose proof (P_open s d p Hs) as Hb.
  destruct (open_stock_position s d p) as [t bought]. cbn [snd] in Hb.
  destruct (sell_call bought d p iv None) as [[sell sold] | e] eqn:E;
    cbn; [| discriminate].
  intros H. inversion H; subst. eapply P_sell; eassumption.
Qed.

Lemma expire_or_roll_keeps (d : date) (p iv : R) (s : CoveredCallStrategy) (c : R)
    (s' : CoveredCallStrategy) (c' : R) :
  P s -> expire_or_roll d p iv s c = Ok (s', c') -> P s'.
Proof.
  intros Hs. unfold expire_or_roll.
  destruct (is_some (position s)); [| intros H; inversion H; subst; exact Hs].
  pose proof (P_check s d p Hs) as Hc.
  destruct (check_expiration s d p) as [[exp_trade |] checked]; cbn [snd] in Hc;
    [| intros H; inversion H; subst; exact Hc].
  destruct (Action_eqb (action exp_trade) CALLED_AWAY);
    [destruct (trade_strike exp_trade); [| discriminate] |]; cbn [bind];
    (destruct (Action_eqb (action exp_trade) EXPIRE);
     [ destruct (sell_call checked d p iv None) as [[sell sold] | e] eqn:E;
       cbn; [| discriminate];
       intros H; inversion H; subst; eapply P_sell; eassumption
     | intros H; inversion H; subst; exact Hc ]).
Qed.

Lemma day_keeps (cfg : CoveredCallConfig) (iv_series : list (option R))
    (backtest_start : date) (i : nat) (row : date * R) (st st' : LoopState) :
  P (strategy st) ->
  day cfg iv_series backtest_start i row st = Ok st' ->
  P (strategy st').
Proof.
  intros Hs. unfold day.
  destruct (buy_and_sell_first_call _ _ _ _ _ _ _) as [[s1 c1] | e] eqn:E1;
    cbn [bind]; [| discriminate].
  apply buy_and_sell_first_call_keeps in E1; [| exact Hs].
  destruct (expire_or_roll _ _ _ _ _) as [[s2 c2] | e] eqn:E2;
    cbn [bind]; [| discriminate].
  apply expire_or_roll_keeps in E2; [| exact E1].
  destruct (i mod 5 =? 0)%nat.
  - destruct (check _ _ _ _) as [snapshot monitor].
    destruct (warning snapshot); intros H; inversion H; subst; exact E2.
  - intros H; inversion H; subst; exact E2.
Qed.

Lemma day_loop_keeps (cfg : CoveredCallConfig) (iv_series : list (option R))
    (backtest_start : date) (rows : list (date * R)) :
  forall i st st',
    P (strategy st) ->
    day_loop cfg iv_series backtest_start rows i st = Ok st' ->
    P (strategy st').
Proof.
  induction rows as [| row rest IH]; intros i st st' Hs Hloop; cbn in Hloop.
  - inversion Hloop; subst. exact Hs.
  - destruct (day cfg iv_series backtest_start i row st) as [st1 | e] eqn:Eday;
      cbn in Hloop; [| discriminate].
    eapply IH; [| exact Hloop]. eapply day_keeps; eassumption.
Qed.

Lemma run_keeps (cfg : CoveredCallConfig) (prices : list (date * R))
    (start_date end_date : option date) (res : BacktestResult) :
  P (new_strategy cfg) ->
  run cfg prices start_date end_date = Ok res ->
  exists st,
    simulate cfg (window_rows prices start_date end_date) = Ok st
    /\ res = metrics cfg (window_rows prices start_date end_date) st
    /\ P (strategy st).
Proof.
  intros H0. unfold run. destruct (_ <? 30)%nat; [discriminate |].
  destruct (simulate cfg _) as [st | e] eqn:Hsim; cbn [bind]; [| discriminate].
  intros H. inversion H; subst. exists st. split; [reflexivity |]. split; [reflexivity |].
  unfold simulate in Hsim. eapply day_loop_keeps; [| exact Hsim]. exact H0.
Qed.

End EngineOperations.

(** ** Running totals against the trade log *)

(** Sum of the amounts of the SELL_CALL entries of a log. *)
Definition sell_premiums (log : list TradeRecord) : R :=
  sum_premium (filter (fun t => Action_eqb (action t) SELL_CALL) log).

(** Number of CALLED_AWAY entries of a log. *)
Definition assignments (log : list TradeRecord) : nat :=
  length (filter (fun t => Action_eqb (action t) CALLED_AWAY) log).

Definition totals_match_log (s : CoveredCallStrategy) : Prop :=
  total_premium_collected s = sell_premiums (trades s)
  /\ times_called_away s = Z.of_nat (assignments (trades s)).

Lemma totals_match_log_append (s s' : CoveredCallStrategy) (t : TradeRecord) :
  totals_match_log s ->
  trades s' = trades s ++ [t] ->
  total_premium_collected s'
  = total_premium_collected s
    + (if Action_eqb (action t) SELL_CALL then premium t else 0) ->
  times_called_away s'
  = (times_called_away s
     + if Action_eqb (action t) CALLED_AWAY then 1 else 0)%Z ->
  totals_match_log s'.
Proof.
  intros [Hp Hc] Hlog Hp' Hc'. unfold totals_match_log, sell_premiums, assignments.
  rewrite Hlog, !filter_app, sum_premium_app, length_app, Hp', Hc', Hp, Hc.
  cbn [filter]. unfold sell_premiums, assignments.
  split.
  - destruct (Action_eqb (action t) SELL_CALL); unfold sum_premium; cbn; lra.
  - destruct (Action_eqb (action t) CALLED_AWAY); cbn [length]; lia.
Qed.

Lemma open_stock_position_totals (s : CoveredCallStrategy) (d : date) (p : R) :
  totals_match_log s -> totals_match_log (snd (open_stock_position s d p)).
Proof.
  intros Hs. eapply totals_match_log_append; [exact Hs | reflexivity | |]; cbn.
  - lra.
  - lia.
Qed.

Lemma sell_call_totals (s : CoveredCallStrategy) (d : date) (p iv : R)
    (dte : option Z) (t : TradeRecord) (s' : CoveredCallStrategy) :
  totals_match_log s -> sell_call s d p iv dte = Ok (t, s') -> totals_match_log s'.
Proof.
  intros Hs Hsell.
  destruct (sell_call_Ok _ _ _ _ _ _ _ Hsell)
    as (k & prem & _ & Ht & _ & _ & _ & Hlog & Hcount).
  unfold sell_call, date_plus_days in Hsell.
  destruct (select_strike _ _ _ _) as [[k' prem'] | e]; cbn [bind] in Hsell;
    [| discriminate].
  destruct (_ && _); cbn [bind] in Hsell; [| discriminate].
  inversion Hsell; subst t s'; clear Hsell.
  eapply totals_match_log_append; [exact Hs | reflexivity | |]; cbn.
  - reflexivity.
  - lia.
Qed.

Lemma check_expiration_totals (s : CoveredCallStrategy) (d : date) (p : R) :
  totals_match_log s -> totals_match_log (snd (check_expiration s d p)).
Proof.
  intros Hs. unfold check_expiration.
  destruct (position s) as [pos |]; [| exact Hs].
  destruct (_ <? _)%Z; [exact Hs |].
  destruct (Rgeb _ _); cbn [snd];
    (eapply totals_match_log_append; [exact Hs | reflexivity | |]; cbn; [lra | lia]).
Qed.

Lemma buy_back_totals (s : CoveredCallStrategy) (pos : OptionPosition) (d : date)
    (p iv : R) :
  totals_match_log s -> totals_match_log (snd (buy_back s pos d p iv)).
Proof.
  intros Hs. eapply totals_match_log_append; [exact Hs | reflexivity | |]; cbn.
  - lra.
  - lia.
Qed.

Lemma run_totals (cfg : CoveredCallConfig) (prices : list (date * R))
    (start_date end_date : option date) (res : BacktestResult) :
  run cfg prices start_date end_date = Ok res ->
  result_total_premium_collected res = sell_premiums (result_trades res)
  /\ result_times_called_away res = Z.of_nat (assignments (result_trades res)).
Proof.
  intros Hrun.
  destruct (run_keeps totals_match_log open_stock_position_totals sell_call_totals
              check_expiration_totals cfg prices start_date end_date
              res) as (st & _ & -> & Hst).
  - split; cbn; [unfold sell_premiums, sum_premium; cbn; reflexivity | reflexivity].
  - exact Hrun.
  - exact Hst.
Qed.

(** The total premium a completed run reports is the sum of the amounts of
    the SELL_CALL entries of its trade log (commissions already deducted,
    buybacks not), so [net_premium] deducts the commissions a second
    time. *)
Theorem premium_total_is_sum_of_sales (cfg : CoveredCallConfig)
    (prices : list (date * R)) (start_date end_date : option date)
    (res : BacktestResult) :
  run cfg prices start_date end_date = Ok res ->
  result_total_premium_collected res = sell_premiums (result_trades res)
  /\ net_premium res
     = sell_premiums (result_trades res) - result_total_commissions res.
Proof.
  intros Hrun. destruct (run_totals _ _ _ _ _ Hrun) as [Hp _].
  split; [exact Hp |].
  unfold run in Hrun. destruct (_ <? 30)%nat; [discriminate |].
  destruct (simulate cfg _) as [st | e]; cbn [bind] in Hrun; [| discriminate].
  inversion Hrun; subst. cbn in *. rewrite Hp. reflexivity.
Qed.

Lemma premium_total_is_sum_of_sales_witness :
  exists res,
    run default_config flat_prices None None = Ok res
    /\ result_total_premium_collected res = sell_premiums (result_trades res).
Proof.
  destruct flat_run as (res & Hrun & _). exists res. split; [exact Hrun |].
  apply (premium_total_is_sum_of_sales _ _ _ _ _ Hrun).
Defined.

(** The assignment count a completed run reports is the number of
    CALLED_AWAY entries of its trade log, and the trade count is the length
    of the log. *)
Theorem assignment_count_is_log_count (cfg : CoveredCallConfig)
    (prices : list (date * R)) (start_date end_date : option date)
    (res : BacktestResult) :
  run cfg prices start_date end_date = Ok res ->
  result_times_called_away res = Z.of_nat (assignments (result_trades res))
  /\ num_trades res = length (result_trades res).
Proof.
  intros Hrun. destruct (run_totals _ _ _ _ _ Hrun) as [_ Hc].
  split; [exact Hc |].
  unfold run in Hrun. destruct (_ <? 30)%nat; [discriminate |].
  destruct (simulate cfg _) as [st | e]; cbn [bind] in Hrun; [| discriminate].
  inversion Hrun; subst. reflexivity.
Qed.

Lemma assignments_none (log : list TradeRecord) :
  Forall (fun t => action t <> CALLED_AWAY) log -> assignments log = 0%nat.
Proof.
  unfold assignments. induction 1 as [| t log Ht _ IH]; [reflexivity |].
  cbn. destruct (action t); try contradiction; cbn; exact IH.
Qed.

Lemma assignment_count_is_log_count_witness :
  exists res,
    run default_config flat_prices None None = Ok res
    /\ result_times_called_away res = 0%Z.
Proof.
  destruct flat_run as (res & Hrun & Hnone). exists res. split; [exact Hrun |].
  destruct (assignment_count_is_log_count _ _ _ _ _ Hrun) as [Hc _].
  rewrite Hc, (assignments_none _ Hnone). reflexivity.
Defined.

(** ** Shares are covered at the end of every day *)

(** No shares, or a call open over them. *)
Definition covered (s : CoveredCallStrategy) : Prop :=
  shares_held s = 0%Z \/ position s <> None.

Lemma sell_call_covered (s : CoveredCallStrategy) (d : date) (p iv : R)
    (dte : option Z) (t : TradeRecord) (s' : CoveredCallStrategy) :
  sell_call s d p iv dte = Ok (t, s') -> covered s'.
Proof.
  intros Hsell.
  destruct (sell_call_Ok _ _ _ _ _ _ _ Hsell) as (k & prem & _ & _ & Hpos & _).
  right. rewrite Hpos. discriminate.
Qed.

Lemma day_covered (cfg : CoveredCallConfig) (iv_series : list (option R))
    (backtest_start : date) (i : nat) (row : date * R) (st st' : LoopState) :
  covered (strategy st) ->
  day cfg iv_series backtest_start i row st = Ok st' ->
  covered (strategy st').
Proof.
  intros Hst. unfold day.
  set (iv := match nth i iv_series None with Some v => v | None => 0.50 end).
  destruct (buy_and_sell_first_call cfg i (fst row) (snd row) iv (strategy st) (cash st))
    as [[s1 c1] | e] eqn:E1; cbn [bind]; [| discriminate].
  assert (H1 : covered s1).
  { revert E1. unfold buy_and_sell_first_call.
    destruct (_ && _); [| intros H; inversion H; subst; exact Hst].
    destruct (_ || _); [| intros H; inversion H; subst; exact Hst].
    cbn [open_stock_position].
    destruct (sell_call _ _ _ _ _) as [[t sold] | e] eqn:Esell; cbn; [| discriminate].
    intros H. inversion H; subst. eapply sell_call_covered. exact Esell. }
  destruct (expire_or_roll (fst row) (snd row) iv s1 c1) as [[s2 c2] | e] eqn:E2;
    cbn [bind]; [| discriminate].
  assert (H2 : covered s2).
  { revert E2. unfold expire_or_roll.
    destruct (is_some (position s1)); [| intros H; inversion H; subst; exact H1].
    unfold check_expiration.
    destruct (position s1) as [pos |]; [| intros H; inversion H; subst; exact H1].
    destruct (_ <? _)%Z; [intros H; inversion H; subst; exact H1 |].
    destruct (Rgeb _ _); cbn.
    - intros H. inversion H; subst. left. reflexivity.
    - destruct (sell_call _ _ _ _ _) as [[t sold] | e] eqn:Esell; cbn; [| discriminate].
      intros H. inversion H; subst. eapply sell_call_covered. exact Esell. }
  destruct (i mod 5 =? 0)%nat.
  - destruct (check _ _ _ _) as [snapshot monitor].
    destruct (warning snapshot); intros H; inversion H; subst; exact H2.
  - intros H; inversion H; subst; exact H2.
Qed.

(** Whatever the configuration and the prices, the day loop ends every day
    with the shares covered: either it holds no shares or a call is open.
    Shares are uncovered only inside a day, between the purchase or an
    expiration and the sale that follows. *)
Theorem shares_covered_at_day_end (cfg : CoveredCallConfig)
    (iv_series : list (option R)) (backtest_start : date)
    (rows : list (date * R)) :
  forall i st st',
    covered (strategy st) ->
    day_loop cfg iv_series backtest_start rows i st = Ok st' ->
    covered (strategy st').
Proof.
  induction rows as [| row rest IH]; intros i st st' Hst Hloop; cbn in Hloop.
  - inversion Hloop; subst. exact Hst.
  - destruct (day cfg iv_series backtest_start i row st) as [st1 | e] eqn:Eday;
      cbn in Hloop; [| discriminate].
    eapply IH; [| exact Hloop]. eapply day_covered; eassumption.
Qed.

Lemma shares_covered_at_day_end_witness :
  exists st,
    simulate default_config flat_prices = Ok st /\ covered (strategy st).
Proof.
  destruct (simulate_enters_and_holds default_config (0%Z, 2) (flat_days 1 29 2))
    as (st & Hsim & _).
  - cbn. lra.
  - reflexivity.
  - cbn. lra.
  - unfold expiration_defined, date_in_range. cbn. lia.
  - apply flat_days_before. cbn. lia.
  - exists st. split; [exact Hsim |].
    unfold simulate in Hsim.
    eapply shares_covered_at_day_end; [| exact Hsim].
    left. reflexivity.
Defined.

(** ** A run completes *)

Lemma check_expiration_trade_strike (s : CoveredCallStrategy) (d : date) (p : R)
    (t : TradeRecord) :
  fst (check_expiration s d p) = Some t ->
  exists k, trade_strike t = Some k.
Proof.
  unfold check_expiration. destruct (position s) as [pos |]; [| discriminate].
  destruct (_ <? _)%Z; [discriminate |].
  destruct (Rgeb _ _); intros H; inversion H; subst; eexists; reflexivity.
Qed.

(** A sale on [current_date] can be priced and dated: the minimum strike
    is positive, so every strike priced is, and the date and the expiration
    the configured days later are dates. *)
Definition can_sell (cfg : CoveredCallConfig) (current_date : date) : Prop :=
  0 < min_strike cfg
  /\ date_in_range current_date
  /\ date_in_range (current_date + target_dte cfg).

Lemma can_sell_expiration_defined (cfg : CoveredCallConfig) (d : date) :
  can_sell cfg d -> expiration_defined d (target_dte cfg).
Proof.
  unfold can_sell, expiration_defined, date_in_range. intros (_ & Hd & Hexp).
  split; [lia | exact Hexp].
Qed.

Lemma day_total (cfg : CoveredCallConfig) (iv_series : list (option R))
    (backtest_start : date) (i : nat) (row : date * R) (st : LoopState) :
  config (strategy st) = cfg -> snd row <> 0 -> target_dte cfg <> 0%Z ->
  can_sell cfg (fst row) ->
  exists st', day cfg iv_series backtest_start i row st = Ok st'.
Proof.
  intros Hcfg Hp Hdte Hcan.
  pose proof (can_sell_expiration_defined cfg (fst row) Hcan) as Hexp.
  destruct Hcan as (Hmin & _).
  set (iv := match nth i iv_series None with Some v => v | None => 0.50 end).
  assert (Hsale : forall s, config s = cfg ->
            exists t sold, sell_call s (fst row) (snd row) iv None = Ok (t, sold)).
  { intros s Hs. apply sell_call_total; cbn; try rewrite Hs; assumption. }
  assert (H1 : exists s1 c1,
             buy_and_sell_first_call cfg i (fst row) (snd row) iv (strategy st) (cash st)
             = Ok (s1, c1) /\ config s1 = cfg).
  { unfold buy_and_sell_first_call.
    destruct (_ && _); [| eexists; eexists; split; [reflexivity | exact Hcfg]].
    destruct (_ || _); [| eexists; eexists; split; [reflexivity | exact Hcfg]].
    cbn [open_stock_position].
    match goal with
    | |- context [sell_call ?s0 _ _ iv None] =>
        destruct (Hsale s0 Hcfg) as (t & sold & Hsell)
    end.
    rewrite Hsell. cbn. eexists. eexists. split; [reflexivity |].
    destruct (sell_call_Ok _ _ _ _ _ _ _ Hsell) as (_ & _ & _ & _ & _ & Hc & _).
    rewrite Hc. exact Hcfg. }
  destruct H1 as (s1 & c1 & E1 & Hcfg1).
  assert (H2 : exists s2 c2, expire_or_roll (fst row) (snd row) iv s1 c1 = Ok (s2, c2)).
  { unfold expire_or_roll.
    destruct (is_some (position s1)); [| eexists; eexists; reflexivity].
    pose proof (check_expiration_trade_strike s1 (fst row) (snd row)) as Hk.
    assert (Hc : config (snd (check_expiration s1 (fst row) (snd row))) = cfg).
    { unfold check_expiration. destruct (position s1); [| exact Hcfg1].
      destruct (_ <? _)%Z; [exact Hcfg1 |]. destruct (Rgeb _ _); exact Hcfg1. }
    destruct (check_expiration s1 (fst row) (snd row)) as [[exp_trade |] checked];
      cbn [fst snd] in *; [| eexists; eexists; reflexivity].
    destruct (Hk exp_trade eq_refl) as (k & ->).
    destruct (Action_eqb (action exp_trade) CALLED_AWAY); cbn [bind];
      (destruct (Action_eqb (action exp_trade) EXPIRE);
       [| eexists; eexists; reflexivity]);
      (destruct (Hsale checked Hc) as (t & sold & Hsell));
      rewrite Hsell; cbn; eexists; eexists; reflexivity. }
  destruct H2 as (s2 & c2 & E2).
  destruct (day_of_blocks cfg iv_series backtest_start i row st s1 s2 c1 c2 E1 E2)
    as (st' & Hday & _).
  exists st'. exact Hday.
Qed.

Lemma day_keeps_config (cfg : CoveredCallConfig) (iv_series : list (option R))
    (backtest_start : date) (i : nat) (row : date * R) (st st' : LoopState) :
  config (strategy st) = cfg ->
  day cfg iv_series backtest_start i row st = Ok st' ->
  config (strategy st') = cfg.
Proof.
  apply (day_keeps (fun s => config s = cfg)).
  - intros s d p H. exact H.
  - intros s d p iv dte t s' H Hsell.
    destruct (sell_call_Ok _ _ _ _ _ _ _ Hsell) as (_ & _ & _ & _ & _ & Hc & _).
    congruence.
  - intros s d p H. unfold check_expiration. destruct (position s); [| exact H].
    destruct (_ <? _)%Z; [exact H |]. destruct (Rgeb _ _); exact H.
Qed.

Lemma day_loop_total (cfg : CoveredCallConfig) (iv_series : list (option R))
    (backtest_start : date) (rows : list (date * R)) :
  Forall (fun row => snd row <> 0) rows -> target_dte cfg <> 0%Z ->
  Forall (fun row => can_sell cfg (fst row)) rows ->
  forall i st,
    config (strategy st) = cfg ->
    exists st', day_loop cfg iv_series backtest_start rows i st = Ok st'.
Proof.
  intros Hrows Hdte Hcan.
  induction rows as [| row rest IH]; intros i st Hcfg; cbn.
  - exists st. reflexivity.
  - destruct (day_total cfg iv_series backtest_start i row st Hcfg
                (Forall_inv Hrows) Hdte (Forall_inv Hcan)) as (st1 & Hday).
    rewrite Hday. cbn [bind].
    apply (IH (Forall_inv_tail Hrows) (Forall_inv_tail Hcan)).
    eapply day_keeps_config; eassumption.
Qed.

(** The rows of the window are rows of the input. *)
Lemma window_rows_Forall (P : date * R -> Prop) (prices : list (date * R))
    (start_date end_date : option date) :
  Forall P prices -> Forall P (window_rows prices start_date end_date).
Proof.
  intros Hprices. rewrite window_rows_shape. apply Forall_forall. intros row Hin.
  apply filter_In in Hin. destruct Hin as [Hin _].
  rewrite Forall_forall in Hprices. apply Hprices.
  eapply Permutation_in; [apply sort_values_permutation | exact Hin].
Qed.

(** A run returns a result, raising nothing, whenever at least 30 rows lie
    inside the window, no close is zero, the configured days to expiry are
    not zero, the minimum strike is positive and every date of the input,
    and the expiration of a call sold on it, is in the range of dates. *)
Theorem run_completes (cfg : CoveredCallConfig) (prices : list (date * R))
    (start_date end_date : option date) :
  (30 <= length (filter (in_window start_date end_date) prices))%nat ->
  Forall (fun row => snd row <> 0) prices ->
  target_dte cfg <> 0%Z ->
  Forall (fun row => can_sell cfg (fst row)) prices ->
  exists res, run cfg prices start_date end_date = Ok res.
Proof.
  intros Hlen Hprices Hdte Hcan. unfold run.
  rewrite <- window_rows_length in Hlen.
  rewrite (proj2 (Nat.ltb_ge _ _) Hlen).
  apply (window_rows_Forall _ _ start_date end_date) in Hprices, Hcan.
  unfold simulate.
  match goal with
  | |- context [day_loop cfg ?ivs ?start ?rows 0 ?st0] =>
      destruct (day_loop_total cfg ivs start rows Hprices Hdte Hcan 0%nat st0 eq_refl)
        as (st & Hloop)
  end.
  rewrite Hloop. cbn [bind]. eexists. reflexivity.
Qed.

Lemma flat_days_can_sell (first count : nat) (price : R) :
  (1 <= first)%nat -> (first + count <= 1000)%nat ->
  Forall (fun row => can_sell default_config (fst row)) (flat_days first count price).
Proof.
  intros Hfirst Hlast. unfold flat_days. apply Forall_map. apply Forall_forall.
  intros n Hn. apply in_seq in Hn. unfold can_sell, date_in_range. cbn.
  split; [lra |]. lia.
Qed.

Lemma run_completes_witness :
  exists res, run default_config (flat_days 1 30 2) None None = Ok res.
Proof.
  apply run_completes.
  - cbn. lia.
  - unfold flat_days. apply Forall_map. apply Forall_forall.
    intros n _. cbn. lra.
  - cbn. lia.
  - apply flat_days_can_sell; lia.
Defined.

(** ** The cash-floor overlay *)

(** What the trading side of the loop state is made of. *)
Definition trading_view (st : LoopState)
    : CoveredCallStrategy * R * list DailyEquity :=
  (strategy st, cash st, equity_curve st).

Definition result_map {A B : Type} (f : A -> B) (r : result A) : result B :=
  match r with
  | Ok a => Ok (f a)
  | Raise e => Raise e
  end.

Lemma day_trading_view (cfg : CoveredCallConfig) (iv_series : list (option R))
    (start1 start2 : date) (i : nat) (row : date * R) (st1 st2 : LoopState) :
  trading_view st1 = trading_view st2 ->
  result_map trading_view (day cfg iv_series start1 i row st1)
  = result_map trading_view (day cfg iv_series start2 i row st2).
Proof.
  unfold trading_view. intros H. inversion H as [[Hs Hc He]]. unfold day.
  rewrite Hs, Hc, He.
  destruct (buy_and_sell_first_call _ _ _ _ _ _ _) as [[s1 c1] | e]; cbn [bind];
    [| reflexivity].
  destruct (expire_or_roll _ _ _ _ _) as [[s2 c2] | e]; cbn [bind]; [| reflexivity].
  destruct (i mod 5 =? 0)%nat; [| reflexivity].
  destruct (check (cash_monitor st1) _ _ _) as [snap1 mon1].
  destruct (check (cash_monitor st2) _ _ _) as [snap2 mon2].
  destruct (warning snap1), (warning snap2); reflexivity.
Qed.

(** The cash-floor monitor is advisory: the strategy, the cash and the
    equity curve the loop produces, and whether it raises, do not depend on
    the state of the monitor, on the warnings collected so far or on the
    start date the monitor measures from. *)
Theorem cash_floor_is_advisory (cfg : CoveredCallConfig)
    (iv_series : list (option R)) (start1 start2 : date)
    (rows : list (date * R)) :
  forall i st1 st2,
    trading_view st1 = trading_view st2 ->
    result_map trading_view (day_loop cfg iv_series start1 rows i st1)
    = result_map trading_view (day_loop cfg iv_series start2 rows i st2).
Proof.
  induction rows as [| row rest IH]; intros i st1 st2 Hview; cbn.
  - rewrite Hview. reflexivity.
  - pose proof (day_trading_view cfg iv_series start1 start2 i row st1 st2 Hview) as Hday.
    destruct (day cfg iv_series start1 i row st1) as [st1' | e1];
      destruct (day cfg iv_series start2 i row st2) as [st2' | e2];
      cbn in Hday; try discriminate; cbn [bind].
    + apply IH. congruence.
    + inversion Hday. reflexivity.
Qed.

Lemma cash_floor_is_advisory_witness :
  let st1 := {| strategy := new_strategy default_config;
                cash_monitor := new_monitor 1.50 0.10;
                cash := 2000; equity_curve := []; cash_warnings := [] |} in
  let st2 := {| strategy := new_strategy default_config;
                cash_monitor := new_monitor 0 5;
                cash := 2000; equity_curve := [];
                cash_warnings := [(0%Z, Critical)] |} in
  trading_view st1 = trading_view st2
  /\ result_map trading_view (day_loop default_config [] 0 [(0%Z, 2)] 0 st1)
     = result_map trading_view (day_loop default_config [] 7 [(0%Z, 2)] 0 st2).
Proof.
  split; [reflexivity |].
  apply cash_floor_is_advisory. reflexivity.
Defined.

Lemma estimate_cash_nonneg (m : CashFloorMonitor) (start current : date) :
  0 <= estimate_cash_at_date m start current.
Proof. unfold estimate_cash_at_date. apply Rmax_r. Qed.

(** With a positive initial cash per share, [check] never reports the
    CRITICAL warning: when the estimate has reached 0 the burn alert, which
    is tested last, replaces it.  The thesis is reported broken exactly when
    the estimate is below half the initial cash, and then the warning is the
    burn alert. *)
Theorem critical_warning_is_shadowed (m : CashFloorMonitor) (current : date)
    (stock_price : R) (start : date) :
  0 < initial_net_cash m ->
  let snapshot := fst (check m current stock_price start) in
  let est_cash := estimate_cash_at_date m start current in
  warning snapshot <> Some Critical
  /\ (thesis_intact snapshot = false <-> est_cash < initial_net_cash m * 0.5)
  /\ (est_cash < initial_net_cash m * 0.5 ->
      warning snapshot = Some (BurnAlert est_cash (initial_net_cash m))).
Proof.
  intros Hinit snapshot est_cash. subst snapshot. unfold check. fold est_cash.
  pose proof (estimate_cash_nonneg m start current) as Hest. fold est_cash in Hest.
  destruct (Rltb est_cash (initial_net_cash m * 0.5)) eqn:Eburn.
  - apply Rltb_true_iff in Eburn.
    destruct (Rleb est_cash 0);
      [| destruct (match (if Rgtb est_cash 0 then _ else _) with
                   | Some ratio => _ | None => _ end);
         [| destruct (Rltb stock_price _)]];
      cbn; (split; [discriminate |]); (split; [tauto | reflexivity]).
  - apply Rltb_false_iff in Eburn.
    destruct (Rleb est_cash 0) eqn:Ezero.
    + apply Rleb_true_iff in Ezero. lra.
    + destruct (match (if Rgtb est_cash 0 then _ else _) with
                | Some ratio => _ | None => _ end);
        [| destruct (Rltb stock_price _)];
        cbn; (split; [discriminate |]); (split; [split; [discriminate | lra] | lra]).
Qed.

Lemma critical_warning_is_shadowed_witness :
  0 < initial_net_cash (new_monitor 1.50 0.10)
  /\ warning (fst (check (new_monitor 1.50 0.10) 2000 2 0)) <> Some Critical.
Proof.
  assert (H : 0 < initial_net_cash (new_monitor 1.50 0.10)) by (cbn; lra).
  split; [exact H |].
  apply (critical_warning_is_shadowed (new_monitor 1.50 0.10) 2000 2 0 H).
Defined.

(** For a non-negative burn rate the estimated cash never increases with
    the date, never falls below 0, and from the start date on never exceeds
    the initial cash (or 0, if that is negative). *)
Theorem estimate_cash_decreasing_and_bounded (m : CashFloorMonitor)
    (start d1 d2 : date) :
  0 <= quarterly_burn m ->
  (d1 <= d2)%Z ->
  estimate_cash_at_date m start d2 <= estimate_cash_at_date m start d1
  /\ 0 <= estimate_cash_at_date m start d2
  /\ ((start <= d1)%Z ->
      estimate_cash_at_date m start d1 <= Rmax (initial_net_cash m) 0).
Proof.
  intros Hburn Hd.
  assert (H12 : IZR (d1 - start) <= IZR (d2 - start)) by (apply IZR_le; lia).
  split; [| split; [apply estimate_cash_nonneg |]].
  - unfold estimate_cash_at_date, Rmax.
    repeat destruct (Rle_dec _ _); nra.
  - intros Hstart.
    assert (H0 : 0 <= IZR (d1 - start)) by (apply IZR_le; lia).
    unfold estimate_cash_at_date, Rmax.
    repeat destruct (Rle_dec _ _); nra.
Qed.

Lemma estimate_cash_decreasing_and_bounded_witness :
  0 <= quarterly_burn (new_monitor 1.50 0.10) /\ (10 <= 100)%Z
  /\ estimate_cash_at_date (new_monitor 1.50 0.10) 0 100
     <= estimate_cash_at_date (new_monitor 1.50 0.10) 0 10.
Proof.
  assert (H : 0 <= quarterly_burn (new_monitor 1.50 0.10)) by (cbn; lra).
  split; [exact H |]. split; [lia |].
  apply (estimate_cash_decreasing_and_bounded (new_monitor 1.50 0.10) 0 10 100 H).
  lia.
Defined.

(** ** Strike selection picks the best-scoring candidate *)

(** The score the loop of [select_strike] gives a candidate. *)
Definition candidate_score (self : CoveredCallStrategy) (stock_price iv : R)
    (dte : Z) (candidate : R) : R :=
  let T := IZR dte / 365 in
  let net_price :=
    apply_bid_ask_slippage
      (black_scholes_call stock_price candidate T (risk_free_rate (config self)) iv)
      (bid_ask_spread_pct (config self)) in
  (net_price / stock_price) * (365 / IZR dte)
  * (1 - 0.5 * call_delta stock_price candidate T (risk_free_rate (config self)) iv).

(** A candidate the loop scores: at or above the minimum strike, more than
    2% above the price, and worth at least a cent after slippage. *)
Definition qualifies (self : CoveredCallStrategy) (stock_price iv : R) (dte : Z)
    (candidate : R) : Prop :=
  min_strike (config self) <= candidate
  /\ stock_price * 1.02 < candidate
  /\ 0.01 <= apply_bid_ask_slippage
               (black_scholes_call stock_price candidate (IZR dte / 365)
                  (risk_free_rate (config self)) iv)
               (bid_ask_spread_pct (config self)).

Lemma select_strike_loop_argmax (self : CoveredCallStrategy) (stock_price iv : R)
    (dte : Z) (candidates : list R) :
  forall best_strike best_score k score,
    select_strike_loop self stock_price iv dte (IZR dte / 365) candidates
      best_strike best_score = Ok (k, score) ->
    best_score <= score
    /\ (forall c, In c candidates -> qualifies self stock_price iv dte c ->
        candidate_score self stock_price iv dte c <= score)
    /\ ((k = best_strike /\ score = best_score)
        \/ (In k candidates /\ qualifies self stock_price iv dte k
            /\ score = candidate_score self stock_price iv dte k
            /\ best_score < score)).
Proof.
  induction candidates as [| c rest IH]; intros bk bs k score Hloop.
  - cbn in Hloop. inversion Hloop; subst.
    split; [lra |]. split; [intros c [] | left; split; reflexivity].
  - cbn [select_strike_loop] in Hloop.
    assert (Hskip :
              ~ qualifies self stock_price iv dte c ->
              select_strike_loop self stock_price iv dte (IZR dte / 365) rest bk bs
              = Ok (k, score) ->
              bs <= score
              /\ (forall c0, In c0 (c :: rest) -> qualifies self stock_price iv dte c0 ->
                  candidate_score self stock_price iv dte c0 <= score)
              /\ ((k = bk /\ score = bs)
                  \/ (In k (c :: rest) /\ qualifies self stock_price iv dte k
                      /\ score = candidate_score self stock_price iv dte k
                      /\ bs < score))).
    { intros Hnot Hrest. destruct (IH _ _ _ _ Hrest) as (Hle & Hmax & Hcase).
      split; [exact Hle |]. split.
      - intros c0 [<- | Hin] Hq; [contradiction | apply Hmax; assumption].
      - destruct Hcase as [Hsame | (Hin & Hq & Hs & Hlt)]; [left; exact Hsame |].
        right. split; [right; exact Hin |]. split; [exact Hq |]. split; assumption. }
    destruct (Rltb c (min_strike (config self))) eqn:E1.
    { apply Rltb_true_iff in E1. apply Hskip; [| exact Hloop].
      intros (H & _ & _). lra. }
    destruct (Rleb c (stock_price * 1.02)) eqn:E2.
    { apply Rleb_true_iff in E2. apply Hskip; [| exact Hloop].
      intros (_ & H & _). lra. }
    destruct (_ || _); [discriminate |].
    destruct (Rltb _ 0.01) eqn:E3.
    { apply Rltb_true_iff in E3. apply Hskip; [| exact Hloop].
      intros (_ & _ & H). lra. }
    apply Rltb_false_iff in E1, E3. apply Rleb_false_iff in E2.
    assert (Hq : qualifies self stock_price iv dte c) by (repeat split; assumption).
    destruct (Reqb stock_price 0 || (dte =? 0)%Z); [discriminate |].
    fold (candidate_score self stock_price iv dte c) in Hloop.
    destruct (Rgtb _ bs) eqn:E4.
    + apply Rltb_true_iff in E4.
      destruct (IH _ _ _ _ Hloop) as (Hle & Hmax & Hcase).
      split; [lra |]. split.
      * intros c0 [<- | Hin] Hq0; [exact Hle | apply Hmax; assumption].
      * right. destruct Hcase as [[-> ->] | (Hin & Hqk & Hs & Hlt)].
        -- split; [left; reflexivity |]. split; [exact Hq |]. split; [reflexivity | exact E4].
        -- split; [right; exact Hin |]. split; [exact Hqk |]. split; [exact Hs | lra].
    + apply Rltb_false_iff in E4.
      destruct (IH _ _ _ _ Hloop) as (Hle & Hmax & Hcase).
      split; [exact Hle |]. split.
      * intros c0 [<- | Hin] Hq0; [lra | apply Hmax; assumption].
      * destruct Hcase as [Hsame | (Hin & Hqk & Hs & Hlt)]; [left; exact Hsame |].
        right. split; [right; exact Hin |]. split; [exact Hqk |]. split; assumption.
Qed.

(** [select_strike] returns, with its theoretical premium, either a
    candidate that qualifies (at or above the minimum strike, more than 2%
    out of the money, worth at least a cent after slippage) and whose score
    is above -1 and at least the score of every qualifying candidate, or,
    when no qualifying candidate scores above -1, the minimum strike. *)
Theorem select_strike_is_argmax (self : CoveredCallStrategy) (stock_price iv : R)
    (dte : Z) (k prem : R) :
  select_strike self stock_price iv dte = Ok (k, prem) ->
  prem = black_scholes_call stock_price k (IZR dte / 365)
           (risk_free_rate (config self)) iv
  /\ min_strike (config self) <= k
  /\ ((k = min_strike (config self)
       /\ forall c, In c (strike_candidates (config self)) ->
                    qualifies self stock_price iv dte c ->
                    candidate_score self stock_price iv dte c <= - 1)
      \/ (In k (strike_candidates (config self))
          /\ qualifies self stock_price iv dte k
          /\ - 1 < candidate_score self stock_price iv dte k
          /\ forall c, In c (strike_candidates (config self)) ->
                       qualifies self stock_price iv dte c ->
                       candidate_score self stock_price iv dte c
                       <= candidate_score self stock_price iv dte k)).
Proof.
  intros Hsel.
  destruct (select_strike_Ok _ _ _ _ _ _ Hsel) as (score & Hloop & Hprem).
  destruct (select_strike_loop_argmax _ _ _ _ _ _ _ _ _ Hloop) as (_ & Hmax & Hcase).
  split; [exact Hprem |].
  destruct Hcase as [[-> ->] | (Hin & Hq & -> & Hlt)].
  - split; [lra |]. left. split; [reflexivity | exact Hmax].
  - split; [apply Hq |]. right. repeat split; try assumption; apply Hq.
Qed.

(** Two years out at a price of 2.40, the 2.50 candidate qualifies and
    scores above 0. *)
Lemma two_year_call_qualifies :
  qualifies lot_bought 2.4 0.30 730 2.5
  /\ 0 < candidate_score lot_bought 2.4 0.30 730 2.5.
Proof.
  destruct two_year_call as [Hprice Hdelta]. cbv zeta in Hprice, Hdelta.
  unfold qualifies, candidate_score, apply_bid_ask_slippage.
  cbn [lot_bought open_stock_position snd config new_strategy min_strike
       risk_free_rate bid_ask_spread_pct default_config].
  set (price := black_scholes_call 2.4 2.5 (IZR 730 / 365) 0.045 0.30) in *.
  set (delta := call_delta 2.4 2.5 (IZR 730 / 365) 0.045 0.30) in *.
  split; [repeat split; lra |].
  assert (H1 : 0 < price * (1 - 0.15 / 2) / 2.4) by lra.
  assert (H2 : 0 < 365 / IZR 730) by lra.
  assert (H3 : 0 < 1 - 0.5 * delta) by lra.
  apply Rmult_lt_0_compat; [apply Rmult_lt_0_compat |]; assumption.
Qed.

Lemma select_strike_is_argmax_witness :
  exists k prem,
    select_strike lot_bought 2.4 0.30 730 = Ok (k, prem)
    /\ qualifies lot_bought 2.4 0.30 730 2.5
    /\ In k (strike_candidates (config lot_bought))
    /\ qualifies lot_bought 2.4 0.30 730 k
    /\ candidate_score lot_bought 2.4 0.30 730 2.5
       <= candidate_score lot_bought 2.4 0.30 730 k.
Proof.
  destruct two_year_call_qualifies as [Hq Hscore].
  assert (Hin : In 2.5 (strike_candidates (config lot_bought)))
    by (cbn; right; left; lra).
  assert (Hmin : 0 < min_strike (config lot_bought)) by (cbn; lra).
  destruct (select_strike_loop_total lot_bought 2.4 0.30 730 (IZR 730 / 365)
              (strike_candidates (config lot_bought)) ltac:(lra) ltac:(lia) Hmin
              (min_strike (config lot_bought)) (- 1)) as (k & score & Hloop).
  assert (Hsel : select_strike lot_bought 2.4 0.30 730
                 = Ok (k, black_scholes_call 2.4 k (IZR 730 / 365)
                            (risk_free_rate (config lot_bought)) 0.30)).
  { unfold select_strike. rewrite Hloop. cbn [bind].
    apply select_strike_loop_above_minimum in Hloop; [| lra].
    destruct (positive_strike_divides k (IZR 730 / 365) 0.30) as [-> _]; [lra |].
    reflexivity. }
  destruct (select_strike_is_argmax lot_bought 2.4 0.30 730 k _ Hsel)
    as (_ & _ & [[_ Hall] | (Hk & Hqk & _ & Hmax)]).
  - specialize (Hall 2.5 Hin Hq). lra.
  - eexists. eexists. split; [exact Hsel |]. split; [exact Hq |].
    split; [exact Hk |]. split; [exact Hqk |]. apply Hmax; assumption.
Defined.

(** ** Rolling *)

(** A roll of an open position appends exactly a ROLL entry for the call
    bought back and a SELL_CALL entry for its replacement, installs a
    position entered that day and expiring the configured days later, and
    keeps the shares and the assignment count.  It adds the new premium to
    the premium total, from which the buyback cost is not deducted, and both
    commissions to the commission total. *)
Theorem roll_position_replaces (self : CoveredCallStrategy) (current_date : date)
    (stock_price iv : R) (pos : OptionPosition) (roll_trades : list TradeRecord)
    (self' : CoveredCallStrategy) :
  position self = Some pos ->
  roll_position self current_date stock_price iv = Ok (roll_trades, self') ->
  exists buyback sale new_pos,
    roll_trades = [buyback; sale]
    /\ trades self' = trades self ++ [buyback; sale]
    /\ action buyback = ROLL /\ trade_strike buyback = Some (strike pos)
    /\ action sale = SELL_CALL
    /\ position self' = Some new_pos
    /\ entry_date new_pos = current_date
    /\ expiration new_pos = (current_date + target_dte (config self))%Z
    /\ contracts new_pos = (shares_held self / 100)%Z
    /\ shares_held self' = shares_held self
    /\ times_called_away self' = times_called_away self
    /\ total_premium_collected self' = total_premium_collected self + premium sale
    /\ total_commissions self'
       = total_commissions self
         + IZR (contracts pos) * commission_per_contract (config self)
         + IZR (shares_held self / 100) * commission_per_contract (config self).
Proof.
  intros Hpos Hroll. unfold roll_position in Hroll. rewrite Hpos in Hroll.
  cbn [buy_back] in Hroll.
  destruct (sell_call _ _ _ _ _) as [[sale sold] | e] eqn:Hsell; cbn in Hroll;
    [| discriminate].
  inversion Hroll; subst; clear Hroll.
  unfold sell_call, date_plus_days in Hsell.
  destruct (select_strike _ _ _ _) as [[k prem] | e]; cbn [bind] in Hsell;
    [| discriminate].
  destruct (_ && _); cbn [bind] in Hsell; [| discriminate].
  inversion Hsell; subst; clear Hsell.
  eexists. eexists. eexists. cbn.
  split; [reflexivity |]. split; [rewrite <- app_assoc; reflexivity |].
  repeat split.
Qed.

Lemma roll_position_replaces_witness :
  exists roll_trades self',
    roll_position example_holding 26 2 0.30 = Ok (roll_trades, self')
    /\ shares_held self' = 1000%Z.
Proof.
  assert (H : exists roll_trades self',
             roll_position example_holding 26 2 0.30 = Ok (roll_trades, self')).
  { unfold roll_position. cbn [position example_holding buy_back].
    match goal with
    | |- context [sell_call ?s0 26 2 0.30 None] =>
        destruct (sell_call_total s0 26 2 0.30 None) as (t & sold & Hsell);
        [lra | cbn; lia | cbn; lra
         | unfold expiration_defined, date_in_range; cbn; lia |]
    end.
    rewrite Hsell. cbn. eexists. eexists. reflexivity. }
  destruct H as (roll_trades & self' & Hroll).
  exists roll_trades, self'. split; [exact Hroll |].
  destruct (roll_position_replaces example_holding 26 2 0.30 example_position
              roll_trades self' eq_refl Hroll)
    as (b & s & np & _ & _ & _ & _ & _ & _ & _ & _ & _ & Hshares & _).
  exact Hshares.
Defined.

(** ** Volatility estimator: the backfill and a flat series *)

(** The warmup entries of a series longer than the window plus one all
    carry the first computed value, the entry at index [window + 1]. *)
Theorem warmup_is_backfilled (prices : list R) (window : nat) (iv_premium : R)
    (k : nat) :
  (window + 1 < length prices)%nat -> (k <= window)%nat ->
  nth k (implied_volatility_from_history prices window iv_premium) None
  = nth (window + 1) (implied_volatility_from_history prices window iv_premium) None.
Proof.
  intros Hlong Hk. unfold implied_volatility_from_history.
  set (looped := fold_left _ _ _).
  assert (Hlen : length looped = length prices)
    by (unfold looped; rewrite iv_loop_length; apply repeat_length).
  rewrite (proj2 (Nat.ltb_lt _ _)) by lia.
  unfold np_maximum.
  change (@None R) with (option_map (fun v => Rmax v 0.30) (@None R)).
  rewrite !map_nth.
  f_equal.
  rewrite app_nth1 by (rewrite repeat_length; lia).
  rewrite app_nth2 by (rewrite repeat_length; lia).
  rewrite repeat_length, Nat.sub_diag, nth_skipn, Nat.add_0_r.
  apply nth_repeat_lt. lia.
Qed.

Lemma warmup_is_backfilled_witness :
  (1 + 1 < length [2; 3; 2; 3])%nat /\ (0 <= 1)%nat
  /\ nth 0 (implied_volatility_from_history [2; 3; 2; 3] 1 1.3) None
     = nth 2 (implied_volatility_from_history [2; 3; 2; 3] 1 1.3) None.
Proof.
  split; [cbn; lia |]. split; [lia |].
  apply (warmup_is_backfilled [2; 3; 2; 3] 1 1.3 0); cbn; lia.
Defined.

Lemma iv_loop_writes (P : option R -> Prop) (log_returns : list (option R))
    (window : nat) (iv_premium : R) (k : nat) (idxs : list nat) :
  (forall i, In i idxs ->
     P (option_map (fun h => h * iv_premium)
          (option_map (fun s => s * sqrt 252)
             (np_std (slice log_returns (i - window) i))))) ->
  forall iv_series,
    (k < length iv_series)%nat ->
    P (nth k iv_series None) \/ (exists i, In i idxs /\ k = (i + 1)%nat) ->
    P (nth k (fold_left (iv_loop_body log_returns window iv_premium)
                idxs iv_series) None).
Proof.
  induction idxs as [| i rest IH]; intros Hwritten acc Hk Hcase; cbn.
  - destruct Hcase as [H | (i & [] & _)]. exact H.
  - apply IH.
    + intros j Hj. apply Hwritten. right. exact Hj.
    + unfold iv_loop_body. rewrite array_set_length. exact Hk.
    + destruct (Nat.eq_dec k (i + 1)) as [-> | Hne].
      * left. unfold iv_loop_body. rewrite nth_array_set_eq by exact Hk.
        apply Hwritten. left. reflexivity.
      * destruct Hcase as [H | (j & [<- | Hj] & Hkj)].
        -- left. unfold iv_loop_body. rewrite nth_array_set_neq by exact Hne. exact H.
        -- contradiction.
        -- right. exists j. split; assumption.
Qed.

Lemma slice_all {A : Type} (P : A -> Prop) (xs : list A) (lo hi : nat) :
  Forall P xs -> Forall P (slice xs lo hi).
Proof.
  intros H. unfold slice.
  rewrite <- (firstn_skipn lo xs) in H. apply Forall_app in H. destruct H as [_ H].
  rewrite <- (firstn_skipn (hi - lo) (skipn lo xs)) in H.
  apply Forall_app in H. apply H.
Qed.

Lemma log_returns_of_flat (p : R) (n : nat) :
  0 < p -> Forall (fun o => o = Some 0) (log_returns_of (repeat p n)).
Proof.
  intros Hp. induction n as [| n IH]; [constructor |].
  destruct n as [| n]; [constructor |].
  change (log_returns_of (repeat p (S (S n))))
    with (np_log_ratio p p :: log_returns_of (repeat p (S n))).
  constructor; [| exact IH].
  unfold np_log_ratio.
  rewrite (proj2 (Reqb_false_iff p 0)) by lra.
  replace (p / p) with 1 by (field; lra).
  rewrite (proj2 (Rltb_true_iff 0 1)) by lra.
  rewrite ln_1. reflexivity.
Qed.

Lemma all_finite_zeros (xs : list (option R)) :
  Forall (fun o => o = Some 0) xs ->
  all_finite xs = Some (repeat 0 (length xs)).
Proof.
  induction 1 as [| o xs Ho _ IH]; [reflexivity |].
  subst o. cbn. rewrite IH. reflexivity.
Qed.

Lemma np_sum_zeros (n : nat) : np_sum (repeat 0 n) = 0.
Proof. induction n as [| n IH]; cbn; [reflexivity |]. unfold np_sum in IH. rewrite IH. lra. Qed.

Lemma np_std_zeros (xs : list (option R)) :
  Forall (fun o => o = Some 0) xs -> xs <> [] -> np_std xs = Some 0.
Proof.
  intros Hzero Hne. unfold np_std. rewrite (all_finite_zeros xs Hzero).
  destruct xs as [| x xs]; [contradiction |]. cbn [length repeat].
  f_equal.
  assert (Hmean : np_mean (0 :: repeat 0 (length xs)) = 0).
  { unfold np_mean. change (0 :: repeat 0 (length xs)) with (repeat 0 (S (length xs))).
    rewrite np_sum_zeros. unfold Rdiv. apply Rmult_0_l. }
  rewrite Hmean.
  assert (Hsq : map (fun y => (y - 0) ^ 2) (0 :: repeat 0 (length xs))
                = repeat 0 (S (length xs))).
  { change (0 :: repeat 0 (length xs)) with (repeat 0 (S (length xs))).
    rewrite map_repeat. f_equal. ring. }
  rewrite Hsq. unfold np_mean. rewrite np_sum_zeros.
  unfold Rdiv. rewrite Rmult_0_l. apply sqrt_0.
Qed.

(** For a series of one positive price repeated, longer than the window
    plus one, with a window of at least one day, every estimate is the floor
    0.30: the realised volatility is 0 whatever the premium multiplier. *)
Theorem flat_series_sits_on_the_floor (p : R) (n window : nat) (iv_premium : R) :
  0 < p -> (1 <= window)%nat -> (window + 2 <= n)%nat ->
  implied_volatility_from_history (repeat p n) window iv_premium
  = repeat (Some 0.30) n.
Proof.
  intros Hp Hw Hn. unfold implied_volatility_from_history.
  pose proof (log_returns_of_flat p n Hp) as Hflat.
  pose proof (log_returns_of_length (repeat p n)) as Hlr.
  rewrite repeat_length in *.
  set (log_returns := log_returns_of (repeat p n)) in *.
  set (looped := fold_left _ _ _).
  assert (Hlen : length looped = n)
    by (unfold looped; rewrite iv_loop_length; apply repeat_length).
  assert (Hset : forall k, (window + 1 <= k < n)%nat -> nth k looped None = Some 0).
  { intros k Hk. unfold looped.
    apply (iv_loop_writes (fun o => o = Some 0)).
    - intros i Hi. apply in_seq in Hi.
      rewrite np_std_zeros.
      + cbn. f_equal. ring.
      + apply slice_all. exact Hflat.
      + intros Hnil. apply (f_equal (@length _)) in Hnil.
        unfold slice in Hnil. rewrite length_firstn, length_skipn in Hnil.
        cbn in Hnil. lia.
    - rewrite repeat_length. lia.
    - right. exists (k - 1)%nat. split; [apply in_seq; lia | lia]. }
  rewrite Hlen, (proj2 (Nat.ltb_lt _ _)) by lia.
  rewrite (Hset (window + 1)%nat) by lia.
  apply nth_ext with (d := None) (d' := None).
  - unfold np_maximum.
    rewrite length_map, length_app, !repeat_length, length_skipn. lia.
  - intros k Hk. unfold np_maximum in *.
    rewrite length_map, length_app, repeat_length, length_skipn in Hk.
    change (@None R) with (option_map (fun v => Rmax v 0.30) (@None R)) at 1.
    rewrite map_nth, nth_repeat_lt by lia.
    assert (Hfloor : Rmax 0 0.30 = 0.30) by (unfold Rmax; destruct (Rle_dec 0 0.30); lra).
    destruct (Nat.lt_ge_cases k (window + 1)) as [Hlt | Hge].
    + rewrite app_nth1 by (rewrite repeat_length; exact Hlt).
      rewrite nth_repeat_lt by exact Hlt. cbn. rewrite Hfloor. reflexivity.
    + rewrite app_nth2 by (rewrite repeat_length; exact Hge).
      rewrite repeat_length, nth_skipn.
      rewrite Hset by lia. cbn. rewrite Hfloor. reflexivity.
Qed.

Lemma flat_series_sits_on_the_floor_witness :
  0 < 2 /\ (1 <= 20)%nat /\ (20 + 2 <= 30)%nat
  /\ implied_volatility_from_history (repeat 2 30) 20 1.3 = repeat (Some 0.30) 30.
Proof.
  split; [lra |]. split; [lia |]. split; [lia |].
  apply flat_series_sits_on_the_floor; [lra | lia | lia].
Defined.

(** ** Metrics *)

Lemma maximum_accumulate_from_bounds (m : R) (xs : list R) :
  0 < m -> Forall (fun x => 0 < x) xs ->
  Forall (fun em => 0 < fst em <= snd em)
    (combine xs (maximum_accumulate_from m xs)).
Proof.
  intros Hm Hxs. revert m Hm.
  induction Hxs as [| x xs Hx _ IH]; intros m Hm; cbn; [constructor |].
  assert (Hmax : x <= Rmax m x /\ m <= Rmax m x)
    by (split; [apply Rmax_r | apply Rmax_l]).
  constructor; [cbn; lra |]. apply IH. lra.
Qed.

Lemma np_min_bounds (lo hi : R) (xs : list R) :
  xs <> [] -> Forall (fun x => lo < x <= hi) xs -> lo < np_min xs <= hi.
Proof.
  intros Hne Hxs. destruct xs as [| x xs]; [contradiction |].
  inversion Hxs as [| ? ? Hx Hrest]; subst. cbn [np_min].
  clear Hne Hxs. revert x Hx.
  induction Hrest as [| y ys Hy _ IH]; intros x Hx; cbn; [exact Hx |].
  apply IH. unfold Rmin. destruct (Rle_dec x y); assumption.
Qed.

(** On an equity curve with positive values throughout, the reported
    maximum drawdown lies between -100 (excluded) and 0 (included). *)
Theorem max_drawdown_range (cfg : CoveredCallConfig) (df : list (date * R))
    (st : LoopState) :
  equity_curve st <> [] ->
  Forall (fun e => 0 < Equity e) (equity_curve st) ->
  - 100 < max_drawdown_pct (metrics cfg df st) <= 0.
Proof.
  intros Hne Hpos. cbn [max_drawdown_pct metrics].
  set (equity_values := map Equity (equity_curve st)).
  assert (Hvalues : Forall (fun x => 0 < x) equity_values)
    by (apply Forall_map; exact Hpos).
  assert (Hne' : equity_values <> [])
    by (unfold equity_values; destruct (equity_curve st); [contradiction | discriminate]).
  assert (Hpairs : Forall (fun em => 0 < fst em <= snd em)
                     (combine equity_values (maximum_accumulate equity_values))).
  { destruct equity_values as [| x xs]; [contradiction |].
    inversion Hvalues; subst. cbn [maximum_accumulate combine].
    constructor; [cbn; lra |].
    apply maximum_accumulate_from_bounds; assumption. }
  assert (Hdd : - 1 < np_min (map (fun em => (fst em - snd em) / snd em)
                            (combine equity_values (maximum_accumulate equity_values)))
                <= 0).
  { apply np_min_bounds.
    - destruct equity_values as [| x xs]; [contradiction | discriminate].
    - apply Forall_map. eapply Forall_impl; [| exact Hpairs].
      intros [e m]; cbn. intros [He Hm].
      assert (Hm0 : 0 < m) by lra.
      split.
      + apply Rmult_lt_reg_r with m; [exact Hm0 |].
        unfold Rdiv. rewrite Rmult_assoc, Rinv_l by lra. lra.
      + apply Rmult_le_reg_r with m; [exact Hm0 |].
        unfold Rdiv. rewrite Rmult_assoc, Rinv_l by lra. lra. }
  lra.
Qed.

Lemma max_drawdown_range_witness :
  let snapshot (equity : R) :=
    {| Date := 0; Equity := equity; StockPrice := 2; Cash := 0;
       StockValue := equity; OptionLiability := 0; IV := 0.30 |} in
  let st := {| strategy := new_strategy default_config;
               cash_monitor := new_monitor 1.50 0.10;
               cash := 0;
               equity_curve := [snapshot 2000; snapshot 1800];
               cash_warnings := [] |} in
  equity_curve st <> []
  /\ Forall (fun e => 0 < Equity e) (equity_curve st)
  /\ - 100 < max_drawdown_pct (metrics default_config [] st) <= 0.
Proof.
  cbv zeta.
  match goal with
  | |- ?A /\ ?B /\ _ =>
      assert (Hne : A) by discriminate;
      assert (Hpos : B)
        by (repeat (apply Forall_cons; [cbn; lra |]); apply Forall_nil)
  end.
  split; [exact Hne |]. split; [exact Hpos |].
  exact (max_drawdown_range default_config [] _ Hne Hpos).
Defined.

Lemma last_cons_default {A : Type} (l : list A) :
  forall a d, last (a :: l) d = last l a.
Proof.
  induction l as [| x l IH]; intros a d; [reflexivity |].
  change (last (a :: x :: l) d) with (last (x :: l) d).
  rewrite (IH x d), (IH x a). reflexivity.
Qed.

Lemma cycle_days_of_telescopes (d : date) (ds : list date) :
  np_sum (cycle_days_of (d :: ds)) = IZR (last ds d - d)
  /\ length (cycle_days_of (d :: ds)) = length ds.
Proof.
  revert d. induction ds as [| d' ds IH]; intros d.
  - cbn. rewrite Z.sub_diag. split; reflexivity.
  - change (cycle_days_of (d :: d' :: ds))
      with (IZR (d' - d) :: cycle_days_of (d' :: ds)).
    destruct (IH d') as [Hsum Hlen]. cbn [np_sum fold_right length].
    unfold np_sum in Hsum. rewrite Hsum, Hlen.
    split; [| reflexivity].
    rewrite last_cons_default.
    rewrite <- plus_IZR. f_equal. unfold date in *. lia.
Qed.

(** With at least two call sales in the log, the reported average cycle is
    the number of days from the first sale to the last, divided by the
    number of sales minus one; how the sales in between are spaced does not
    matter. *)
Theorem average_cycle_is_span_over_count (cfg : CoveredCallConfig)
    (df : list (date * R)) (st : LoopState) (first : date) (later : list date) :
  map trade_date
    (filter (fun t => Action_eqb (action t) SELL_CALL) (trades (strategy st)))
  = first :: later ->
  later <> [] ->
  avg_days_per_cycle (metrics cfg df st)
  = IZR (last later first - first) / INR (length later).
Proof.
  intros Hdates Hne. cbn [avg_days_per_cycle metrics]. rewrite Hdates.
  destruct later as [| d later']; [contradiction |].
  replace (1 <? length (first :: d :: later'))%nat with true by reflexivity.
  unfold np_mean.
  destruct (cycle_days_of_telescopes first (d :: later')) as [Hsum Hlen].
  rewrite Hsum, Hlen. reflexivity.
Qed.

Lemma average_cycle_is_span_over_count_witness :
  let sale (d : date) :=
    {| trade_date := d; action := SELL_CALL; trade_strike := Some 2.50;
       trade_expiration := Some (d + 30)%Z; premium := 10;
       trade_stock_price := 2; trade_shares := 1000 |} in
  let st := {| strategy :=
                 {| config := default_config; position := None; shares_held := 1000;
                    trades := [sale 0%Z; sale 30%Z; sale 75%Z];
                    total_premium_collected := 30; total_commissions := 0;
                    times_called_away := 0 |};
               cash_monitor := new_monitor 1.50 0.10;
               cash := 0; equity_curve := []; cash_warnings := [] |} in
  avg_days_per_cycle (metrics default_config [] st) = IZR (75 - 0) / INR 2.
Proof.
  cbv zeta.
  match goal with
  | |- avg_days_per_cycle (metrics _ _ ?st) = _ =>
      apply (average_cycle_is_span_over_count default_config [] st 0%Z [30%Z; 75%Z])
  end; [reflexivity | discriminate].
Defined.

(* ================================================================== *)
(** * pricing.py: the normal distribution function and the Greeks *)

(** Theta (daily) of a European call. *)
Definition call_theta (S K T r sigma : R) : R :=
  if Rleb T 0 then 0
  else
    let d1 := (ln (S / K) + (r + 0.5 * sigma ^ 2) * T) / (sigma * sqrt T) in
    let d2 := d1 - sigma * sqrt T in
    let theta :=
      - S * norm_pdf d1 * sigma / (2 * sqrt T)
      - r * K * exp (- r * T) * norm_cdf d2 in
    theta / 365.

(** For a positive strike and volatility, the delta of a call does not
    decrease as the price of the stock rises from one positive value to
    another; with time left, a non-negative rate and the price at or above
    the strike it is at least one half. *)
Theorem call_delta_increasing_in_price (S1 S2 K T r sigma : R) :
  0 < S1 -> S1 <= S2 -> 0 < K -> 0 < sigma ->
  call_delta S1 K T r sigma <= call_delta S2 K T r sigma
  /\ (0 < T -> 0 <= r -> K <= S1 -> 1 / 2 <= call_delta S1 K T r sigma).
Proof.
  intros HS1 HS HK Hsigma. unfold call_delta.
  destruct (Rleb T 0) eqn:ET.
  - split.
    + unfold Rgtb. destruct (Rltb K S1) eqn:E1.
      * apply Rltb_true_iff in E1.
        rewrite (proj2 (Rltb_true_iff K S2)) by lra. lra.
      * destruct (Rltb K S2); lra.
    + intros HT. apply Rleb_true_iff in ET. lra.
  - apply Rleb_false_iff in ET.
    assert (Hden : 0 < sigma * sqrt T)
      by (apply Rmult_lt_0_compat; [exact Hsigma | apply sqrt_lt_R0; exact ET]).
    split.
    + apply norm_cdf_increasing.
      assert (Hln : ln (S1 / K) <= ln (S2 / K)).
      { assert (Hq : S1 / K <= S2 / K)
          by (unfold Rdiv; apply Rmult_le_compat_r; [left; apply Rinv_0_lt_compat |];
              assumption).
        destruct Hq as [Hlt | Heq]; [| rewrite Heq; lra].
        left. apply ln_increasing; [apply Rdiv_lt_0_compat; assumption | exact Hlt]. }
      unfold Rdiv. apply Rmult_le_compat_r; [left; apply Rinv_0_lt_compat; exact Hden |].
      lra.
    + intros _ Hr HKS. rewrite <- norm_cdf_0. apply norm_cdf_increasing.
      assert (Hln : 0 <= ln (S1 / K)).
      { rewrite <- ln_1.
        assert (Hq : 1 <= S1 / K).
        { apply Rmult_le_reg_r with K; [exact HK |].
          unfold Rdiv. rewrite Rmult_assoc, Rinv_l by lra. lra. }
        destruct Hq as [Hlt | Heq]; [| rewrite <- Heq; lra].
        left. apply ln_increasing; [lra | exact Hlt]. }
      apply Rmult_le_pos; [| left; apply Rinv_0_lt_compat; exact Hden].
      assert (0 <= (r + 0.5 * sigma ^ 2) * T) by (apply Rmult_le_pos; nra).
      lra.
Qed.

Lemma call_delta_increasing_in_price_witness :
  0 < 2 /\ 2 <= 3 /\ 0 < 2.5 /\ 0 < 0.30
  /\ call_delta 2 2.5 (30 / 365) 0.045 0.30 <= call_delta 3 2.5 (30 / 365) 0.045 0.30.
Proof.
  split; [lra |]. split; [lra |]. split; [lra |]. split; [lra |].
  apply (call_delta_increasing_in_price 2 3 2.5 (30 / 365) 0.045 0.30); lra.
Defined.

(** In its two closed-form fallbacks the price of a call is the intrinsic
    value: undiscounted when no time is left, discounted by [exp (- r T)]
    when time is left but the volatility is not positive.  Either way it is
    0 at or below the strike, never negative, and for a non-negative strike
    never above the price of the stock when that and [r T] are not
    negative. *)
Theorem black_scholes_fallbacks (S K T r sigma : R) :
  (T <= 0 -> black_scholes_call S K T r sigma = Rmax (S - K) 0)
  /\ (0 < T -> sigma <= 0 ->
      black_scholes_call S K T r sigma = exp (- r * T) * Rmax (S - K) 0)
  /\ (T <= 0 \/ sigma <= 0 ->
      0 <= black_scholes_call S K T r sigma
      /\ (S <= K -> black_scholes_call S K T r sigma = 0)
      /\ (0 <= S -> 0 <= K -> 0 <= r * T -> black_scholes_call S K T r sigma <= S)).
Proof.
  assert (Hlate : T <= 0 -> black_scholes_call S K T r sigma = Rmax (S - K) 0)
    by (apply black_scholes_call_at_expiry).
  assert (Hflat : 0 < T -> sigma <= 0 ->
                  black_scholes_call S K T r sigma = exp (- r * T) * Rmax (S - K) 0).
  { intros HT Hs. unfold black_scholes_call.
    rewrite (proj2 (Rleb_false_iff T 0) HT), (proj2 (Rleb_true_iff sigma 0) Hs).
    pose proof (exp_pos (- r * T)) as He.
    unfold Rmax. repeat destruct (Rle_dec _ _); nra. }
  split; [exact Hlate |]. split; [exact Hflat |].
  intros Hcase.
  assert (Hform : exists f, 0 < f /\ (0 <= r * T -> f <= 1)
                            /\ black_scholes_call S K T r sigma = f * Rmax (S - K) 0).
  { destruct (Rle_dec T 0) as [HT | HT].
    - exists 1. rewrite (Hlate HT). repeat split; lra.
    - destruct Hcase as [HT' | Hs]; [contradiction |].
      exists (exp (- r * T)). rewrite Hflat by lra.
      split; [apply exp_pos |]. split; [| reflexivity].
      intros Hrt. rewrite <- exp_0.
      destruct (Req_dec (- r * T) 0) as [-> | Hne]; [lra |].
      left. apply exp_increasing. lra. }
  destruct Hform as (f & Hf & Hf1 & ->).
  unfold Rmax. destruct (Rle_dec (S - K) 0).
  - repeat split; intros; nra.
  - repeat split; intros; nra.
Qed.

Lemma black_scholes_fallbacks_witness :
  (30 / 365 <= 0 \/ 0 <= 0)
  /\ 0 <= black_scholes_call 3 2.5 (30 / 365) 0.045 0.
Proof.
  assert (H : 30 / 365 <= 0 \/ 0 <= 0) by (right; lra).
  split; [exact H |].
  apply (proj2 (proj2 (black_scholes_fallbacks 3 2.5 (30 / 365) 0.045 0)) H).
Defined.

(* ================================================================== *)
(** * premium_optimizer.py *)

(** The fields of the dataclass; [analysis_] is put before the names other
    records already use. *)
Record StrikeAnalysis : Type := mkStrikeAnalysis {
  analysis_strike : R;
  analysis_dte : Z;
  theoretical_premium : R;
  analysis_net_premium : R;    (* after bid-ask slippage *)
  delta : R;
  theta_daily : R;
  annualized_return : R;       (* premium / stock_price annualized *)
  upside_to_strike_pct : R;
  score : R
}.

(** Analyze a single strike/expiration combination.  Pricing a strike of
    0.0 raises [ZeroDivisionError], in [black_scholes_call] or else in
    [call_delta]; so do the quotients by [stock_price] on a zero price;
    [365.0 / dte] is only evaluated for [dte > 0]. *)
Definition analyze_strike (self_config : CoveredCallConfig) (stock_price strike : R)
    (dte : Z) (iv : R) : result StrikeAnalysis :=
  let T := IZR dte / 365 in
  let r := risk_free_rate self_config in
  let premium := black_scholes_call stock_price strike T r iv in
  let net_premium := apply_bid_ask_slippage premium (bid_ask_spread_pct self_config) in
  let delta := call_delta stock_price strike T r iv in
  let theta := call_theta stock_price strike T r iv in
  if black_scholes_call_divides_by_zero strike T iv
     || call_delta_divides_by_zero strike T then Raise ZeroDivisionError
  else if Reqb stock_price 0 then Raise ZeroDivisionError
  else
    let annualized :=
      if (dte >? 0)%Z then (net_premium / stock_price) * (365 / IZR dte) else 0 in
    let upside := (strike - stock_price) / stock_price in
    (* Composite score: balance premium income vs assignment risk *)
    let score :=
      if Rltb net_premium 0.005 then 0
      else
        let income_score := annualized in
        let delta_score := 1 - Rabs (delta - 0.20) * 3 in
        let delta_score := Rmax delta_score 0.1 in
        let upside_score := Rmin (upside / 0.30) 1 in
        income_score * 0.5 + delta_score * 0.3 + upside_score * 0.2 in
    Ok {| analysis_strike := strike;
          analysis_dte := dte;
          theoretical_premium := premium;
          analysis_net_premium := net_premium;
          delta := delta;
          theta_daily := theta;
          annualized_return := annualized;
          upside_to_strike_pct := upside;
          score := score |}.

(** The inner loop of [find_optimal]: [for dte in dte_options]. *)
Fixpoint analyze_dtes (self_config : CoveredCallConfig) (stock_price strike iv : R)
    (dte_options : list Z) (results : list StrikeAnalysis)
    : result (list StrikeAnalysis) :=
  match dte_options with
  | [] => Ok results
  | dte :: rest =>
      analysis <- analyze_strike self_config stock_price strike dte iv ;;
      if Rgeb (analysis_net_premium analysis) 0.01 then
        analyze_dtes self_config stock_price strike iv rest (results ++ [analysis])
      else analyze_dtes self_config stock_price strike iv rest results
  end.

(** The outer loop of [find_optimal]: [for strike in strike_candidates]. *)
Fixpoint analyze_strikes (self_config : CoveredCallConfig) (stock_price iv : R)
    (dte_options : list Z) (candidates : list R) (results : list StrikeAnalysis)
    : result (list StrikeAnalysis) :=
  match candidates with
  | [] => Ok results
  | strike :: rest =>
      if Rleb strike (stock_price * 1.02) then
        analyze_strikes self_config stock_price iv dte_options rest results
      else
        results <- analyze_dtes self_config stock_price strike iv dte_options results ;;
        analyze_strikes self_config stock_price iv dte_options rest results
  end.

(** [results.sort(key=lambda x: x.score, reverse=True)]: descending by
    score, entries of equal score in their original order. *)
Fixpoint insert_by_score (a : StrikeAnalysis) (sorted : list StrikeAnalysis)
    : list StrikeAnalysis :=
  match sorted with
  | [] => [a]
  | b :: rest =>
      if Rltb (score a) (score b) then b :: insert_by_score a rest
      else a :: b :: rest
  end.

Fixpoint sort_by_score (results : list StrikeAnalysis) : list StrikeAnalysis :=
  match results with
  | [] => []
  | a :: rest => insert_by_score a (sort_by_score rest)
  end.

(** Evaluate all strike/DTE combos and return sorted by score. *)
Definition find_optimal (self_config : CoveredCallConfig) (stock_price iv : R)
    (dte_options : option (list Z)) : result (list StrikeAnalysis) :=
  let dte_options :=
    match dte_options with
    | Some options => options
    | None => [14; 21; 30; 45]%Z
    end in
  results <-
    analyze_strikes self_config stock_price iv dte_options
      (strike_candidates self_config) [] ;;
  Ok (sort_by_score results).

(** ** What [find_optimal] returns *)

(** The entry is the analysis of one of the given strikes, more than 2% out
    of the money, for one of the given expiries, and is worth at least a
    cent after slippage. *)
Definition recommended (self_config : CoveredCallConfig) (stock_price iv : R)
    (dte_options : list Z) (candidates : list R) (a : StrikeAnalysis) : Prop :=
  In (analysis_strike a) candidates
  /\ stock_price * 1.02 < analysis_strike a
  /\ In (analysis_dte a) dte_options
  /\ analyze_strike self_config stock_price (analysis_strike a) (analysis_dte a) iv
     = Ok a
  /\ 0.01 <= analysis_net_premium a.

Lemma analyze_strike_fields (cfg : CoveredCallConfig) (p k : R) (dte : Z) (iv : R)
    (a : StrikeAnalysis) :
  analyze_strike cfg p k dte iv = Ok a ->
  analysis_strike a = k /\ analysis_dte a = dte /\ p <> 0.
Proof.
  unfold analyze_strike. destruct (_ || _); [discriminate |].
  destruct (Reqb p 0) eqn:E; [discriminate |].
  apply Reqb_false_iff in E. intros H. inversion H; subst. cbn. auto.
Qed.

Lemma analyze_dtes_recommended (cfg : CoveredCallConfig) (p k iv : R)
    (all_dtes : list Z) (candidates : list R) (dtes : list Z) :
  In k candidates -> p * 1.02 < k -> incl dtes all_dtes ->
  forall results results',
    Forall (recommended cfg p iv all_dtes candidates) results ->
    analyze_dtes cfg p k iv dtes results = Ok results' ->
    Forall (recommended cfg p iv all_dtes candidates) results'.
Proof.
  intros Hk Hotm. induction dtes as [| dte rest IH]; intros Hincl results results' Hres H.
  - cbn in H. inversion H; subst. exact Hres.
  - cbn in H.
    destruct (analyze_strike cfg p k dte iv) as [a | e] eqn:Ea; cbn in H; [| discriminate].
    assert (Hrest : incl rest all_dtes) by (intros x Hx; apply Hincl; right; exact Hx).
    destruct (Rgeb (analysis_net_premium a) 0.01) eqn:Enet.
    + apply (IH Hrest _ _) in H; [exact H |].
      apply Forall_app. split; [exact Hres |]. constructor; [| constructor].
      destruct (analyze_strike_fields _ _ _ _ _ _ Ea) as (Hs & Hd & _).
      apply Rleb_true_iff in Enet.
      unfold recommended. rewrite Hs, Hd.
      repeat split; try assumption. apply Hincl. left. reflexivity.
    + apply (IH Hrest _ _ Hres H).
Qed.

Lemma analyze_strikes_recommended (cfg : CoveredCallConfig) (p iv : R)
    (dtes : list Z) (all_candidates : list R) (candidates : list R) :
  incl candidates all_candidates ->
  forall results results',
    Forall (recommended cfg p iv dtes all_candidates) results ->
    analyze_strikes cfg p iv dtes candidates results = Ok results' ->
    Forall (recommended cfg p iv dtes all_candidates) results'.
Proof.
  induction candidates as [| k rest IH]; intros Hincl results results' Hres H.
  - cbn in H. inversion H; subst. exact Hres.
  - cbn in H.
    assert (Hrest : incl rest all_candidates) by (intros x Hx; apply Hincl; right; exact Hx).
    destruct (Rleb k (p * 1.02)) eqn:E; [apply (IH Hrest _ _ Hres H) |].
    apply Rleb_false_iff in E.
    destruct (analyze_dtes cfg p k iv dtes results) as [results1 | e] eqn:E1;
      cbn in H; [| discriminate].
    apply (IH Hrest _ _) in H; [exact H |].
    eapply analyze_dtes_recommended; [| exact E | apply incl_refl | exact Hres | exact E1].
    apply Hincl. left. reflexivity.
Qed.

Lemma insert_by_score_permutation (a : StrikeAnalysis) (l : list StrikeAnalysis) :
  Permutation (insert_by_score a l) (a :: l).
Proof.
  induction l as [| b l IH]; cbn; [reflexivity |].
  destruct (Rltb (score a) (score b)); [| reflexivity].
  rewrite IH. apply perm_swap.
Qed.

Lemma sort_by_score_permutation (l : list StrikeAnalysis) :
  Permutation (sort_by_score l) l.
Proof.
  induction l as [| a l IH]; cbn; [reflexivity |].
  rewrite insert_by_score_permutation. constructor. exact IH.
Qed.

(** Scores do not increase along the list. *)
Definition best_first (l : list StrikeAnalysis) : Prop :=
  StronglySorted (fun a b => score b <= score a) l.

Lemma insert_by_score_best_first (a : StrikeAnalysis) (l : list StrikeAnalysis) :
  best_first l -> best_first (insert_by_score a l).
Proof.
  unfold best_first. induction 1 as [| b l Hl IH Hall]; cbn [insert_by_score].
  - constructor; constructor.
  - destruct (Rltb (score a) (score b)) eqn:E.
    + apply Rltb_true_iff in E. constructor; [exact IH |].
      rewrite insert_by_score_permutation. constructor; [lra | exact Hall].
    + apply Rltb_false_iff in E. constructor.
      * constructor; assumption.
      * constructor; [exact E |].
        eapply Forall_impl; [| exact Hall]. cbn. intros; lra.
Qed.

Lemma sort_by_score_best_first (l : list StrikeAnalysis) : best_first (sort_by_score l).
Proof.
  induction l as [| a l IH]; cbn; [constructor |].
  apply insert_by_score_best_first. exact IH.
Qed.

Lemma analyze_dtes_complete (cfg : CoveredCallConfig) (p k iv : R) (dtes : list Z) :
  forall results results',
    analyze_dtes cfg p k iv dtes results = Ok results' ->
    incl results results'
    /\ forall dte a,
         In dte dtes -> analyze_strike cfg p k dte iv = Ok a ->
         0.01 <= analysis_net_premium a -> In a results'.
Proof.
  induction dtes as [| d rest IH]; intros results results' H; cbn in H.
  - inversion H; subst. split; [apply incl_refl | intros dte a []].
  - destruct (analyze_strike cfg p k d iv) as [a0 | e] eqn:Ea; cbn in H; [| discriminate].
    destruct (Rgeb (analysis_net_premium a0) 0.01) eqn:Enet.
    + destruct (IH _ _ H) as [Hincl Hall]. split.
      * intros x Hx. apply Hincl. apply in_or_app. left. exact Hx.
      * intros dte a [<- | Hin] Han Hnet.
        -- rewrite Ea in Han. inversion Han; subst.
           apply Hincl. apply in_or_app. right. left. reflexivity.
        -- eapply Hall; eassumption.
    + destruct (IH _ _ H) as [Hincl Hall]. split; [exact Hincl |].
      intros dte a [<- | Hin] Han Hnet.
      * rewrite Ea in Han. inversion Han; subst.
        apply Rleb_false_iff in Enet. lra.
      * eapply Hall; eassumption.
Qed.

Lemma analyze_strikes_complete (cfg : CoveredCallConfig) (p iv : R) (dtes : list Z)
    (candidates : list R) :
  forall results results',
    analyze_strikes cfg p iv dtes candidates results = Ok results' ->
    incl results results'
    /\ forall k dte a,
         In k candidates -> p * 1.02 < k -> In dte dtes ->
         analyze_strike cfg p k dte iv = Ok a ->
         0.01 <= analysis_net_premium a -> In a results'.
Proof.
  induction candidates as [| c rest IH]; intros results results' H; cbn in H.
  - inversion H; subst. split; [apply incl_refl | intros k dte a []].
  - destruct (Rleb c (p * 1.02)) eqn:E.
    + apply Rleb_true_iff in E. destruct (IH _ _ H) as [Hincl Hall].
      split; [exact Hincl |].
      intros k dte a [<- | Hin] Hotm Hdte Han Hnet; [lra |].
      eapply Hall; eassumption.
    + destruct (analyze_dtes cfg p c iv dtes results) as [results1 | e] eqn:E1;
        cbn in H; [| discriminate].
      destruct (analyze_dtes_complete _ _ _ _ _ _ _ E1) as [Hincl1 Hall1].
      destruct (IH _ _ H) as [Hincl Hall]. split.
      * intros x Hx. apply Hincl, Hincl1. exact Hx.
      * intros k dte a [<- | Hin] Hotm Hdte Han Hnet.
        -- apply Hincl. eapply Hall1; eassumption.
        -- eapply Hall; eassumption.
Qed.

(** Every analysis that is recommended is returned. *)
Lemma find_optimal_complete (cfg : CoveredCallConfig) (stock_price iv : R)
    (dte_options : option (list Z)) (results : list StrikeAnalysis)
    (a : StrikeAnalysis) :
  find_optimal cfg stock_price iv dte_options = Ok results ->
  recommended cfg stock_price iv
    (match dte_options with
     | Some options => options
     | None => [14; 21; 30; 45]%Z
     end) (strike_candidates cfg) a ->
  In a results.
Proof.
  unfold find_optimal.
  destruct (analyze_strikes _ _ _ _ _ _) as [unsorted | e] eqn:E; cbn; [| discriminate].
  intros H (Hk & Hotm & Hdte & Han & Hnet). inversion H; subst.
  eapply Permutation_in; [symmetry; apply sort_by_score_permutation |].
  destruct (analyze_strikes_complete _ _ _ _ _ _ _ E) as [_ Hall].
  eapply Hall; eassumption.
Qed.

(** The analysis of the 2.50 strike two years out, at a price of 2.40 and
    a volatility of 0.30, is recommended. *)
Lemma two_year_analysis :
  exists a,
    recommended default_config 2.4 0.30 [730%Z] (strike_candidates default_config) a
    /\ analysis_strike a = 2.5 /\ analysis_dte a = 730%Z
    /\ 0.04 <= analysis_net_premium a.
Proof.
  destruct two_year_call as [Hprice _]. cbv zeta in Hprice.
  assert (Ha : exists a,
             analyze_strike default_config 2.4 2.5 730 0.30 = Ok a
             /\ analysis_strike a = 2.5 /\ analysis_dte a = 730%Z
             /\ analysis_net_premium a
                = apply_bid_ask_slippage
                    (black_scholes_call 2.4 2.5 (IZR 730 / 365) 0.045 0.30) 0.15).
  { unfold analyze_strike.
    destruct (positive_strike_divides 2.5 (IZR 730 / 365) 0.30) as [-> ->]; [lra |].
    cbn [orb]. rewrite (proj2 (Reqb_false_iff 2.4 0)) by lra.
    eexists. split; [reflexivity |]. cbn. repeat split. }
  destruct Ha as (a & Han & Hk & Hdte & Hnet).
  assert (Hworth : 0.04 <= analysis_net_premium a)
    by (rewrite Hnet; unfold apply_bid_ask_slippage; lra).
  exists a. split; [| repeat split; assumption].
  unfold recommended. rewrite Hk, Hdte.
  split; [cbn; right; left; lra |]. split; [lra |].
  split; [left; reflexivity |]. split; [exact Han | lra].
Qed.

(** At a positive price, the entries [find_optimal] returns are exactly the
    analyses of the configured candidate strikes more than 2% above the
    price, for the expiries asked for, that are worth at least a cent per
    share after slippage; they come best score first.  The minimum strike
    of the configuration plays no part. *)
Theorem find_optimal_recommendations (cfg : CoveredCallConfig) (stock_price iv : R)
    (dte_options : option (list Z)) (results : list StrikeAnalysis) :
  0 < stock_price ->
  find_optimal cfg stock_price iv dte_options = Ok results ->
  (forall a,
     In a results
     <-> recommended cfg stock_price iv
           (match dte_options with
            | Some options => options
            | None => [14; 21; 30; 45]%Z
            end)
           (strike_candidates cfg) a)
  /\ best_first results.
Proof.
  intros _ Hfind. split.
  - intros a. split; [| apply (find_optimal_complete _ _ _ _ _ _ Hfind)].
    revert a. apply Forall_forall.
    unfold find_optimal in Hfind.
    destruct (analyze_strikes _ _ _ _ _ _) as [unsorted | e] eqn:E; cbn in Hfind;
      [| discriminate].
    inversion Hfind; subst.
    apply (analyze_strikes_recommended _ _ _ _ (strike_candidates cfg)) in E;
      [| apply incl_refl | constructor].
    rewrite Forall_forall in *. intros a Ha. apply E.
    eapply Permutation_in; [apply sort_by_score_permutation | exact Ha].
  - unfold find_optimal in Hfind.
    destruct (analyze_strikes _ _ _ _ _ _) as [unsorted | e]; cbn in Hfind;
      [| discriminate].
    inversion Hfind; subst. apply sort_by_score_best_first.
Qed.

Lemma analyze_strikes_total (cfg : CoveredCallConfig) (p iv : R) (dtes : list Z)
    (candidates : list R) :
  0 < p ->
  forall results, exists results',
    analyze_strikes cfg p iv dtes candidates results = Ok results'.
Proof.
  intros Hp.
  assert (Hdtes : forall k ds results, 0 < k -> exists results',
             analyze_dtes cfg p k iv ds results = Ok results').
  { intros k ds. induction ds as [| d ds IH]; intros results Hk; cbn.
    - exists results. reflexivity.
    - unfold analyze_strike.
      destruct (positive_strike_divides k (IZR d / 365) iv Hk) as [-> ->].
      cbn [orb]. rewrite (proj2 (Reqb_false_iff p 0)) by lra. cbn.
      destruct (Rgeb _ 0.01); apply IH; exact Hk. }
  induction candidates as [| k rest IH]; intros results; cbn.
  - exists results. reflexivity.
  - destruct (Rleb k (p * 1.02)) eqn:E; [apply IH |].
    apply Rleb_false_iff in E.
    destruct (Hdtes k dtes results) as (results1 & ->); [lra |]. cbn. apply IH.
Qed.

Lemma find_optimal_total (cfg : CoveredCallConfig) (p iv : R)
    (dte_options : option (list Z)) :
  0 < p -> exists results, find_optimal cfg p iv dte_options = Ok results.
Proof.
  intros Hp. unfold find_optimal.
  match goal with
  | |- context [analyze_strikes cfg p iv ?dtes ?ks []] =>
      destruct (analyze_strikes_total cfg p iv dtes ks Hp []) as (results & ->)
  end.
  cbn. eexists. reflexivity.
Qed.

Lemma find_optimal_recommendations_witness :
  exists results a,
    find_optimal default_config 2.4 0.30 (Some [730%Z]) = Ok results
    /\ In a results
    /\ analysis_strike a = 2.5 /\ analysis_dte a = 730%Z
    /\ 0.01 <= analysis_net_premium a
    /\ best_first results.
Proof.
  destruct (find_optimal_total default_config 2.4 0.30 (Some [730%Z])) as (results & H);
    [lra |].
  destruct two_year_analysis as (a & Hrec & Hk & Hdte & Hnet).
  assert (Hp : 0 < 2.4) by lra.
  destruct (find_optimal_recommendations default_config 2.4 0.30 (Some [730%Z])
              results Hp H) as [Hiff Hbest].
  exists results, a. split; [exact H |].
  split; [apply Hiff; exact Hrec |].
  split; [exact Hk |]. split; [exact Hdte |]. split; [lra | exact Hbest].
Defined.

(** At a positive price, every entry [find_optimal] returns scores above
    0.04: its score is the composite of half the annualized return, 0.3
    times the delta score, which is at least 0.1, and 0.2 times the upside
    score, which is above 0.02 / 0.30; the score of 0 given to premiums
    below half a cent is never returned. *)
Theorem find_optimal_scores (cfg : CoveredCallConfig) (stock_price iv : R)
    (dte_options : option (list Z)) (results : list StrikeAnalysis) :
  0 < stock_price ->
  find_optimal cfg stock_price iv dte_options = Ok results ->
  Forall (fun a =>
            score a
            = annualized_return a * 0.5
              + Rmax (1 - Rabs (delta a - 0.20) * 3) 0.1 * 0.3
              + Rmin (upside_to_strike_pct a / 0.30) 1 * 0.2
            /\ 0 <= annualized_return a
            /\ 0.04 < score a) results.
Proof.
  intros Hp Hfind.
  unfold find_optimal in Hfind.
  destruct (analyze_strikes _ _ _ _ _ _) as [unsorted | e] eqn:E; cbn in Hfind;
    [| discriminate].
  inversion Hfind; subst; clear Hfind.
  apply (analyze_strikes_recommended _ _ _ _ (strike_candidates cfg)) in E;
    [| apply incl_refl | constructor].
  rewrite Forall_forall in *. intros a Ha.
  assert (Hin : In a unsorted)
    by (eapply Permutation_in; [apply sort_by_score_permutation | exact Ha]).
  destruct (E a Hin) as (_ & Hotm & _ & Han & Hnet).
  unfold analyze_strike in Han.
  destruct (_ || _); [discriminate |].
  destruct (Reqb stock_price 0); [discriminate |].
  inversion Han as [Heq]. rewrite <- Heq in Hnet |- *. cbn in Hnet |- *.
  rewrite (proj2 (Rltb_false_iff _ 0.005)) by lra.
  set (net := apply_bid_ask_slippage _ _) in *.
  assert (Hann : 0 <= (if (analysis_dte a >? 0)%Z
                       then net / stock_price * (365 / IZR (analysis_dte a))
                       else 0)).
  { destruct (analysis_dte a >? 0)%Z eqn:Ed; [| lra].
    apply Z.gtb_lt in Ed. apply IZR_lt in Ed.
    apply Rmult_le_pos.
    - apply Rmult_le_pos; [lra | left; apply Rinv_0_lt_compat; exact Hp].
    - apply Rmult_le_pos; [lra | left; apply Rinv_0_lt_compat; exact Ed]. }
  split; [reflexivity |]. split; [exact Hann |].
  assert (Hdelta : 0.1 <= Rmax (1 - Rabs (call_delta stock_price (analysis_strike a)
                                            (IZR (analysis_dte a) / 365)
                                            (risk_free_rate cfg) iv - 0.20) * 3) 0.1)
    by apply Rmax_r.
  assert (Hup : 0.02 < (analysis_strike a - stock_price) / stock_price).
  { apply Rmult_lt_reg_r with stock_price; [exact Hp |].
    unfold Rdiv. rewrite Rmult_assoc, Rinv_l by lra. lra. }
  assert (Hupside : 0.05 < Rmin ((analysis_strike a - stock_price) / stock_price / 0.30) 1).
  { unfold Rmin. destruct (Rle_dec _ 1); lra. }
  lra.
Qed.

Lemma find_optimal_scores_witness :
  exists results a,
    find_optimal default_config 2.4 0.30 (Some [730%Z]) = Ok results
    /\ In a results
    /\ analysis_strike a = 2.5
    /\ score a
       = annualized_return a * 0.5
         + Rmax (1 - Rabs (delta a - 0.20) * 3) 0.1 * 0.3
         + Rmin (upside_to_strike_pct a / 0.30) 1 * 0.2
    /\ 0.04 < score a.
Proof.
  destruct (find_optimal_total default_config 2.4 0.30 (Some [730%Z])) as (results & H);
    [lra |].
  destruct two_year_analysis as (a & Hrec & Hk & _).
  pose proof (find_optimal_complete _ _ _ _ _ _ H Hrec) as Hin.
  assert (Hp : 0 < 2.4) by lra.
  pose proof (find_optimal_scores default_config 2.4 0.30 (Some [730%Z]) results Hp H)
    as Hall.
  rewrite Forall_forall in Hall. destruct (Hall a Hin) as (Hscore & _ & Hlow).
  exists results, a. split; [exact H |]. split; [exact Hin |].
  split; [exact Hk |]. split; [exact Hscore | exact Hlow].
Defined.

(* ================================================================== *)
(** * run_backtest.py: synthetic prices *)

(** The price loop of [generate_synthetic_data] from price [S] on;
    [draws] holds the values the calls of [np.random.randn()] return, one
    per iteration of [for _ in range(trading_days - 1)]. *)
Fixpoint synthetic_prices_from (S : R) (draws : list R) : list R :=
  match draws with
  | [] => []
  | z :: rest =>
      let dt := 1 / 252 in
      let mu := 0.05 in
      let sigma := 0.65 in
      let mean_level := 1.80 in
      let mean_revert_speed := 2.0 in
      let drift := mean_revert_speed * (mean_level - S) * dt + mu * dt in
      let shock := sigma * sqrt dt * z in
      let S_new := S * exp (drift + shock) in
      let S_new := Rmax S_new 0.50 in   (* floor at $0.50 *)
      S_new :: synthetic_prices_from S_new rest
  end.

(** The list [prices] of [generate_synthetic_data]. *)
Definition synthetic_prices (draws : list R) : list R :=
  1.70 :: synthetic_prices_from 1.70 draws.

Lemma synthetic_prices_from_floor (S : R) (draws : list R) :
  Forall (fun p => 0.50 <= p) (synthetic_prices_from S draws)
  /\ length (synthetic_prices_from S draws) = length draws.
Proof.
  revert S. induction draws as [| z rest IH]; intros S; cbn.
  - split; [constructor | reflexivity].
  - destruct (IH (Rmax (S * exp ((2.0 * (1.80 - S) * (1 / 252) + 0.05 * (1 / 252))
                                  + 0.65 * sqrt (1 / 252) * z)) 0.50)) as [Hall Hlen].
    split; [constructor; [apply Rmax_r | exact Hall] | rewrite Hlen; reflexivity].
Qed.

(** Whatever the random draws, the synthetic series has one price more
    than there are draws and never goes below 0.50; put on dates of which
    at least 30 lie in the window, it makes a backtest complete without an
    exception when the configured days to expiry are not zero, the minimum
    strike is positive and every date, and the expiration of a call sold on
    it, is in the range of dates. *)
Theorem synthetic_data_feeds_a_run (cfg : CoveredCallConfig) (draws : list R)
    (dates : list date) (start_date end_date : option date) :
  (30 <= length (filter (in_window start_date end_date)
                   (combine dates (synthetic_prices draws))))%nat ->
  target_dte cfg <> 0%Z ->
  Forall (can_sell cfg) dates ->
  length (synthetic_prices draws) = S (length draws)
  /\ Forall (fun p => 0.50 <= p) (synthetic_prices draws)
  /\ exists res,
       run cfg (combine dates (synthetic_prices draws)) start_date end_date = Ok res.
Proof.
  intros Hrows Hdte Hdates.
  destruct (synthetic_prices_from_floor 1.70 draws) as [Hall Hlen].
  assert (Hfloor : Forall (fun p => 0.50 <= p) (synthetic_prices draws))
    by (constructor; [lra | exact Hall]).
  split; [cbn; rewrite Hlen; reflexivity |]. split; [exact Hfloor |].
  destruct (Nat.ltb_spec (length (window_rows (combine dates (synthetic_prices draws))
                                    start_date end_date)) 30) as [Hlt | Hge].
  { rewrite window_rows_length in Hlt. lia. }
  assert (Hnz : Forall (fun row : date * R => snd row <> 0)
                  (window_rows (combine dates (synthetic_prices draws))
                     start_date end_date)).
  { rewrite window_rows_shape. apply Forall_forall. intros [d p] Hin.
    apply filter_In in Hin. destruct Hin as [Hin _].
    apply (Permutation_in _ (sort_values_permutation _)) in Hin.
    apply in_combine_r in Hin. rewrite Forall_forall in Hfloor.
    specialize (Hfloor p Hin). cbn. lra. }
  assert (Hcan : Forall (fun row : date * R => can_sell cfg (fst row))
                   (window_rows (combine dates (synthetic_prices draws))
                      start_date end_date)).
  { apply window_rows_Forall. apply Forall_forall. intros [d p] Hin.
    apply in_combine_l in Hin. rewrite Forall_forall in Hdates.
    exact (Hdates d Hin). }
  unfold run. rewrite (proj2 (Nat.ltb_ge _ _) Hge). unfold simulate.
  match goal with
  | |- context [day_loop cfg ?ivs ?start ?rows 0 ?st0] =>
      destruct (day_loop_total cfg ivs start rows Hnz Hdte Hcan 0%nat st0 eq_refl)
        as (st & Hloop)
  end.
  rewrite Hloop. cbn [bind]. eexists. reflexivity.
Qed.

Lemma synthetic_data_feeds_a_run_witness :
  let draws := repeat 0%R 29 in
  let dates := map Z.of_nat (seq 1 30) in
  length (synthetic_prices draws) = 30%nat
  /\ exists res,
       run default_config (combine dates (synthetic_prices draws)) None None = Ok res.
Proof.
  cbv zeta.
  assert (Hlength : length (synthetic_prices (repeat 0%R 29)) = 30%nat).
  { destruct (synthetic_prices_from_floor 1.70 (repeat 0%R 29)) as [_ Hl].
    cbn [synthetic_prices length]. rewrite Hl, repeat_length. reflexivity. }
  assert (Hlen : (30 <= length (filter (in_window None None)
                                  (combine (map Z.of_nat (seq 1 30))
                                     (synthetic_prices (repeat 0%R 29)))))%nat).
  { rewrite <- window_rows_length. unfold window_rows.
    rewrite (Permutation_length (sort_values_permutation _)).
    rewrite length_combine, length_map, length_seq, Hlength. cbn. lia. }
  assert (Hdte : target_dte default_config <> 0%Z) by (cbn; lia).
  assert (Hdates : Forall (can_sell default_config) (map Z.of_nat (seq 1 30))).
  { apply Forall_map. apply Forall_forall. intros n Hn. apply in_seq in Hn.
    unfold can_sell, date_in_range. cbn. split; [lra | lia]. }
  destruct (synthetic_data_feeds_a_run default_config (repeat 0%R 29)
              (map Z.of_nat (seq 1 30)) None None Hlen Hdte Hdates)
    as (Hl & _ & Hrun).
  split; [rewrite Hl, repeat_length; reflexivity | exact Hrun].
Defined.

(* ================================================================== *)
(** * More on the day loop *)

(** ** Entry and re-entry *)

(** A day that starts with no shares and no call, and is the first day or
    follows an assignment, buys the lot at the close and sells a call on it
    the same day: for a row the volatility series has an entry for, a
    non-zero close, positive days to expiry, a positive minimum strike and
    a date whose expiration is a date, the day ends holding the lot under a
    call expiring that many days later, with the purchase and the sale
    appended to the log and the cash changed by their two amounts. *)
Theorem flat_day_reenters (cfg : CoveredCallConfig) (iv_series : list (option R))
    (backtest_start : date) (i : nat) (row : date * R) (st : LoopState) :
  config (strategy st) = cfg ->
  shares_held (strategy st) = 0%Z -> position (strategy st) = None ->
  i = 0%nat \/ (0 < times_called_away (strategy st))%Z ->
  (i < length iv_series)%nat ->
  snd row <> 0 -> (0 < target_dte cfg)%Z ->
  can_sell cfg (fst row) ->
  exists st' pos buy sale,
    day cfg iv_series backtest_start i row st = Ok st'
    /\ position (strategy st') = Some pos
    /\ entry_date pos = fst row
    /\ expiration pos = (fst row + target_dte cfg)%Z
    /\ shares_held (strategy st') = shares cfg
    /\ trades (strategy st') = trades (strategy st) ++ [buy; sale]
    /\ action buy = BUY_STOCK /\ action sale = SELL_CALL
    /\ cash st' = cash st + premium buy + premium sale.
Proof.
  intros Hcfg Hshares Hpos Hwhen _ Hp Hdte Hcan.
  pose proof (can_sell_expiration_defined cfg (fst row) Hcan) as Hdated.
  destruct Hcan as (Hmin & _).
  set (iv := match nth i iv_series None with Some v => v | None => 0.50 end).
  destruct (sell_call_total (snd (open_stock_position (strategy st) (fst row) (snd row)))
              (fst row) (snd row) iv None Hp) as (sale & sold & Hsell).
  { cbn. rewrite Hcfg. lia. }
  { cbn. rewrite Hcfg. exact Hmin. }
  { cbn. rewrite Hcfg. exact Hdated. }
  destruct (sell_call_Ok _ _ _ _ _ _ _ Hsell)
    as (k & prem & _ & Hsale & Hsold & Hc & Hsh & Hlog & _).
  cbn [open_stock_position snd config shares_held trades] in Hsold, Hc, Hsh, Hlog.
  assert (H1 : buy_and_sell_first_call cfg i (fst row) (snd row) iv
                 (strategy st) (cash st)
               = Ok (sold, cash st - snd row * IZR (shares cfg) + premium sale)).
  { unfold buy_and_sell_first_call. rewrite Hshares, Hpos.
    cbn [Z.eqb is_some negb andb].
    replace ((i =? 0)%nat || (times_called_away (strategy st) >? 0)%Z) with true.
    - cbn [open_stock_position snd] in Hsell |- *. rewrite Hsell. reflexivity.
    - symmetry. apply orb_true_iff. destruct Hwhen as [-> | Hc'].
      + left. reflexivity.
      + right. apply Z.gtb_lt. exact Hc'. }
  assert (H2 : expire_or_roll (fst row) (snd row) iv sold
                 (cash st - snd row * IZR (shares cfg) + premium sale)
               = Ok (sold, cash st - snd row * IZR (shares cfg) + premium sale)).
  { eapply expire_or_roll_idle; [exact Hsold |]. cbn. rewrite Hcfg. lia. }
  unfold day. fold iv. rewrite H1. cbn [bind]. rewrite H2. cbn [bind].
  assert (Hgoal : forall st',
             strategy st' = sold ->
             cash st' = cash st - snd row * IZR (shares cfg) + premium sale ->
             exists pos buy sale0,
               position (strategy st') = Some pos
               /\ entry_date pos = fst row
               /\ expiration pos = (fst row + target_dte cfg)%Z
               /\ shares_held (strategy st') = shares cfg
               /\ trades (strategy st') = trades (strategy st) ++ [buy; sale0]
               /\ action buy = BUY_STOCK /\ action sale0 = SELL_CALL
               /\ cash st' = cash st + premium buy + premium sale0).
  { intros st' Hs' Hc'. rewrite Hs', Hc', Hsold, Hsh, Hlog, Hcfg.
    eexists. eexists. exists sale. cbn [entry_date expiration].
    split; [reflexivity |]. split; [reflexivity |]. split; [reflexivity |].
    split; [reflexivity |]. split; [rewrite <- app_assoc; reflexivity |].
    split; [reflexivity |]. split; [rewrite Hsale; reflexivity |].
    cbn [premium]. lra. }
  destruct (i mod 5 =? 0)%nat.
  - destruct (check _ _ _ _) as [snapshot monitor].
    destruct (warning snapshot);
      (eexists; edestruct Hgoal as (pos & buy & sale0 & H);
       [| | exists pos, buy, sale0; split; [reflexivity | exact H]]; reflexivity).
  - eexists; edestruct Hgoal as (pos & buy & sale0 & H);
      [| | exists pos, buy, sale0; split; [reflexivity | exact H]]; reflexivity.
Qed.

Lemma flat_day_reenters_witness :
  let st := {| strategy := new_strategy default_config;
               cash_monitor := new_monitor 1.50 0.10;
               cash := 2000; equity_curve := []; cash_warnings := [] |} in
  exists st',
    day default_config [Some 0.30] 1 0 (1%Z, 2) st = Ok st'
    /\ shares_held (strategy st') = 1000%Z.
Proof.
  cbv zeta.
  match goal with
  | |- exists st', day _ _ _ _ _ ?st = _ /\ _ =>
      destruct (flat_day_reenters default_config [Some 0.30] 1 0 (1%Z, 2) st)
        as (st' & pos & buy & sale & Hday & _ & _ & _ & Hshares & _)
  end.
  - reflexivity.
  - reflexivity.
  - reflexivity.
  - left. reflexivity.
  - cbn. lia.
  - cbn. lra.
  - reflexivity.
  - unfold can_sell, date_in_range. cbn. split; [lra | lia].
  - exists st'. split; [exact Hday | exact Hshares].
Defined.

(** ** The volatility a run prices with *)

Lemma day_loop_iv_floor (cfg : CoveredCallConfig) (iv_series : list (option R))
    (backtest_start : date) (rows : list (date * R)) :
  Forall floored iv_series ->
  forall i st st',
    Forall (fun e => 0.30 <= IV e) (equity_curve st) ->
    day_loop cfg iv_series backtest_start rows i st = Ok st' ->
    Forall (fun e => 0.30 <= IV e) (equity_curve st').
Proof.
  intros Hfloor.
  induction rows as [| row rest IH]; intros i st st' Hst Hloop; cbn in Hloop.
  - inversion Hloop; subst. exact Hst.
  - destruct (day cfg iv_series backtest_start i row st) as [st1 | e] eqn:Eday;
      cbn in Hloop; [| discriminate].
    eapply IH; [| exact Hloop].
    destruct (day_snapshot _ _ _ _ _ _ _ Eday) as (snapshot & Hcurve & _ & _ & _ & Hiv).
    rewrite Hcurve. apply Forall_app. split; [exact Hst |].
    constructor; [| constructor]. rewrite Hiv.
    destruct (nth_in_or_default i iv_series None) as [Hin | ->]; [| lra].
    rewrite Forall_forall in Hfloor. specialize (Hfloor _ Hin).
    destruct (nth i iv_series None); [exact Hfloor | lra].
Qed.

(** On every day of a completed run the volatility used for pricing, the
    one the daily snapshot records, is at least 0.30: the estimate is
    floored there, and the stand-in for a missing estimate is 0.50. *)
Theorem run_prices_with_floored_volatility (cfg : CoveredCallConfig)
    (prices : list (date * R)) (start_date end_date : option date)
    (res : BacktestResult) :
  run cfg prices start_date end_date = Ok res ->
  Forall (fun e => 0.30 <= IV e) (daily_equity res).
Proof.
  unfold run. destruct (_ <? 30)%nat; [discriminate |].
  destruct (simulate cfg _) as [st | e] eqn:Hsim; cbn [bind]; [| discriminate].
  intros H. inversion H; subst. cbn [daily_equity metrics].
  unfold simulate in Hsim.
  eapply day_loop_iv_floor; [| | exact Hsim].
  - apply implied_volatility_floored.
  - constructor.
Qed.

Lemma run_prices_with_floored_volatility_witness :
  exists res,
    run default_config flat_prices None None = Ok res
    /\ Forall (fun e => 0.30 <= IV e) (daily_equity res).
Proof.
  destruct flat_run as (res & Hrun & _). exists res. split; [exact Hrun |].
  exact (run_prices_with_floored_volatility _ _ _ _ _ Hrun).
Defined.

(** ** Reconciliation with assignments *)

(** For every completed run, the equity of the final snapshot is the
    initial capital plus the amounts of the trade log, plus the lot size
    times the strike of every CALLED_AWAY entry (which the log carries with
    amount 0), plus the ending stock value, minus the mark-to-market
    liability of the call open at the end.  The ending stock value is the
    shares held times the last close, 0 after an assignment on the last
    day; the liability is the model value of the open call on the last row
    times its contracts times 100, and 0 when the run ends without a
    position. *)
Theorem equity_reconciles_with_assignments (cfg : CoveredCallConfig)
    (prices : list (date * R)) (start_date end_date : option date)
    (res : BacktestResult) :
  run cfg prices start_date end_date = Ok res ->
  let df := window_rows prices start_date end_date in
  let last_row := last df (0%Z, 0) in
  exists st earlier final,
    simulate cfg df = Ok st
    /\ daily_equity res = earlier ++ [final]
    /\ Equity final
       = initial_investment_of cfg df
         + sum_premium (result_trades res)
         + assignment_proceeds cfg (result_trades res)
         + StockValue final - OptionLiability final
    /\ StockValue final = IZR (shares_held (strategy st)) * snd last_row
    /\ OptionLiability final
       = mark_to_market cfg (strategy st) (fst last_row) (snd last_row)
           (iv_of_day df (length df - 1))
    /\ (shares_held (strategy st) = 0%Z -> StockValue final = 0)
    /\ (position (strategy st) = None -> OptionLiability final = 0).
Proof.
  intros Hrun df last_row.
  destruct (run_reconciles _ _ _ _ _ Hrun)
    as (st & earlier & final & Hsim & _ & Hcurve & Hequity & Hstock & Hliab & Hiv).
  fold df in Hsim, Hequity, Hstock, Hliab, Hiv. fold last_row in Hstock, Hliab.
  rewrite Hiv in Hliab.
  exists st, earlier, final.
  split; [exact Hsim |]. split; [exact Hcurve |]. split; [exact Hequity |].
  split; [exact Hstock |]. split; [exact Hliab |]. split.
  - intros Hzero. rewrite Hstock, Hzero. lra.
  - intros Hpos. rewrite Hliab. unfold mark_to_market. rewrite Hpos. reflexivity.
Qed.

(** The run on [assigned_prices]: the shares are called away on the last
    day at the strike sold on day 1; the run ends with no shares and no
    open call, and the final equity is the initial capital plus the amounts
    of the trade log plus the lot size times that strike. *)
Lemma equity_reconciles_with_assignments_witness :
  exists res earlier final called k,
    run default_config assigned_prices None None = Ok res
    /\ In called (result_trades res)
    /\ action called = CALLED_AWAY /\ trade_strike called = Some k
    /\ premium called = 0
    /\ daily_equity res = earlier ++ [final]
    /\ StockValue final = 0 /\ OptionLiability final = 0
    /\ Equity final
       = initial_investment_of default_config (window_rows assigned_prices None None)
         + sum_premium (result_trades res)
         + 1000 * k.
Proof.
  destruct (simulate_enters_holds_assigned default_config (1%Z, 2.4)
              (flat_days 2 29 2.4) (31%Z, 6))
    as (st & Hsim & Hnone & Hzero & buy & sell & called & k
        & Hlog & Hbuy & Hsell & Hcalled & Hstrike & Hamount & Hk).
  { cbn. lra. }
  { reflexivity. }
  { cbn. lra. }
  { apply (default_expiration_defined 1). lia. }
  { apply flat_days_before. cbn. lia. }
  { cbn. lia. }
  { cbn. repeat (apply Forall_cons; [lra |]). apply Forall_nil. }
  change (simulate default_config assigned_prices = Ok st) in Hsim.
  destruct (run_on_ascending default_config assigned_prices st) as [Hwindow Hres];
    [reflexivity | cbn; lia | exact Hsim |].
  destruct (equity_reconciles_with_assignments _ _ _ _ _ Hres)
    as (st' & earlier & final & Hsim' & Hcurve & Hequity & _ & _ & Hstock & Hliab).
  rewrite Hwindow in Hsim', Hequity. rewrite Hsim in Hsim'.
  inversion Hsim'; subst st'; clear Hsim'.
  exists (metrics default_config assigned_prices st), earlier, final, called, k.
  split; [exact Hres |]. cbn [result_trades metrics] in Hequity |- *.
  split; [rewrite Hlog; right; right; left; reflexivity |].
  split; [exact Hcalled |]. split; [exact Hstrike |]. split; [exact Hamount |].
  split; [exact Hcurve |].
  split; [exact (Hstock Hzero) |]. split; [exact (Hliab Hnone) |].
  rewrite Hwindow, Hequity, (Hstock Hzero), (Hliab Hnone), Hlog.
  unfold assignment_proceeds. cbn [fold_right].
  rewrite Hbuy, Hsell, Hcalled, Hstrike. cbn [Action_eqb shares default_config].
  lra.
Defined.

(** ** The profit rule of [should_roll] after a sale *)


